(** * autotest: element detection, LLM test generation and replay

    A shallow embedding of [u.py] (the original script, lines 1-341, and its
    later copy, lines 343-716).  Python strings are modelled as [string],
    read as sequences of code points below 256; Python values that come out
    of [json.loads] are modelled by [json]; the browser driven through
    Selenium is an oracle answering commands, and every command issued is
    recorded in a trace. *)

From Stdlib Require Import String Ascii List ZArith Lia Bool Arith.
From Stdlib Require DecimalString DecimalNat.
Import ListNotations.

Local Open Scope list_scope.
Local Open Scope string_scope.

(** ** Python strings *)

Module Py.

(** The double quote, the newline and the backslash, which a Rocq string
    literal cannot spell. *)
Definition dquote : ascii := "034"%char.
Definition newline : ascii := "010"%char.
Definition backslash : ascii := "092"%char.

Definition chr (c : ascii) : string := String c EmptyString.

(** [str.isspace] on one code point below 256: the ASCII whitespace
    U+0009..U+000D, the separators U+001C..U+001F, the space, U+0085 and
    U+00A0. *)
Definition isspace (c : ascii) : bool :=
  let n := nat_of_ascii c in
  (((9 <=? n) && (n <=? 13)) || ((28 <=? n) && (n <=? 32))
   || (n =? 133) || (n =? 160))%nat.

(** [s.lstrip()] *)
Fixpoint lstrip (s : string) : string :=
  match s with
  | EmptyString => EmptyString
  | String c s' => if isspace c then lstrip s' else s
  end.

(** [s.rstrip()] *)
Fixpoint rstrip (s : string) : string :=
  match s with
  | EmptyString => EmptyString
  | String c s' =>
      match rstrip s' with
      | EmptyString => if isspace c then EmptyString else chr c
      | r => String c r
      end
  end.

(** [s.strip()] *)
Definition strip (s : string) : string := rstrip (lstrip s).

(** [s[n:]] for [0 <= n] *)
Fixpoint drop (n : nat) (s : string) : string :=
  match n, s with
  | O, _ => s
  | S _, EmptyString => EmptyString
  | S n', String _ s' => drop n' s'
  end.

(** [s[:-n]] for [0 < n] *)
Definition chop (n : nat) (s : string) : string :=
  substring 0 (String.length s - n) s.

(** [s.startswith(p)] *)
Definition startswith (s p : string) : bool := prefix p s.

(** [s.endswith(p)] *)
Definition endswith (s p : string) : bool :=
  (String.length p <=? String.length s)%nat
  && (drop (String.length s - String.length p) s =? p).

(** [sep.join(parts)] *)
Definition join (sep : string) (parts : list string) : string :=
  String.concat sep parts.

(** [needle in haystack] on two strings *)
Definition substring_of (needle haystack : string) : bool :=
  match index 0 needle haystack with
  | Some _ => true
  | None => match needle with EmptyString => true | _ => false end
  end.

(** [l.append(x)] *)
Definition append {A : Type} (l : list A) (x : A) : list A := (l ++ [x])%list.

(** [str(n)] for a natural number *)
Definition str_of_nat (n : nat) : string :=
  DecimalString.NilZero.string_of_uint (Nat.to_uint n).

End Py.

(** ** Code-fence stripping

    [generate_test_case], lines 86-91 (and 435-440 in the copy):
    the clean-up applied to the LLM's message before [json.loads]. *)

Definition fence_open : string := "```json".
Definition fence_close : string := "```".

Definition strip_code_fence (content : string) : string :=
  let content := Py.strip content in
  let content := if Py.startswith content fence_open
                 then Py.drop 7 content else content in
  let content := if Py.endswith content fence_close
                 then Py.chop 3 content else content in
  Py.strip content.

(** ** Python values decoded from JSON

    What [json.loads] returns: [None], [bool], [int], [float] (kept as the
    literal that was read), [str], [list] and [dict].  A [dict] lists its
    entries in insertion order, with distinct keys. *)

#[warnings="-register-all"]
Inductive json : Type :=
| JNull
| JBool (b : bool)
| JInt (n : Z)
| JFloat (literal : string)
| JStr (s : string)
| JList (items : list json)
| JDict (entries : list (string * json)).

(** A subscript: [v['name']] or [v[i]]. *)
Inductive key : Type :=
| Name (s : string)
| Index (i : nat).

(** ** Exceptions *)

Inductive operation : Type := Subscript | Iterate | Contains.

Inductive exn : Type :=
| KeyError (k : key)
| IndexError (container : json)
| TypeError (op : operation) (operand : json)
| AttributeError (operand : json) (attribute : string)
| JSONDecodeError (doc : string)
| ValueError (msg : string)
| RequestException (msg : string)
| TimeoutException (msg : string)
| WebDriverException (msg : string)
| Exception (msg : string).

Inductive result (A : Type) : Type :=
| Ok (a : A)
| Raise (e : exn).

Arguments Ok {A} a.
Arguments Raise {A} e.

Definition bind {A B : Type} (r : result A) (k : A -> result B) : result B :=
  match r with
  | Ok a => k a
  | Raise e => Raise e
  end.

(** [try: body  except Exception as e: handler(e)] *)
Definition try_except {A : Type} (body : result A) (handler : exn -> result A)
  : result A :=
  match body with
  | Ok a => Ok a
  | Raise e => handler e
  end.

Declare Scope result_scope.
Delimit Scope result_scope with result.
Notation "x <- c1 ;; c2" := (bind c1 (fun x => c2))
  (at level 61, c1 at next level, right associativity) : result_scope.
Notation "c1 ;; c2" := (bind c1 (fun _ => c2))
  (at level 61, right associativity) : result_scope.

Definition raises {A : Type} (r : result A) : Prop := exists e, r = Raise e.

(** ** Python's operations on decoded values *)

Module Value.

(** [d.get(k)] on the entries of a dict *)
Fixpoint lookup (k : string) (entries : list (string * json)) : option json :=
  match entries with
  | [] => None
  | (k', v) :: rest => if k' =? k then Some v else lookup k rest
  end.

(** [d[k] = v] on the entries of a dict: an existing key keeps its place. *)
Fixpoint dict_set {V : Type} (k : string) (v : V) (entries : list (string * V))
  : list (string * V) :=
  match entries with
  | [] => [(k, v)]
  | (k', v') :: rest =>
      if k' =? k then (k', v) :: rest else (k', v') :: dict_set k v rest
  end.

(** [v[k]] *)
Definition getitem (v : json) (k : key) : result json :=
  match v, k with
  | JDict entries, Name s =>
      match lookup s entries with
      | Some x => Ok x
      | None => Raise (KeyError k)
      end
  | JDict _, Index _ => Raise (KeyError k)
  | JList items, Index i =>
      match nth_error items i with
      | Some x => Ok x
      | None => Raise (IndexError v)
      end
  | JStr s, Index i =>
      match String.get i s with
      | Some c => Ok (JStr (Py.chr c))
      | None => Raise (IndexError v)
      end
  | _, _ => Raise (TypeError Subscript v)
  end.

(** The values [for x in v] runs through. *)
Definition iterate (v : json) : result (list json) :=
  match v with
  | JList items => Ok items
  | JDict entries => Ok (map (fun kv => JStr (fst kv)) entries)
  | JStr s => Ok (map (fun c => JStr (Py.chr c)) (list_ascii_of_string s))
  | _ => Raise (TypeError Iterate v)
  end.

(** [x == field] for a string [field] *)
Definition eq_str (x : json) (field : string) : bool :=
  match x with
  | JStr s => s =? field
  | _ => false
  end.

(** [field in v] for a string [field]: key membership on a dict, item
    membership on a list, substring test on a string. *)
Definition contains (field : string) (v : json) : result bool :=
  match v with
  | JDict entries => Ok (existsb (fun kv => fst kv =? field) entries)
  | JList items => Ok (existsb (fun x => eq_str x field) items)
  | JStr s => Ok (Py.substring_of field s)
  | _ => Raise (TypeError Contains v)
  end.

(** [isinstance(v, dict)] *)
Definition is_dict (v : json) : bool :=
  match v with
  | JDict _ => true
  | _ => false
  end.

End Value.

(** ** A decoder for JSON text

    [json.loads] belongs to the Python library, not to this repository: the
    generator below takes the decoder as a parameter.  [Decoder.loads] is
    the instance used on concrete documents.  It follows the library's
    scanner on documents whose strings stay below U+0100 (a [\u] escape
    beyond that, surrogate pairs included, has no value in this model). *)

Module Decoder.

Local Open Scope char_scope.

Definition is_ws (c : ascii) : bool :=
  match c with
  | " " | "009" | "010" | "013" => true
  | _ => false
  end.

Fixpoint skip_ws (s : list ascii) : list ascii :=
  match s with
  | c :: r => if is_ws c then skip_ws r else s
  | [] => []
  end.

Definition digit_value (c : ascii) : option nat :=
  let n := nat_of_ascii c in
  if ((48 <=? n) && (n <=? 57))%nat then Some (n - 48) else None.

Definition hex_value (c : ascii) : option nat :=
  let n := nat_of_ascii c in
  if ((48 <=? n) && (n <=? 57))%nat then Some (n - 48)
  else if ((65 <=? n) && (n <=? 70))%nat then Some (n - 55)
  else if ((97 <=? n) && (n <=? 102))%nat then Some (n - 87)
  else None.

(** The longest run of decimal digits at the head of [s], and what follows. *)
Fixpoint span_digits (s : list ascii) : list ascii * list ascii :=
  match s with
  | c :: r =>
      match digit_value c with
      | Some _ => let (ds, rest) := span_digits r in (c :: ds, rest)
      | None => ([], s)
      end
  | [] => ([], [])
  end.

Definition Z_of_digits (ds : list ascii) : Z :=
  fold_left
    (fun acc c => (10 * acc + Z.of_nat (nat_of_ascii c - 48))%Z) ds 0%Z.

(** The integer part of a number: an optional minus sign, then either a
    single zero or a non-zero digit followed by digits. *)
Definition scan_integer (s : list ascii)
  : option (bool * list ascii * list ascii) :=
  let (negative, s1) :=
    match s with
    | "-" :: r => (true, r)
    | _ => (false, s)
    end in
  match s1 with
  | "0" :: r => Some (negative, ["0"], r)
  | c :: r =>
      match digit_value c with
      | Some _ => let (ds, rest) := span_digits r in
                  Some (negative, c :: ds, rest)
      | None => None
      end
  | [] => None
  end.

(** The optional fraction: a dot followed by one digit or more. *)
Definition scan_fraction (s : list ascii) : list ascii * list ascii :=
  match s with
  | "." :: r =>
      match span_digits r with
      | ([], _) => ([], s)
      | (ds, rest) => ("." :: ds, rest)
      end
  | _ => ([], s)
  end.

(** The optional exponent: e or E, an optional sign, one digit or more. *)
Definition scan_exponent (s : list ascii) : list ascii * list ascii :=
  match s with
  | e :: r =>
      if (Ascii.eqb e "e" || Ascii.eqb e "E")%bool then
        let (sign, r1) :=
          match r with
          | "-" :: r' => (["-"], r')
          | "+" :: r' => (["+"], r')
          | _ => ([], r)
          end in
        match span_digits r1 with
        | ([], _) => ([], s)
        | (ds, rest) => (((e :: sign) ++ ds)%list, rest)
        end
      else ([], s)
  | [] => ([], s)
  end.

Definition scan_number (s : list ascii) : option (json * list ascii) :=
  match scan_integer s with
  | Some (negative, ds, r) =>
      let (frac, r1) := scan_fraction r in
      let (exp, r2) := scan_exponent r1 in
      match frac, exp with
      | [], [] =>
          let n := Z_of_digits ds in
          Some (JInt (if negative then (- n)%Z else n), r2)
      | _, _ =>
          let sign := if negative then ["-"] else [] in
          Some (JFloat (string_of_list_ascii (sign ++ ds ++ frac ++ exp)%list), r2)
      end
  | None => None
  end.

Definition unescape (c : ascii) : option ascii :=
  match c with
  | "034" => Some "034"
  | "092" => Some "092"
  | "/" => Some "/"
  | "b" => Some "008"
  | "f" => Some "012"
  | "n" => Some "010"
  | "r" => Some "013"
  | "t" => Some "009"
  | _ => None
  end.

Definition hex4 (a b c d : ascii) : option nat :=
  match hex_value a, hex_value b, hex_value c, hex_value d with
  | Some x, Some y, Some z, Some w => Some (((x * 16 + y) * 16 + z) * 16 + w)
  | _, _, _, _ => None
  end.

(** The body of a string, after its opening quote; [acc] holds the
    characters read so far, last first. *)
Fixpoint scan_string (s : list ascii) (acc : list ascii)
  : option (string * list ascii) :=
  match s with
  | [] => None
  | c :: r =>
      if Ascii.eqb c Py.dquote then
        Some (string_of_list_ascii (List.rev acc), r)
      else if Ascii.eqb c Py.backslash then
        match r with
        | [] => None
        | "u" :: r1 =>
            match r1 with
            | h1 :: h2 :: h3 :: h4 :: r2 =>
                match hex4 h1 h2 h3 h4 with
                | Some n =>
                    if (n <? 256)%nat
                    then scan_string r2 (ascii_of_nat n :: acc)
                    else None
                | None => None
                end
            | _ => None
            end
        | e :: r1 =>
            match unescape e with
            | Some c' => scan_string r1 (c' :: acc)
            | None => None
            end
        end
      else if (nat_of_ascii c <? 32)%nat then None
      else scan_string r (c :: acc)
  end.

(** [s] starts with the characters of [word]: what follows, if so. *)
Fixpoint expect (word s : list ascii) : option (list ascii) :=
  match word, s with
  | [], _ => Some s
  | w :: word', c :: s' => if Ascii.eqb w c then expect word' s' else None
  | _ :: _, [] => None
  end.

Definition literal (word : string) (v : json) (s : list ascii)
  : option (json * list ascii) :=
  match expect (list_ascii_of_string word) s with
  | Some rest => Some (v, rest)
  | None => None
  end.

Fixpoint scan_once (fuel : nat) (s : list ascii) {struct fuel}
  : option (json * list ascii) :=
  match fuel with
  | O => None
  | S fuel' =>
      match s with
      | [] => None
      | "034" :: r =>
          match scan_string r [] with
          | Some (str, rest) => Some (JStr str, rest)
          | None => None
          end
      | "{" :: r =>
          match skip_ws r with
          | "}" :: rest => Some (JDict [], rest)
          | r' => scan_members fuel' r' []
          end
      | "[" :: r =>
          match skip_ws r with
          | "]" :: rest => Some (JList [], rest)
          | r' => scan_items fuel' r' []
          end
      | "n" :: _ => literal "null" JNull s
      | "t" :: _ => literal "true" (JBool true) s
      | "f" :: _ => literal "false" (JBool false) s
      | _ =>
          match scan_number s with
          | Some found => Some found
          | None =>
              match s with
              | "N" :: _ => literal "NaN" (JFloat "nan") s
              | "I" :: _ => literal "Infinity" (JFloat "inf") s
              | "-" :: _ => literal "-Infinity" (JFloat "-inf") s
              | _ => None
              end
          end
      end
  end

with scan_members (fuel : nat) (s : list ascii)
       (entries : list (string * json)) {struct fuel}
  : option (json * list ascii) :=
  match fuel with
  | O => None
  | S fuel' =>
      match s with
      | "034" :: r =>
          match scan_string r [] with
          | Some (k, r1) =>
              match skip_ws r1 with
              | ":" :: r2 =>
                  match scan_once fuel' (skip_ws r2) with
                  | Some (v, r3) =>
                      let entries := Value.dict_set k v entries in
                      match skip_ws r3 with
                      | "}" :: rest => Some (JDict entries, rest)
                      | "," :: r4 => scan_members fuel' (skip_ws r4) entries
                      | _ => None
                      end
                  | None => None
                  end
              | _ => None
              end
          | None => None
          end
      | _ => None
      end
  end

with scan_items (fuel : nat) (s : list ascii) (items : list json)
       {struct fuel}
  : option (json * list ascii) :=
  match fuel with
  | O => None
  | S fuel' =>
      match scan_once fuel' s with
      | Some (v, r) =>
          let items := Py.append items v in
          match skip_ws r with
          | "]" :: rest => Some (JList items, rest)
          | "," :: r1 => scan_items fuel' (skip_ws r1) items
          | _ => None
          end
      | None => None
      end
  end.

(** [json.loads(s)]: one value, with only whitespace around it. *)
Definition loads (s : string) : option json :=
  let chars := list_ascii_of_string s in
  match scan_once (S (List.length chars)) (skip_ws chars) with
  | Some (v, rest) =>
      match skip_ws rest with
      | [] => Some v
      | _ :: _ => None
      end
  | None => None
  end.

End Decoder.

(** [json.loads] in the examples: the decoder above, raising a
    [JSONDecodeError] on what it does not decode. *)
Definition json_loads (s : string) : result json :=
  match Decoder.loads s with
  | Some v => Ok v
  | None => Raise (JSONDecodeError s)
  end.

(** Test documents are written with single quotes standing for the double
    quotes of JSON. *)
Definition json_text (s : string) : string :=
  string_of_list_ascii
    (map (fun c => if Ascii.eqb c "'"%char then Py.dquote else c)
         (list_ascii_of_string s)).

(** ** The test generator

    [LLMTestGenerator.generate_test_case], lines 63-116 (copy: 411-467).
    The prompt only reaches the remote service; what the function returns
    depends on the outcome of [requests.post] alone, which is the argument
    here: [Ok response], or the exception the call raised. *)

Record Response : Type := {
  status_code : Z;
  text : string
}.

(** [str(n)] for an integer *)
Definition str_of_Z (n : Z) : string :=
  DecimalString.NilZero.string_of_int (Z.to_int n).

Definition required_fields : list string :=
  ["action"; "by"; "value"; "step_type"].

Section Generator.

(** [str(e)] for the exceptions raised by the interpreter and the
    libraries, whose wording is theirs. *)
Variable describe : exn -> string.

(** [json.loads]: the value it returns, or the exception it raises: a
    [JSONDecodeError] on a document that is not JSON and, on some that
    are, an exception of another class (a [ValueError] for an integer
    beyond the digit limit, a [RecursionError] for deep nesting). *)
Variable loads : string -> result json.

Local Open Scope result_scope.

(** [str(e)] *)
Definition str (e : exn) : string :=
  match e with
  | ValueError msg | Exception msg => msg
  | RequestException msg | TimeoutException msg | WebDriverException msg => msg
  | _ => describe e
  end.

(** [response.json()] *)
Definition response_json (response : Response) : result json :=
  loads (text response).

(** [content.strip()], and the fence removal that follows it (lines 86-91);
    only a [str] has the method. *)
Definition clean (content : json) : result string :=
  match content with
  | JStr s => Ok (strip_code_fence s)
  | _ => Raise (AttributeError content "strip")
  end.

(** [all(field in step for field in fields)]: stops at the first field
    that is not in [step]. *)
Fixpoint all_fields_in (step : json) (fields : list string) : result bool :=
  match fields with
  | [] => Ok true
  | field :: rest =>
      present <- Value.contains field step ;;
      if present : bool then all_fields_in step rest else Ok false
  end.

(** Lines 100-103: the loop over [test_case['steps']]. *)
Fixpoint check_steps (steps : list json) : result unit :=
  match steps with
  | [] => Ok tt
  | step :: rest =>
      complete <- all_fields_in step required_fields ;;
      if complete : bool then check_steps rest
      else Raise (ValueError
        "Step missing required fields: ['action', 'by', 'value', 'step_type']")
  end.

(** Lines 96-105: structural validation of the decoded test case. *)
Definition validate (test_case : json) : result json :=
  present <- (if Value.is_dict test_case
              then Value.contains "steps" test_case else Ok false) ;;
  if present : bool then
    steps <- Value.getitem test_case (Name "steps") ;;
    items <- Value.iterate steps ;;
    check_steps items ;;
    Ok test_case
  else Raise (ValueError "Invalid test case structure").

Definition generate_test_case (posted : result Response) : result json :=
  try_except
    (response <- posted ;;
     if (status_code response =? 200)%Z then
       body <- response_json response ;;
       choices <- Value.getitem body (Name "choices") ;;
       choice <- Value.getitem choices (Index 0) ;;
       message <- Value.getitem choice (Name "message") ;;
       content <- Value.getitem message (Name "content") ;;
       try_except
         (content <- clean content ;;
          test_case <- loads content ;;
          validate test_case)
         (fun e =>
            match e with
            | JSONDecodeError _ =>
                Raise (Exception
                  ("Failed to parse LLM response as JSON: " ++ str e))
            | _ => Raise (Exception ("Invalid test case format: " ++ str e))
            end)
     else
       Raise (Exception ("API request failed with status code: "
                         ++ str_of_Z (status_code response))))
    (fun e => Raise (Exception ("Error generating test case: " ++ str e))).

End Generator.

(** ** The element inventory and its rendering

    [LLMTestGenerator._format_elements_data], lines 118-126 (copy: 469-477).
    A record is the dict built by [detect_elements]: its items in insertion
    order, each value a [str] or [None]. *)

Definition attribute : Type := string * option string.
Definition element_record : Type := list attribute.
Definition inventory : Type := list (string * list element_record).

(** [bool(v)] for a [str] or [None] *)
Definition truthy (v : option string) : bool :=
  match v with
  | Some (String _ _) => true
  | _ => false
  end.

(** [str(v)] for a [str] or [None] *)
Definition str_of_value (v : option string) : string :=
  match v with
  | Some s => s
  | None => "None"
  end.

Section Formatter.

(** [str.upper] *)
Variable upper : string -> string.

(** [[f"{k}: {v}" for k, v in elem.items() if v]] *)
Definition attributes_of (elem : element_record) : list string :=
  map (fun kv => fst kv ++ ": " ++ str_of_value (snd kv))
      (filter (fun kv => truthy (snd kv)) elem).

Definition _format_elements_data (elements_data : inventory) : string :=
  let formatted :=
    fold_left
      (fun formatted group =>
         let '(element_type, elements) := group in
         let formatted :=
           Py.append formatted
             (Py.chr Py.newline ++ upper element_type ++ " Elements:") in
         fold_left
           (fun formatted elem =>
              let attributes := attributes_of elem in
              Py.append formatted ("  - " ++ Py.join ", " attributes))
           elements formatted)
      elements_data [] in
  Py.join (Py.chr Py.newline) formatted.

(** What the two loops append: per type, in the mapping's order, a header
    and then one line per record. *)
Definition rendered_pair (kv : attribute) : string :=
  fst kv ++ ": " ++ str_of_value (snd kv).

Definition rendered_record (elem : element_record) : string :=
  "  - " ++ Py.join ", "
    (map rendered_pair (filter (fun kv => truthy (snd kv)) elem)).

Definition rendered_header (element_type : string) : string :=
  Py.chr Py.newline ++ upper element_type ++ " Elements:".

Definition rendered_lines (elements_data : inventory) : list string :=
  flat_map
    (fun group => rendered_header (fst group) :: map rendered_record (snd group))
    elements_data.

End Formatter.

(** [str.upper] and [str.lower] on ASCII text. *)
Definition ascii_upper (s : string) : string :=
  string_of_list_ascii
    (map (fun c => let n := nat_of_ascii c in
                   if ((97 <=? n) && (n <=? 122))%nat
                   then ascii_of_nat (n - 32) else c)
         (list_ascii_of_string s)).

Definition ascii_lower (s : string) : string :=
  string_of_list_ascii
    (map (fun c => let n := nat_of_ascii c in
                   if ((65 <=? n) && (n <=? 90))%nat
                   then ascii_of_nat (n + 32) else c)
         (list_ascii_of_string s)).

(** ** The document tree and XPath synthesis

    The script run by [ElementDetector._generate_xpath], lines 204-226
    (copy: 565-587).  A node of the tree is an element, with its [tagName],
    its [id] (empty when the attribute is absent) and its [childNodes], or
    any other kind of node (text, comment, doctype), whose [nodeType] is
    not 1 and which has neither [id] nor [tagName]. *)

#[warnings="-register-all"]
Inductive node : Type :=
| Element (tagName : string) (id : string) (childNodes : list node)
| Other.

(** A node is designated by its index among the [childNodes] of its
    parent, followed by the address of the parent; the document itself has
    the empty address.  [parentNode] is the tail of an address. *)
Definition address : Type := list nat.

Record document : Type := {
  roots : list node;          (* document.childNodes *)
  body : option address       (* document.body *)
}.

(** What a call of the script's function completes with. *)
Inductive completion : Type :=
| Returns (s : string)
| ReturnsUndefined
| Throws.

Fixpoint address_eqb (a b : address) : bool :=
  match a, b with
  | [], [] => true
  | i :: a', j :: b' => (i =? j)%nat && address_eqb a' b'
  | _, _ => false
  end.

(** [sibling.nodeType === 1 && sibling.tagName === tag] *)
Definition same_tag (tag : string) (sibling : node) : bool :=
  match sibling with
  | Element t _ _ => t =? tag
  | Other => false
  end.

(** The loop of lines 215-223 over [siblings], from index [i] with counter
    [ix]: the counter when the loop reaches the element itself (index
    [self]), or nothing when it runs off the end. *)
Fixpoint count_siblings (siblings : list node) (i self : nat) (tag : string)
  (ix : nat) : option nat :=
  match siblings with
  | [] => None
  | sibling :: rest =>
      if (i =? self)%nat then Some ix
      else count_siblings rest (S i) self tag
             (if same_tag tag sibling then S ix else ix)
  end.

(** [`//*[@id="${id}"]`] *)
Definition id_path (id : string) : string :=
  "//*[@id=" ++ Py.chr Py.dquote ++ id ++ Py.chr Py.dquote ++ "]".

(** [path + segment], where [path] is the completion of a call *)
Definition extend (path : completion) (segment : string) : completion :=
  match path with
  | Returns p => Returns (p ++ segment)
  | ReturnsUndefined => Returns ("undefined" ++ segment)
  | Throws => Throws
  end.

Section XPath.

(** [String.prototype.toLowerCase] *)
Variable toLowerCase : string -> string.

Variable doc : document.

(** [node.childNodes] for the node at an address *)
Fixpoint children_at (a : address) : list node :=
  match a with
  | [] => roots doc
  | i :: parent =>
      match nth_error (children_at parent) i with
      | Some (Element _ _ children) => children
      | _ => []
      end
  end.

(** The node at an address other than the document's. *)
Definition node_at (a : address) : option node :=
  match a with
  | [] => None
  | i :: parent => nth_error (children_at parent) i
  end.

(** [element === document.body] *)
Definition is_body (a : address) : bool :=
  match body doc with
  | Some b => address_eqb a b
  | None => false
  end.

(** [getXPath(element)].  The document and the nodes that are not elements
    have no [id] property: [undefined !== ''] holds and the first branch
    returns. *)
Fixpoint getXPath (element : address) : completion :=
  match element with
  | [] => Returns (id_path "undefined")
  | self :: parent =>
      match nth_error (children_at parent) self with
      | None => Throws
      | Some Other => Returns (id_path "undefined")
      | Some (Element tagName id _) =>
          if negb (id =? "") then Returns (id_path id)
          else if is_body element then Returns (toLowerCase tagName)
          else
            match count_siblings (children_at parent) 0 self tagName 0 with
            | Some ix =>
                extend (getXPath parent)
                  ("/" ++ toLowerCase tagName
                   ++ "[" ++ Py.str_of_nat (ix + 1) ++ "]")
            | None => ReturnsUndefined
            end
      end
  end.

(** The number of element nodes with tag name [tag] among the siblings
    that precede index [self]. *)
Definition preceding_same_tag (siblings : list node) (self : nat)
  (tag : string) : nat :=
  List.length
    (filter (fun sibling =>
               match sibling with
               | Element t _ _ => t =? tag
               | Other => false
               end)
            (firstn self siblings)).

End XPath.

(** ** The browser

    Selenium's driver is outside the repository.  It is modelled by the
    commands the scripts send it and an oracle that, given the commands sent
    so far, answers the next one with a value or an exception. *)

(** A [WebElement] handle. *)
Definition elem : Type := nat.

(** The scripts passed to [execute_script]: the XPath synthesis of lines
    204-226, and the two of lines 652-660. *)
Inductive script : Type :=
| GetXPathScript
| ScrollIntoView
| HighlightBorder.

Inductive command : Type -> Type :=
| Get (url : string) : command unit
| WaitPresence (by_ : string) (value : json) : command elem
| CurrentUrl : command string
| SaveScreenshot (path : string) : command bool
| FindElements (by_ : string) (value : string) : command (list elem)
| GetAttribute (e : elem) (name : string) : command (option string)
| GetText (e : elem) : command string
| ExecuteScript (s : script) (e : elem) : command (option string)
| Clear (e : elem) : command unit
| SendKeys (e : elem) (keys : json) : command unit
| Click (e : elem) : command unit
| NewSelect (e : elem) : command unit
| SelectByVisibleText (e : elem) (text : json) : command unit.

(** What a run leaves behind: the commands sent to the browser, and the
    pauses of [time.sleep]. *)
Inductive event : Type :=
| Call {A : Type} (c : command A)
| Sleep (seconds : nat).

Definition trace : Type := list event.

Definition browser : Type := forall A : Type, trace -> command A -> result A.

(** The two scripts of the file. *)
Inductive variant : Type :=
| Original    (* lines 1-341 *)
| Copy.       (* lines 343-716 *)

(** ** State and exceptions

    A computation reads and updates a state and ends with a value or an
    exception; the state survives the exception. *)

Definition M (S A : Type) : Type := S -> result A * S.

Definition ret {S A : Type} (a : A) : M S A := fun s => (Ok a, s).

Definition raise {S A : Type} (e : exn) : M S A := fun s => (Raise e, s).

Definition lift {S A : Type} (r : result A) : M S A := fun s => (r, s).

Definition mbind {S A B : Type} (m : M S A) (k : A -> M S B) : M S B :=
  fun s =>
    match m s with
    | (Ok a, s') => k a s'
    | (Raise e, s') => (Raise e, s')
    end.

(** [try: body  except ... as e: handler(e)] *)
Definition attempt {S A : Type} (body : M S A) (handler : exn -> M S A)
  : M S A :=
  fun s =>
    match body s with
    | (Ok a, s') => (Ok a, s')
    | (Raise e, s') => handler e s'
    end.

Declare Scope monad_scope.
Delimit Scope monad_scope with monad.
Notation "x <- c1 ;; c2" := (mbind c1 (fun x => c2))
  (at level 61, c1 at next level, right associativity) : monad_scope.
Notation "c1 ;; c2" := (mbind c1 (fun _ => c2))
  (at level 61, right associativity) : monad_scope.

(** [for x in l: body(x)] *)
Fixpoint for_each {S A : Type} (body : A -> M S unit) (l : list A)
  : M S unit :=
  match l with
  | [] => ret tt
  | x :: rest => mbind (body x) (fun _ => for_each body rest)
  end.

(** A state that holds a browser session. *)
Class Session (S : Type) : Type := {
  history : S -> trace;
  record : event -> S -> S
}.

#[export] Instance trace_session : Session trace := {
  history h := h;
  record ev h := Py.append h ev
}.

Section Driver.

Variable drv : browser.

Context {S : Type} `{Session S}.

(** Sends a command to the browser. *)
Definition perform {A : Type} (c : command A) : M S A :=
  fun s => (drv A (history s) c, record (Call c) s).

(** [time.sleep(seconds)] *)
Definition sleep (seconds : nat) : M S unit :=
  fun s => (Ok tt, record (Sleep seconds) s).

(** [ElementDetector._generate_xpath], lines 201-229 (copy: 562-590): the
    bare [except] turns any failure of the script into [None]. *)
Definition _generate_xpath (element : elem) : M S (option string) :=
  attempt (perform (ExecuteScript GetXPathScript element))
          (fun _ => ret None).

End Driver.

(** ** The test executor

    [TestExecutor.execute_test], lines 262-293 and, in the copy, 626-669.
    The two differ by the [scroll] branch and the final pause, which
    [variant] selects. *)

Section Executor.

Variable describe : exn -> string.
Variable drv : browser.
Variable v : variant.

Local Open Scope monad_scope.

(** [step['step_type'] == name] *)
Definition is_type (step_type : json) (name : string) : bool :=
  Value.eq_str step_type name.

(** The body of the loop: lines 269-286 (copy: 633-661). *)
Definition run_step (step : json) : M trace unit :=
  value <- lift (Value.getitem step (Name "value")) ;;
  element <- perform drv (WaitPresence "xpath" value) ;;
  step_type <- lift (Value.getitem step (Name "step_type")) ;;
  if is_type step_type "input" then
    perform drv (Clear element) ;;
    input_value <- lift (Value.getitem step (Name "input_value")) ;;
    perform drv (SendKeys element input_value)
  else if is_type step_type "click" then
    perform drv (Click element)
  else if is_type step_type "select" then
    perform drv (NewSelect element) ;;
    input_value <- lift (Value.getitem step (Name "input_value")) ;;
    perform drv (SelectByVisibleText element input_value)
  else
    match v with
    | Copy =>
        if is_type step_type "scroll" then
          perform drv (ExecuteScript ScrollIntoView element) ;;
          perform drv (ExecuteScript HighlightBorder element) ;;
          ret tt
        else ret tt
    | Original => ret tt
    end.

(** [for step in test_steps['steps']: ...] *)
Definition run_steps (steps : list json) : M trace unit :=
  for_each run_step steps.

(** The pause of line 664. *)
Definition final_pause : M trace unit :=
  match v with
  | Copy => sleep 300
  | Original => ret tt
  end.

Definition success_message : string := "Test executed successfully".

Definition failure_message (e : exn) : string :=
  "Test execution failed: " ++ str describe e.

Definition execute_test (url : string) (test_steps : json)
  : trace -> (bool * string) * trace :=
  fun h =>
    match
      (perform drv (Get url) ;;
       steps <- lift (Value.getitem test_steps (Name "steps")) ;;
       items <- lift (Value.iterate steps) ;;
       run_steps items ;;
       final_pause ;;
       ret (true, success_message)) h
    with
    | (Ok outcome, h') => (outcome, h')
    | (Raise e, h') => ((false, failure_message e), h')
    end.

End Executor.

(** ** The element detector

    [ElementDetector.detect_elements], lines 157-199 (copy: 511-560).  The
    detector keeps the inventory in [self.elements_data] and returns that
    same dict; the copy also returns the path of the screenshot. *)

Record detector : Type := {
  driver_log : trace;
  elements_data : inventory
}.

#[export] Instance detector_session : Session detector := {
  history d := driver_log d;
  record ev d := {| driver_log := Py.append (driver_log d) ev;
                    elements_data := elements_data d |}
}.

Definition element_types : list (string * string) :=
  [("input", "//input"); ("button", "//button");
   ("select", "//select"); ("link", "//a")].

Definition screenshot_file : string := "page_screenshot.png".

(** [self.elements_data[element_type] = []] *)
Definition reset_group (element_type : string) : M detector unit :=
  fun d => (Ok tt,
            {| driver_log := driver_log d;
               elements_data :=
                 Value.dict_set element_type [] (elements_data d) |}).

(** The list stored under a key, with [info] appended. *)
Fixpoint appended (element_type : string) (info : element_record)
  (data : inventory) : option inventory :=
  match data with
  | [] => None
  | (k, records) :: rest =>
      if k =? element_type then Some ((k, Py.append records info) :: rest)
      else
        match appended element_type info rest with
        | Some rest' => Some ((k, records) :: rest')
        | None => None
        end
  end.

(** [self.elements_data[element_type].append(info)] *)
Definition append_record (element_type : string) (info : element_record)
  : M detector unit :=
  fun d =>
    match appended element_type info (elements_data d) with
    | Some data => (Ok tt, {| driver_log := driver_log d;
                              elements_data := data |})
    | None => (Raise (KeyError (Name element_type)), d)
    end.

Section Detector.

Variable drv : browser.
Variable v : variant.

Local Open Scope monad_scope.

(** Lines 184-192: the record of one element. *)
Definition scan_element (element_type : string) (element : elem)
  : M detector unit :=
  id <- perform drv (GetAttribute element "id") ;;
  name <- perform drv (GetAttribute element "name") ;;
  class <- perform drv (GetAttribute element "class") ;;
  shown <- perform drv (GetText element) ;;
  text <- (if truthy (Some shown)
           then shown' <- perform drv (GetText element) ;; ret (Some shown')
           else perform drv (GetAttribute element "value")) ;;
  xpath <- _generate_xpath drv element ;;
  append_record element_type
    [("type", Some element_type); ("id", id); ("name", name);
     ("class", class); ("text", text); ("xpath", xpath)].

(** Lines 178-193: one element type. *)
Definition scan_type (query : string * string) : M detector unit :=
  let '(element_type, xpath) := query in
  elements <- perform drv (FindElements "xpath" xpath) ;;
  reset_group element_type ;;
  for_each (scan_element element_type) elements.

(** Lines 162-167: the wait for the body gives up quietly on a timeout. *)
Definition wait_for_body : M detector unit :=
  attempt (perform drv (WaitPresence "tag name" (JStr "body")) ;; ret tt)
          (fun e =>
             match e with
             | TimeoutException _ => ret tt
             | _ => raise e
             end).

(** Lines 526-529 of the copy. *)
Definition take_screenshot : M detector (option string) :=
  match v with
  | Copy => perform drv (SaveScreenshot screenshot_file) ;;
            ret (Some screenshot_file)
  | Original => ret None
  end.

(** The outer handler of lines 197-199 prints and raises the exception
    again. *)
Definition detect_elements (url : string)
  : M detector (inventory * option string) :=
  perform drv (Get url) ;;
  wait_for_body ;;
  perform drv CurrentUrl ;;
  screenshot_path <- take_screenshot ;;
  for_each scan_type element_types ;;
  fun d => (Ok (elements_data d, screenshot_path), d).

End Detector.

(** A detector as [__init__] leaves it. *)
Definition new_detector : detector :=
  {| driver_log := []; elements_data := [] |}.

(** ** Specifications *)

(** The value of [response.json()['choices'][0]['message']['content']]. *)
Definition message_content (body : json) : result json :=
  (choices <- Value.getitem body (Name "choices") ;;
   choice <- Value.getitem choices (Index 0) ;;
   message <- Value.getitem choice (Name "message") ;;
   Value.getitem message (Name "content"))%result.

(** [field in step] holds for each of the required fields. *)
Definition has_required_fields (step : json) : Prop :=
  forall field, In field required_fields -> Value.contains field step = Ok true.

(** The responses the generator accepts, with the test case it returns. *)
Definition accepted (loads : string -> result json) (response : Response)
  (test_case : json) : Prop :=
  status_code response = 200%Z
  /\ exists body content entries steps items,
       loads (text response) = Ok body
       /\ message_content body = Ok (JStr content)
       /\ loads (strip_code_fence content) = Ok test_case
       /\ test_case = JDict entries
       /\ Value.lookup "steps" entries = Some steps
       /\ Value.iterate steps = Ok items
       /\ Forall has_required_fields items.

(** The rendering of an inventory as the specification words it.  The
    pairs of a record whose value is a non-empty string, each written
    [key: value]: *)
Definition nonempty_pairs (elem : element_record) : list string :=
  flat_map
    (fun kv =>
       match kv with
       | (k, Some (String c s)) => [k ++ ": " ++ String c s]
       | _ => []
       end)
    elem.

(** the line of a record, its pairs joined by a comma and a space; *)
Definition record_line (elem : element_record) : string :=
  "  - " ++ String.concat ", " (nonempty_pairs elem).

(** the header of a type, which opens with a newline; *)
Definition type_header (upper : string -> string) (element_type : string)
  : string :=
  String "010"%char (upper element_type ++ " Elements:").

(** and, for each type in the order of the mapping, its header followed
    by the lines of its records in their order. *)
Definition expected_lines (upper : string -> string) (data : inventory)
  : list string :=
  flat_map
    (fun group =>
       type_header upper (fst group) :: map record_line (snd group))
    data.

(** The step types the executor dispatches on. *)
Definition recognized (v : variant) (step_type : json) : bool :=
  Value.eq_str step_type "input" || Value.eq_str step_type "click"
  || Value.eq_str step_type "select"
  || match v with
     | Copy => Value.eq_str step_type "scroll"
     | Original => false
     end.

(** The interaction a step asks for on the element [e] it designates:
    nothing when the step is not an object with a recognized [step_type]
    and, for [input] and [select], an [input_value]. *)
Definition interaction (v : variant) (step : json) (e : elem)
  : option (list event) :=
  match step with
  | JDict entries =>
      match Value.lookup "step_type" entries with
      | Some step_type =>
          if Value.eq_str step_type "input" then
            match Value.lookup "input_value" entries with
            | Some text => Some [Call (Clear e); Call (SendKeys e text)]
            | None => None
            end
          else if Value.eq_str step_type "click" then Some [Call (Click e)]
          else if Value.eq_str step_type "select" then
            match Value.lookup "input_value" entries with
            | Some text =>
                Some [Call (NewSelect e); Call (SelectByVisibleText e text)]
            | None => None
            end
          else
            match v with
            | Copy =>
                if Value.eq_str step_type "scroll"
                then Some [Call (ExecuteScript ScrollIntoView e);
                           Call (ExecuteScript HighlightBorder e)]
                else None
            | Original => None
            end
      | None => None
      end
  | _ => None
  end.

(** The locator of a step. *)
Definition locator_of (step : json) : option json :=
  match step with
  | JDict entries => Value.lookup "value" entries
  | _ => None
  end.

(** The trace a faultless replay of [steps] leaves after [h], when the
    lookup of locator [x] after trace [h'] yields [resolve h' x]. *)
Fixpoint replay (resolve : trace -> json -> elem) (v : variant)
  (steps : list json) (h : trace) : trace :=
  match steps with
  | [] => h
  | step :: rest =>
      match locator_of step with
      | Some x =>
          match interaction v step (resolve h x) with
          | Some calls =>
              replay resolve v rest
                (h ++ Call (WaitPresence "xpath" x) :: calls)%list
          | None => h
          end
      | None => h
      end
  end.

(** The pause that ends a run of the copy. *)
Definition pause (v : variant) : trace :=
  match v with
  | Copy => [Sleep 300]
  | Original => []
  end.

(** The browser answers the commands of [calls] with a value, one after
    the other, when they are sent after the trace [h]. *)
Fixpoint go_through (drv : browser) (calls : list event) (h : trace) : Prop :=
  match calls with
  | [] => True
  | ev :: rest =>
      match ev with
      | @Call A c => exists r, drv A h c = Ok r
      | Sleep _ => True
      end
      /\ go_through drv rest (h ++ [ev])%list
  end.

(** The browser carries the steps out, one after the other, from the
    trace [h].  Each step is an object with a locator, a recognized
    [step_type] and the [input_value] its type needs; when its turn comes,
    after the commands of the steps before it, the lookup of its locator
    [x] yields an element, named [resolve h x], and the commands of its
    interaction with that element go through. *)
Fixpoint carried_out (drv : browser) (v : variant)
  (resolve : trace -> json -> elem) (steps : list json) (h : trace) : Prop :=
  match steps with
  | [] => True
  | step :: rest =>
      exists x calls,
        locator_of step = Some x
        /\ drv elem h (WaitPresence "xpath" x) = Ok (resolve h x)
        /\ interaction v step (resolve h x) = Some calls
        /\ go_through drv calls (h ++ [Call (WaitPresence "xpath" x)])%list
        /\ carried_out drv v resolve rest
             (h ++ Call (WaitPresence "xpath" x) :: calls)%list
  end.

(** The browser [drv] with every failure of the XPath script replaced by
    the script returning nothing. *)
Definition quiet (drv : browser) : browser :=
  fun A h c =>
    match c in command T return result T -> result T with
    | ExecuteScript GetXPathScript _ =>
        fun answer =>
          match answer with
          | Ok x => Ok x
          | Raise _ => Ok None
          end
    | _ => fun answer => answer
    end (drv A h c).

(** ** Fixtures *)

(** [type(v).__name__] *)
Definition type_name (v : json) : string :=
  match v with
  | JNull => "NoneType"
  | JBool _ => "bool"
  | JInt _ => "int"
  | JFloat _ => "float"
  | JStr _ => "str"
  | JList _ => "list"
  | JDict _ => "dict"
  end.

(** [str(e)] in the examples, worded as CPython 3.12 words the exceptions
    of the interpreter (a key is shown between single quotes, as [repr]
    shows a plain string); for a decoding error, whose message gives a
    position, only the class. *)
Definition cpython_str (e : exn) : string :=
  match e with
  | KeyError (Name k) => "'" ++ k ++ "'"
  | KeyError (Index i) => Py.str_of_nat i
  | IndexError (JList _) => "list index out of range"
  | IndexError _ => "string index out of range"
  | TypeError Iterate v => "'" ++ type_name v ++ "' object is not iterable"
  | TypeError Contains v =>
      "argument of type '" ++ type_name v ++ "' is not iterable"
  | TypeError Subscript (JList _) =>
      "list indices must be integers or slices, not str"
  | TypeError Subscript (JStr _) =>
      "string indices must be integers, not 'str'"
  | TypeError Subscript v =>
      "'" ++ type_name v ++ "' object is not subscriptable"
  | AttributeError v name =>
      "'" ++ type_name v ++ "' object has no attribute '" ++ name ++ "'"
  | JSONDecodeError _ => "JSONDecodeError"
  | ValueError msg | RequestException msg | TimeoutException msg
  | WebDriverException msg | Exception msg => msg
  end.

(** A 200 response of the completion endpoint whose message is [content],
    written as the inside of a JSON string literal (single quotes standing
    for double quotes). *)
Definition reply_of (content : string) : Response :=
  {| status_code := 200;
     text := json_text
               ("{'choices':[{'message':{'role':'assistant','content':'"
                ++ content ++ "'}}]}") |}.

(** A step as the prompt asks for it. *)
Definition step_of (value step_type : string) (input_value : option string)
  : json :=
  JDict
    ([("action", JStr "find_element"); ("by", JStr "xpath");
      ("value", JStr value); ("step_type", JStr step_type)]
     ++ match input_value with
        | Some text => [("input_value", JStr text)]
        | None => []
        end)%list.

Definition test_case_of (steps : list json) : json :=
  JDict [("steps", JList steps)].

Definition empty_test_case : json := test_case_of [].

(** An element of a page, as the browser shows it. *)
Record listing : Type := {
  handle : elem;
  query : string;                 (* the find_elements query it matches *)
  locator : string;               (* the XPath that resolves to it *)
  attributes : result (list (string * string));
                                  (* its attributes, or what reading it raises *)
  shown : string;                 (* element.text *)
  synthesized : result (option string)   (* the outcome of the XPath script *)
}.

Definition find_listing (p : listing -> bool) (page : list listing)
  : option listing :=
  find p page.

Definition read_attribute (item : listing) (name : string)
  : result (option string) :=
  match attributes item with
  | Ok values =>
      Ok (match find (fun kv => fst kv =? name) values with
          | Some kv => Some (snd kv)
          | None => None
          end)
  | Raise e => Raise e
  end.

Definition missing {A : Type} : result A :=
  Raise (WebDriverException "no such element").

(** A page that does not change: the browser answers from the listings,
    whatever was sent before. *)
Definition serve (page : list listing) : browser :=
  fun A _ c =>
    match c in command T return result T with
    | Get _ => Ok tt
    | WaitPresence _ (JStr x) =>
        match find_listing (fun item => locator item =? x) page with
        | Some item => Ok (handle item)
        | None => Raise (TimeoutException "Message: ")
        end
    | WaitPresence _ _ => Raise (WebDriverException "invalid argument")
    | CurrentUrl => Ok ""
    | SaveScreenshot _ => Ok true
    | FindElements _ q =>
        Ok (map handle (filter (fun item => query item =? q) page))
    | GetAttribute e name =>
        match find_listing (fun item => (handle item =? e)%nat) page with
        | Some item => read_attribute item name
        | None => missing
        end
    | GetText e =>
        match find_listing (fun item => (handle item =? e)%nat) page with
        | Some item =>
            match attributes item with
            | Ok _ => Ok (shown item)
            | Raise err => Raise err
            end
        | None => missing
        end
    | ExecuteScript GetXPathScript e =>
        match find_listing (fun item => (handle item =? e)%nat) page with
        | Some item => synthesized item
        | None => missing
        end
    | ExecuteScript _ _ => Ok None
    | Clear _ | SendKeys _ _ | Click _ | SelectByVisibleText _ _ => Ok tt
    | NewSelect e =>
        match find_listing (fun item => (handle item =? e)%nat) page with
        | Some item =>
            if query item =? "//select" then Ok tt
            else Raise (WebDriverException
                          "Select only works on <select> elements")
        | None => missing
        end
    end.

(** What [execute_script] makes of a completion of the XPath script. *)
Definition script_outcome (c : completion) : result (option string) :=
  match c with
  | Returns s => Ok (Some s)
  | ReturnsUndefined => Ok None
  | Throws => Raise (WebDriverException "javascript error")
  end.

(** The step with its [input_value] entry removed, when it is an object. *)
Definition without_input_value (step : json) : json :=
  match step with
  | JDict entries =>
      JDict (filter (fun kv => negb (fst kv =? "input_value")) entries)
  | _ => step
  end.

(** An address designates a node of the tree, or the document. *)
Definition designates (doc : document) (a : address) : Prop :=
  a = [] \/ exists n, node_at doc a = Some n.

(** A computation that only adds to the trace. *)
Definition extends {A : Type} (m : M trace A) : Prop :=
  forall h r h', m h = (r, h') -> exists t, h' = (h ++ t)%list.

(** Two computations that run alike from every state. *)
Definition alike {S A : Type} (m1 m2 : M S A) : Prop :=
  forall s, m1 s = m2 s.

(** A page with a form: two inputs, the second of which makes the XPath
    script fail, and a button. *)
Definition shop_page : list listing :=
  [ {| handle := 1; query := "//input"; locator := "//input[1]";
       attributes := Ok [("id", "amount"); ("name", "amount");
                         ("value", "100")];
       shown := "";
       synthesized := Ok (Some (id_path "amount")) |};
    {| handle := 2; query := "//input"; locator := "//input[2]";
       attributes := Ok [("class", "rate")];
       shown := "";
       synthesized := Raise (WebDriverException "javascript error") |};
    {| handle := 3; query := "//button"; locator := "//button";
       attributes := Ok [];
       shown := "Calculate";
       synthesized := Ok (Some "body/div[1]/button[1]") |} ].

(** The same page when the first input has gone stale: reading it raises. *)
Definition stale_page : list listing :=
  [ {| handle := 1; query := "//input"; locator := "//input[1]";
       attributes := Raise (WebDriverException "stale element reference");
       shown := "";
       synthesized := Ok (Some (id_path "amount")) |};
    {| handle := 2; query := "//input"; locator := "//input[2]";
       attributes := Ok [("class", "rate")];
       shown := "";
       synthesized := Ok None |};
    {| handle := 3; query := "//button"; locator := "//button";
       attributes := Ok [];
       shown := "Calculate";
       synthesized := Ok (Some "body/div[1]/button[1]") |} ].

Definition shop_url : string := "https://shop.example/emi".

(** A document: a doctype, then [html] with [head] and [body]. *)
Definition demo_doc : document :=
  {| roots :=
       [Other;
        Element "HTML" ""
          [Element "HEAD" "" [];
           Other;
           Element "BODY" ""
             [Element "DIV" "" [Element "INPUT" "amount" []];
              Other;
              Element "SPAN" "" [];
              Element "DIV" ""
                [Other; Element "INPUT" "" []; Element "A" "" [];
                 Element "INPUT" "" []]]]];
     body := Some [2; 1] |}.

(** The second input of the second [div] of [demo_doc], as a page shows
    it: the XPath script completes with what [getXPath] computes. *)
Definition demo_page : list listing :=
  [ {| handle := 7; query := "//input"; locator := "//div[2]/input[2]";
       attributes := Ok [];
       shown := "";
       synthesized :=
         script_outcome (getXPath ascii_lower demo_doc [3; 3; 2; 1]) |} ].

(** A response as the prompt asks for it: a click on the button. *)
Definition click_reply : Response :=
  reply_of
    ("```json\n{\'steps\': [{\'action\': \'find_element\', \'by\': \'xpath\', "
     ++ "\'value\': \'//button\', \'step_type\': \'click\'}]}\n```").

(** Three steps, the second of which names an element the page lacks. *)
Definition broken_case : json :=
  test_case_of
    [step_of "//button" "click" None;
     step_of "//nowhere" "input" (Some "5");
     step_of "//input[1]" "click" None].

(** A step of a type the executor does not know, on the button. *)
Definition hover_step : json := step_of "//button" "hover" None.

(** A test case as the prompt asks for it. *)
Definition form_steps : list json :=
  [step_of "//input[1]" "click" None;
   step_of "//input[1]" "input" (Some "2500000");
   step_of "//button" "click" None].

(** The element a locator resolves to on [shop_page]. *)
Definition shop_resolve (h : trace) (x : json) : elem :=
  match serve shop_page elem h (WaitPresence "xpath" x) with
  | Ok e => e
  | Raise _ => 0
  end.

(** [shop_page] with a field that is present only once the button has
    been clicked. *)
Definition revealing : browser :=
  fun A h c =>
    match c in command T return result T -> result T with
    | WaitPresence _ (JStr "//field") =>
        fun _ =>
          if existsb (fun ev =>
                        match ev with
                        | Call (Click e) => (e =? 3)%nat
                        | _ => false
                        end) h
          then Ok 4
          else Raise (TimeoutException "Message: ")
    | _ => fun answer => answer
    end (serve shop_page A h c).

(** The element a locator resolves to in [revealing], after a trace. *)
Definition revealed (h : trace) (x : json) : elem :=
  match revealing elem h (WaitPresence "xpath" x) with
  | Ok e => e
  | Raise _ => 0
  end.

(** A click on the button, then an entry in the field it reveals. *)
Definition reveal_steps : list json :=
  [step_of "//button" "click" None; step_of "//field" "input" (Some "5")].

(** An [input] step that carries no [input_value]. *)
Definition bare_input_reply : Response :=
  reply_of
    ("{\'steps\': [{\'action\': \'find_element\', \'by\': \'xpath\', "
     ++ "\'value\': \'//input[1]\', \'step_type\': \'input\'}]}").

Definition bare_input_case : json :=
  test_case_of [step_of "//input[1]" "input" None].

(** ** Further specifications *)

(** A text made of whitespace only. *)
Definition blank (w : string) : Prop := Py.lstrip w = "".

(** The inventory without the attributes whose value is [None] or empty. *)
Definition erase_falsy (data : inventory) : inventory :=
  map (fun group =>
         (fst group,
          map (filter (fun kv : attribute => truthy (snd kv))) (snd group)))
      data.

(** No element from the node at [a] up to the document is the body or
    carries an [id]. *)
Fixpoint unanchored (doc : document) (a : address) : Prop :=
  match a with
  | [] => True
  | _ :: parent =>
      is_body doc a = false
      /\ (forall tag id children,
            node_at doc a = Some (Element tag id children) -> id = "")
      /\ unanchored doc parent
  end.

(** The events a step of the executor may leave: the lookup of an element
    by XPath, the interactions with it and, in the copy, the two scroll
    scripts. *)
Definition step_event (v : variant) (ev : event) : Prop :=
  match ev with
  | Call c =>
      match c with
      | WaitPresence by_ _ => by_ = "xpath"
      | Clear _ | SendKeys _ _ | Click _ | NewSelect _
      | SelectByVisibleText _ _ => True
      | ExecuteScript s _ => v = Copy /\ s <> GetXPathScript
      | _ => False
      end
  | Sleep _ => False
  end.

(** A computation on a trace that only adds events satisfying [P]. *)
Definition emits {A : Type} (P : event -> Prop) (m : M trace A) : Prop :=
  forall h r h', m h = (r, h') -> exists t, h' = (h ++ t)%list /\ Forall P t.

(** The fields of a step the executor reads. *)
Definition used_fields : list string := ["value"; "step_type"; "input_value"].

(** Two steps that the executor cannot tell apart. *)
Definition same_used_fields (step1 step2 : json) : Prop :=
  forall k, In k used_fields ->
    Value.getitem step1 (Name k) = Value.getitem step2 (Name k).

(** The browser [drv] with every timeout of a wait replaced by the wait
    finding an element. *)
Definition patient (drv : browser) : browser :=
  fun A h c =>
    match c in command T return result T -> result T with
    | WaitPresence _ _ =>
        fun answer =>
          match answer with
          | Raise (TimeoutException _) => Ok 0
          | other => other
          end
    | _ => fun answer => answer
    end (drv A h c).

(** The events the detector may leave: the navigation, the wait for the
    body, the queries, the reads of an element, the XPath script and, in
    the copy, the screenshot. *)
Definition observation (v : variant) (ev : event) : Prop :=
  match ev with
  | Call c =>
      match c with
      | Get _ | CurrentUrl | FindElements _ _ | GetAttribute _ _
      | GetText _ => True
      | WaitPresence by_ value => by_ = "tag name" /\ value = JStr "body"
      | SaveScreenshot _ => v = Copy
      | ExecuteScript s _ => s = GetXPathScript
      | _ => False
      end
  | Sleep _ => False
  end.

(** A computation of the detector that only adds events satisfying [P]
    to the log of its browser. *)
Definition logs {A : Type} (P : event -> Prop) (m : M detector A) : Prop :=
  forall d r d',
    m d = (r, d') ->
    exists t, driver_log d' = (driver_log d ++ t)%list /\ Forall P t.

(** [data.get(element_type)] on an inventory *)
Fixpoint group_of (element_type : string) (data : inventory)
  : option (list element_record) :=
  match data with
  | [] => None
  | (k, records) :: rest =>
      if k =? element_type then Some records else group_of element_type rest
  end.

(** A record as [detect_elements] builds it for an element of type
    [element_type]. *)
Definition scanned_record (element_type : string) (r : element_record)
  : Prop :=
  exists id name class text xpath,
    r = [("type", Some element_type); ("id", id); ("name", name);
         ("class", class); ("text", text); ("xpath", xpath)].

(** The inventory holds a group for each type of [types], made of records
    built for that type. *)
Definition scanned (types : list string) (data : inventory) : Prop :=
  forall t, In t types ->
    exists records,
      group_of t data = Some records /\ Forall (scanned_record t) records.

(** [m] takes a state whose inventory satisfies [P] to one whose inventory
    satisfies [Q], when it completes. *)
Definition ensures {A : Type} (P Q : inventory -> Prop) (m : M detector A)
  : Prop :=
  forall d a d',
    P (elements_data d) -> m d = (Ok a, d') -> Q (elements_data d').

(** [m] keeps [P] true of the inventory, however it ends. *)
Definition keeps {A : Type} (P : inventory -> Prop) (m : M detector A)
  : Prop :=
  forall d r d', P (elements_data d) -> m d = (r, d') -> P (elements_data d').

(** The keys of a dict after [d[k] = ...]. *)
Definition with_key (k : string) (keys : list string) : list string :=
  if existsb (String.eqb k) keys then keys else (keys ++ [k])%list.

(** ** The driver routine

    [main], lines 298-338 (copy: 675-713), with the constructors of the
    detector and the executor (lines 129-155 and 235-260; copy: 480-509 and
    597-624), their [close] methods and the whole of
    [generate_test_case] (lines 16-116; copy: 362-467). *)

(** The two browser sessions of a run. *)
Inductive role : Type :=
| Detecting
| Executing.

(** What [requests.post] is given.  The prompt is a fixed template filled
    with the rendered inventory, the user's words and, in the copy, a note
    on the screenshot; the request is represented by these and by the
    headers and the model name. *)
Record Request : Type := {
  authorization : string;
  referer : string;
  title : string;
  model : string;
  elements_description : string;
  user_requirements : string;
  screenshot_note : string
}.

(** What the routine does, as seen from outside. *)
Inductive action : Type :=
| Launch (who : role) (arguments : list string)
         (binary_location : option string)      (* webdriver.Chrome(options) *)
| Browse (who : role) (ev : event)              (* sent to a session *)
| QuitBrowser (who : role)                      (* driver.quit() *)
| Ask                                           (* input(...) *)
| Post (request : Request).                     (* requests.post(...) *)

(** What surrounds a run. *)
Record environment : Type := {
  getenv : string -> option string;             (* os.getenv *)
  path_exists : role -> string -> bool;         (* os.path.exists *)
  chrome : role -> list string -> option string -> result unit;
  session : role -> browser;
  quit : role -> result unit;
  typed : result string;                        (* what input() returns *)
  post : Request -> result Response
}.

Definition chrome_paths : list string :=
  ["/Applications/Google Chrome.app/Contents/MacOS/Google Chrome";
   "/usr/bin/google-chrome";
   "/usr/bin/chromium";
   "C:\Program Files\Google\Chrome\Application\chrome.exe"].

(** Lines 141-144: the first of [paths] that exists, if any. *)
Fixpoint binary_location_of (present : string -> bool) (paths : list string)
  : option string :=
  match paths with
  | [] => None
  | path :: rest =>
      if present path then Some path else binary_location_of present rest
  end.

(** The arguments given to Chrome. *)
Definition chrome_arguments (v : variant) (who : role) : list string :=
  match v, who with
  | Copy, Detecting => ["--start-maximized"; "--headless=new"]
  | _, _ => ["--start-maximized"]
  end.

(** [os.getenv(name)], or [default] when the variable is unset or empty. *)
Definition setting (env : environment) (name default : string) : string :=
  match getenv env name with
  | Some (String c s) => String c s
  | _ => default
  end.

Definition model_name (v : variant) : string :=
  match v with
  | Original => "deepseek/deepseek-r1-distill-llama-70b"
  | Copy => "qwen/qwen-turbo"
  end.

Definition target_url (v : variant) : string :=
  match v with
  | Original =>
      "https://www.dbs.com/digibank/in/loans/calculators/home-loan-emi-calculator.page"
  | Copy =>
      "https://www.tataaia.com/campaign/TATA-AIA-Life-Insurance-Term-Plan-Calculator-Sampoorn-Raksha-Promise.html"
  end.

(** Line 368 of the copy. *)
Definition note_for (screenshot_path : option string) : string :=
  if truthy screenshot_path
  then "A screenshot of the page has been captured and is available for reference."
  else "".

Section Main.

Variable describe : exn -> string.
Variable loads : string -> result json.
Variable upper : string -> string.

(** The API key written in the source (lines 302 and 679), which is not
    repeated here. *)
Variable default_api_key : variant -> string.

Variable v : variant.
Variable env : environment.

Local Open Scope monad_scope.

(** Records an action and gives its outcome. *)
Definition act {A : Type} (a : action) (outcome : result A)
  : M (list action) A :=
  fun log => (outcome, Py.append log a).

(** The launch of Chrome by a constructor, after the search for its
    binary, and the outcome of the launch. *)
Definition launch_of (who : role) : action :=
  Launch who (chrome_arguments v who)
         (binary_location_of (path_exists env who) chrome_paths).

Definition launched (who : role) : result unit :=
  chrome env who (chrome_arguments v who)
         (binary_location_of (path_exists env who) chrome_paths).

(** [ElementDetector()] and [TestExecutor()]: a failure of the launch is
    raised again. *)
Definition construct (who : role) : M (list action) unit :=
  act (launch_of who) (launched who).

(** [detector.detect_elements(url)] on the new detector. *)
Definition detection : result (inventory * option string) * detector :=
  detect_elements (session env Detecting) v (target_url v) new_detector.

(** [executor.execute_test(url, test_case)] on the new executor. *)
Definition execution (test_case : json) : (bool * string) * trace :=
  execute_test describe (session env Executing) v (target_url v) test_case [].

(** The request of lines 64-80 (copy: 412-428). *)
Definition request_for (elements_data : inventory) (user_prompt : string)
  (screenshot_path : option string) : Request :=
  {| authorization :=
       "Bearer " ++ setting env "OPENROUTER_API_KEY" (default_api_key v);
     referer := setting env "SITE_URL" "<YOUR_SITE_URL>";
     title := setting env "SITE_NAME" "<YOUR_SITE_URL>";
     model := model_name v;
     elements_description := _format_elements_data upper elements_data;
     user_requirements := user_prompt;
     screenshot_note :=
       match v with
       | Copy => note_for screenshot_path
       | Original => ""
       end |}.

(** [generator.generate_test_case(elements, user_prompt, ...)] *)
Definition generation (elements_data : inventory) (user_prompt : string)
  (screenshot_path : option string) : M (list action) json :=
  let request := request_for elements_data user_prompt screenshot_path in
  act (Post request) (generate_test_case describe loads (post env request)).

(** [executor.close()], which only the original calls and which does
    nothing in the copy. *)
Definition close_executor : M (list action) unit :=
  match v with
  | Original => act (QuitBrowser Executing) (quit env Executing)
  | Copy => ret tt
  end.

(** The body of the [try] of [main]. *)
Definition main_body : M (list action) string :=
  construct Detecting ;;
  found <- (fun log =>
              let '(outcome, d) := detection in
              (outcome, (log ++ map (Browse Detecting) (driver_log d))%list)) ;;
  act (QuitBrowser Detecting) (quit env Detecting) ;;
  user_prompt <- act Ask (typed env) ;;
  test_case <- generation (fst found) user_prompt (snd found) ;;
  construct Executing ;;
  message <- (fun log =>
                let '(outcome, h) := execution test_case in
                (Ok (snd outcome),
                 (log ++ map (Browse Executing) h)%list)) ;;
  close_executor ;;
  ret message.

(** [main()]: the last line it prints, and what it did. *)
Definition main : string * list action :=
  match main_body [] with
  | (Ok message, log) => ("Test execution result: " ++ message, log)
  | (Raise e, log) => ("Error in main: " ++ str describe e, log)
  end.

(** The runs of [main], by the stage at which they end. *)
Inductive main_run : string * list action -> Prop :=
| No_detector (e : exn) :
    launched Detecting = Raise e ->
    main_run ("Error in main: " ++ str describe e, [launch_of Detecting])
| No_inventory (e : exn) (d : detector) :
    launched Detecting = Ok tt ->
    detection = (Raise e, d) ->
    main_run ("Error in main: " ++ str describe e,
              launch_of Detecting :: map (Browse Detecting) (driver_log d))
| Detector_not_closed (e : exn) (found : inventory * option string)
    (d : detector) :
    launched Detecting = Ok tt ->
    detection = (Ok found, d) ->
    quit env Detecting = Raise e ->
    main_run ("Error in main: " ++ str describe e,
              (launch_of Detecting :: map (Browse Detecting) (driver_log d)
               ++ [QuitBrowser Detecting])%list)
| No_prompt (e : exn) (found : inventory * option string) (d : detector) :
    launched Detecting = Ok tt ->
    detection = (Ok found, d) ->
    quit env Detecting = Ok tt ->
    typed env = Raise e ->
    main_run ("Error in main: " ++ str describe e,
              (launch_of Detecting :: map (Browse Detecting) (driver_log d)
               ++ [QuitBrowser Detecting; Ask])%list)
| No_test_case (e : exn) (found : inventory * option string) (d : detector)
    (user_prompt : string) :
    launched Detecting = Ok tt ->
    detection = (Ok found, d) ->
    quit env Detecting = Ok tt ->
    typed env = Ok user_prompt ->
    generate_test_case describe loads
      (post env (request_for (fst found) user_prompt (snd found))) = Raise e ->
    main_run ("Error in main: " ++ str describe e,
              (launch_of Detecting :: map (Browse Detecting) (driver_log d)
               ++ [QuitBrowser Detecting; Ask;
                   Post (request_for (fst found) user_prompt (snd found))])%list)
| No_executor (e : exn) (found : inventory * option string) (d : detector)
    (user_prompt : string) (test_case : json) :
    launched Detecting = Ok tt ->
    detection = (Ok found, d) ->
    quit env Detecting = Ok tt ->
    typed env = Ok user_prompt ->
    generate_test_case describe loads
      (post env (request_for (fst found) user_prompt (snd found)))
    = Ok test_case ->
    launched Executing = Raise e ->
    main_run ("Error in main: " ++ str describe e,
              (launch_of Detecting :: map (Browse Detecting) (driver_log d)
               ++ [QuitBrowser Detecting; Ask;
                   Post (request_for (fst found) user_prompt (snd found));
                   launch_of Executing])%list)
| Executor_not_closed (e : exn) (found : inventory * option string)
    (d : detector) (user_prompt : string) (test_case : json) :
    launched Detecting = Ok tt ->
    detection = (Ok found, d) ->
    quit env Detecting = Ok tt ->
    typed env = Ok user_prompt ->
    generate_test_case describe loads
      (post env (request_for (fst found) user_prompt (snd found)))
    = Ok test_case ->
    launched Executing = Ok tt ->
    v = Original ->
    quit env Executing = Raise e ->
    main_run ("Error in main: " ++ str describe e,
              (launch_of Detecting :: map (Browse Detecting) (driver_log d)
               ++ [QuitBrowser Detecting; Ask;
                   Post (request_for (fst found) user_prompt (snd found));
                   launch_of Executing]
               ++ map (Browse Executing) (snd (execution test_case))
               ++ [QuitBrowser Executing])%list)
| Reported (found : inventory * option string) (d : detector)
    (user_prompt : string) (test_case : json) :
    launched Detecting = Ok tt ->
    detection = (Ok found, d) ->
    quit env Detecting = Ok tt ->
    typed env = Ok user_prompt ->
    generate_test_case describe loads
      (post env (request_for (fst found) user_prompt (snd found)))
    = Ok test_case ->
    launched Executing = Ok tt ->
    (v = Original -> quit env Executing = Ok tt) ->
    main_run ("Test execution result: " ++ snd (fst (execution test_case)),
              (launch_of Detecting :: map (Browse Detecting) (driver_log d)
               ++ [QuitBrowser Detecting; Ask;
                   Post (request_for (fst found) user_prompt (snd found));
                   launch_of Executing]
               ++ map (Browse Executing) (snd (execution test_case))
               ++ match v with
                  | Original => [QuitBrowser Executing]
                  | Copy => []
                  end)%list).

End Main.

(** [a] occurs in the log, and [b] later. *)
Definition before (a b : action) (log : list action) : Prop :=
  exists l1 l2 l3, log = (l1 ++ a :: l2 ++ b :: l3)%list.

(** ** Further fixtures *)

(** A run in which everything goes through: no variable is set, Chromium
    is the only binary found, the page is [shop_page], and the service
    answers with [click_reply]. *)
Definition demo_env : environment :=
  {| getenv := fun _ => None;
     path_exists := fun _ path => path =? "/usr/bin/chromium";
     chrome := fun _ _ _ => Ok tt;
     session := fun _ => serve shop_page;
     quit := fun _ => Ok tt;
     typed := Ok "Click the button";
     post := fun _ => Ok click_reply |}.

(** The same run on [stale_page], where detection fails. *)
Definition stale_env : environment :=
  {| getenv := fun _ => None;
     path_exists := fun _ path => path =? "/usr/bin/chromium";
     chrome := fun _ _ _ => Ok tt;
     session := fun _ => serve stale_page;
     quit := fun _ => Ok tt;
     typed := Ok "Click the button";
     post := fun _ => Ok click_reply |}.

(** The key of the examples. *)
Definition demo_key (v : variant) : string := "sk-demo".

(** The inventory detected on [shop_page]. *)
Definition demo_inventory : inventory :=
  match fst (detect_elements (serve shop_page) Original
               (target_url Original) new_detector) with
  | Ok (data, _) => data
  | Raise _ => []
  end.

(** The request of the run in [demo_env]. *)
Definition demo_request : Request :=
  request_for ascii_upper demo_key Original demo_env demo_inventory
    "Click the button" None.

(** A 200 response whose message is fenced with bare markers. *)
Definition plain_fence_reply : Response :=
  reply_of "```\n{\'steps\': []}\n```".

(** The body of [plain_fence_reply], decoded. *)
Definition plain_fence_body : json :=
  JDict
    [("choices",
      JList
        [JDict
           [("message",
             JDict
               [("role", JStr "assistant");
                ("content",
                 JStr (fence_close ++ Py.chr Py.newline
                       ++ json_text "{'steps': []}" ++ Py.chr Py.newline
                       ++ fence_close))])]])].

(** An integer of 4301 digits. *)
Definition long_integer : string :=
  string_of_list_ascii (repeat "1"%char 4301).

(** [json.loads] with the digit limit of the interpreter: a document that
    is an integer of more than 4300 digits raises a [ValueError]. *)
Definition limited_loads (s : string) : result json :=
  if forallb (fun c => (48 <=? nat_of_ascii c) && (nat_of_ascii c <=? 57))%nat
       (list_ascii_of_string s)
     && (4300 <? String.length s)%nat
  then Raise (ValueError
         ("Exceeds the limit (4300 digits) for integer string conversion: "
          ++ "value has " ++ Py.str_of_nat (String.length s)
          ++ " digits; use sys.set_int_max_str_digits() to increase the limit"))
  else json_loads s.

(** A browser that reaches nothing. *)
Definition offline : browser :=
  fun A _ _ => Raise (WebDriverException "net::ERR_INTERNET_DISCONNECTED").

(** A browser that loads the page and is lost afterwards. *)
Definition crashed : browser :=
  fun A _ c =>
    match c in command T return result T with
    | Get _ => Ok tt
    | _ => Raise (WebDriverException "chrome not reachable")
    end.

(** The run of [demo_env] when the page has lost its elements by the time
    the test is executed. *)
Definition vanished_env : environment :=
  {| getenv := fun _ => None;
     path_exists := fun _ path => path =? "/usr/bin/chromium";
     chrome := fun _ _ _ => Ok tt;
     session := fun who =>
                  match who with
                  | Detecting => serve shop_page
                  | Executing => serve []
                  end;
     quit := fun _ => Ok tt;
     typed := Ok "Click the button";
     post := fun _ => Ok click_reply |}.

(** A step that agrees with [step_of] on what the executor reads. *)
Definition relabelled_click : json :=
  JDict [("action", JStr "hover"); ("by", JStr "css selector");
         ("value", JStr "//button"); ("step_type", JStr "click")].

(** * Properties *)

(** ** Facts about Python strings *)

Section StringFacts.

Lemma length_append (s t : string) :
  String.length (s ++ t) = String.length s + String.length t.
Proof. induction s as [|c s IH]; simpl; [reflexivity | now rewrite IH]. Qed.

Lemma append_assoc (s t u : string) : (s ++ t) ++ u = s ++ t ++ u.
Proof. induction s as [|c s IH]; simpl; [reflexivity | now rewrite IH]. Qed.

Lemma drop_length_append (s t : string) :
  Py.drop (String.length s) (s ++ t) = t.
Proof. induction s as [|c s IH]; simpl; [now destruct t | exact IH]. Qed.

Lemma drop_0 (s : string) : Py.drop 0 s = s.
Proof. now destruct s. Qed.

Lemma length_drop (n : nat) (s : string) :
  String.length (Py.drop n s) = String.length s - n.
Proof.
  revert s; induction n as [|n IH]; intros [|c s]; simpl; auto.
Qed.

Lemma substring_length_append (s t : string) :
  substring 0 (String.length s) (s ++ t) = s.
Proof.
  induction s as [|c s IH]; simpl.
  - now destruct t.
  - now rewrite IH.
Qed.

Lemma length_substring_0 (m : nat) (s : string) :
  String.length (substring 0 m s) = Nat.min m (String.length s).
Proof.
  revert m; induction s as [|c s IH]; intros [|m]; simpl; auto.
Qed.

Lemma prefix_empty (s : string) : prefix "" s = true.
Proof. now destruct s. Qed.

Lemma prefix_length (p s : string) :
  prefix p s = true -> String.length p <= String.length s.
Proof.
  revert p; induction s as [|c s IH]; intros [|a p]; simpl;
    try lia; try discriminate.
  destruct (ascii_dec a c); [|discriminate].
  intros Hp. apply IH in Hp. lia.
Qed.

Lemma endswith_append (s p : string) : Py.endswith (s ++ p) p = true.
Proof.
  unfold Py.endswith. rewrite length_append.
  replace (String.length s + String.length p - String.length p)
    with (String.length s) by lia.
  rewrite drop_length_append, String.eqb_refl.
  rewrite andb_true_r. apply Nat.leb_le. lia.
Qed.

Lemma endswith_length (s p : string) :
  Py.endswith s p = true -> String.length p <= String.length s.
Proof.
  unfold Py.endswith. intros E. apply andb_true_iff in E as [E _].
  now apply Nat.leb_le.
Qed.

Lemma chop_append (s p : string) : Py.chop (String.length p) (s ++ p) = s.
Proof.
  unfold Py.chop. rewrite length_append.
  replace (String.length s + String.length p - String.length p)
    with (String.length s) by lia.
  apply substring_length_append.
Qed.

Lemma length_chop (n : nat) (s : string) :
  String.length (Py.chop n s) = String.length s - n.
Proof. unfold Py.chop. rewrite length_substring_0. lia. Qed.

Lemma length_lstrip (s : string) :
  String.length (Py.lstrip s) <= String.length s.
Proof.
  induction s as [|c s IH]; simpl; [lia|].
  destruct (Py.isspace c); simpl; lia.
Qed.

Lemma length_rstrip (s : string) :
  String.length (Py.rstrip s) <= String.length s.
Proof.
  induction s as [|c s IH]; simpl; [lia|].
  destruct (Py.rstrip s); simpl in *;
    [destruct (Py.isspace c); simpl; lia | lia].
Qed.

Lemma length_strip (s : string) :
  String.length (Py.strip s) <= String.length s.
Proof.
  unfold Py.strip. pose proof (length_rstrip (Py.lstrip s)).
  pose proof (length_lstrip s). lia.
Qed.

Lemma rstrip_append (s t : string) :
  Py.rstrip t <> "" -> Py.rstrip (s ++ t) = s ++ Py.rstrip t.
Proof.
  intros Ht. induction s as [|c s IH]; simpl; [reflexivity|].
  rewrite IH. destruct (s ++ Py.rstrip t) eqn:E; [|reflexivity].
  exfalso. destruct s; simpl in E; [contradiction | discriminate].
Qed.

Lemma rstrip_idempotent (s : string) : Py.rstrip (Py.rstrip s) = Py.rstrip s.
Proof.
  induction s as [|c s IH]; simpl; [reflexivity|].
  destruct (Py.rstrip s) as [|d r] eqn:E.
  - destruct (Py.isspace c) eqn:Ec; simpl; [reflexivity | now rewrite Ec].
  - change (Py.rstrip (String c (String d r))) with
      (match Py.rstrip (String d r) with
       | "" => if Py.isspace c then "" else Py.chr c
       | r' => String c r'
       end).
    rewrite IH. reflexivity.
Qed.

(** A string that does not start with whitespace keeps its first
    character through [rstrip]. *)
Lemma rstrip_head (c : ascii) (s : string) :
  Py.isspace c = false -> exists r, Py.rstrip (String c s) = String c r.
Proof.
  intros Hc. simpl. destruct (Py.rstrip s); [rewrite Hc|]; eexists; reflexivity.
Qed.

Lemma lstrip_head (s : string) :
  Py.lstrip s = ""
  \/ exists c r, Py.lstrip s = String c r /\ Py.isspace c = false.
Proof.
  induction s as [|c s IH]; simpl; [now left|].
  destruct (Py.isspace c) eqn:Ec; [exact IH|].
  right. now exists c, s.
Qed.

Lemma lstrip_fixed (c : ascii) (s : string) :
  Py.isspace c = false -> Py.lstrip (String c s) = String c s.
Proof. intros Hc. simpl. now rewrite Hc. Qed.

Lemma strip_idempotent (s : string) : Py.strip (Py.strip s) = Py.strip s.
Proof.
  unfold Py.strip.
  destruct (lstrip_head s) as [E | (c & r & E & Hc)]; rewrite E.
  - reflexivity.
  - destruct (rstrip_head c r Hc) as [r' Hr]. rewrite Hr.
    rewrite (lstrip_fixed c r' Hc). rewrite <- Hr. apply rstrip_idempotent.
Qed.

End StringFacts.

(** ** Code-fence stripping *)

Example strip_code_fence_plain : strip_code_fence " {}  " = "{}".
Proof. reflexivity. Qed.

Example strip_code_fence_newlines :
  strip_code_fence
    ("```json" ++ Py.chr Py.newline ++ "{}" ++ Py.chr Py.newline ++ "```")
  = "{}".
Proof. reflexivity. Qed.

Lemma strip_fenced_text (s : string) :
  Py.strip (fence_open ++ s ++ fence_close) = fence_open ++ s ++ fence_close.
Proof.
  unfold Py.strip.
  replace (Py.lstrip (fence_open ++ s ++ fence_close))
    with ((fence_open ++ s) ++ fence_close)
    by (rewrite append_assoc; reflexivity).
  rewrite rstrip_append; [apply append_assoc | discriminate].
Qed.

Lemma strip_code_fence_fenced (s : string) :
  strip_code_fence (fence_open ++ s ++ fence_close) = Py.strip s.
Proof.
  unfold strip_code_fence. rewrite strip_fenced_text.
  assert (Hstart :
            Py.startswith (fence_open ++ s ++ fence_close) fence_open = true).
  { unfold Py.startswith, fence_open. simpl.
    repeat (destruct (ascii_dec _ _); [|congruence]). apply prefix_empty. }
  rewrite Hstart.
  change (Py.drop 7 (fence_open ++ s ++ fence_close))
    with (Py.drop 0 (s ++ fence_close)).
  rewrite drop_0, endswith_append.
  change 3 with (String.length fence_close). now rewrite chop_append.
Qed.

Lemma strip_code_fence_stripped (s : string) :
  Py.strip (strip_code_fence s) = strip_code_fence s.
Proof. unfold strip_code_fence. apply strip_idempotent. Qed.

(** Removing a marker makes the text shorter. *)
Lemma strip_code_fence_shrinks (t : string) :
  Py.startswith t fence_open = true \/ Py.endswith t fence_close = true ->
  Py.strip t = t ->
  String.length (strip_code_fence t) < String.length t.
Proof.
  intros Hfence Hstrip. unfold strip_code_fence. rewrite Hstrip.
  set (u := if Py.startswith t fence_open then Py.drop 7 t else t).
  set (w := if Py.endswith u fence_close then Py.chop 3 u else u).
  pose proof (length_strip w) as Hw.
  assert (Hu : String.length u <= String.length t).
  { unfold u. destruct (Py.startswith t fence_open);
      [rewrite length_drop|]; lia. }
  assert (Hwu : String.length w <= String.length u).
  { unfold w. destruct (Py.endswith u fence_close);
      [rewrite length_chop|]; lia. }
  destruct (Py.startswith t fence_open) eqn:Es.
  - apply prefix_length in Es. simpl in Es.
    assert (String.length u = String.length t - 7)
      by (unfold u; apply length_drop).
    lia.
  - destruct Hfence as [Hf | Hf]; [discriminate|].
    assert (Eu : u = t) by reflexivity.
    unfold w in *. rewrite Eu in *. rewrite Hf in *.
    apply endswith_length in Hf. simpl in Hf.
    rewrite length_chop in *. lia.
Qed.

(** C7 (as amended).  Whatever the decoder, decoding the cleaned-up form of
    a text wrapped in the two fence markers gives what decoding the stripped
    text gives.  The clean-up removes at most one opening and one closing
    marker: applying it a second time changes nothing exactly when its
    first result neither starts with the opening marker nor ends with the
    closing one. *)
Theorem strip_code_fence_once (loads : string -> result json) (s : string) :
  loads (strip_code_fence (fence_open ++ s ++ fence_close))
  = loads (Py.strip s)
  /\ (strip_code_fence (strip_code_fence s) = strip_code_fence s
      <-> Py.startswith (strip_code_fence s) fence_open = false
          /\ Py.endswith (strip_code_fence s) fence_close = false).
Proof.
  split; [now rewrite strip_code_fence_fenced|].
  pose proof (strip_code_fence_stripped s) as Hst.
  set (t := strip_code_fence s) in *.
  split.
  - intros Hid.
    destruct (Py.startswith t fence_open) eqn:Es;
      [|destruct (Py.endswith t fence_close) eqn:Ee; [|now split]].
    + pose proof (strip_code_fence_shrinks t (or_introl Es) Hst).
      rewrite Hid in *. lia.
    + pose proof (strip_code_fence_shrinks t (or_intror Ee) Hst).
      rewrite Hid in *. lia.
  - intros [Es Ee]. unfold strip_code_fence at 1.
    rewrite Hst, Es, Ee. exact Hst.
Qed.

(** C7 (as stated) fails: a message fenced twice loses one layer of fences
    at each application, so the second application changes the result of
    the first. *)
Lemma strip_code_fence_not_idempotent :
  strip_code_fence "```json```json{}``````" = "```json{}```"
  /\ strip_code_fence (strip_code_fence "```json```json{}``````") = "{}"
  /\ ~ (forall s,
          strip_code_fence (strip_code_fence s) = strip_code_fence s).
Proof.
  split; [reflexivity|]. split; [reflexivity|].
  intros Hidem. specialize (Hidem "```json```json{}``````"). discriminate.
Qed.

(** ** The rendering of the inventory *)

Section FormatterFacts.

Variable upper : string -> string.

Lemma fold_append_records (records : list element_record)
  (acc : list string) :
  fold_left
    (fun formatted elem =>
       let attributes := attributes_of elem in
       Py.append formatted ("  - " ++ Py.join ", " attributes))
    records acc
  = (acc ++ map rendered_record records)%list.
Proof.
  revert acc; induction records as [|r records IH]; intros acc; simpl.
  - now rewrite app_nil_r.
  - rewrite IH. unfold Py.append. rewrite <- app_assoc. reflexivity.
Qed.

Lemma fold_append_groups (data : inventory) (acc : list string) :
  fold_left
    (fun formatted group =>
       let '(element_type, elements) := group in
       let formatted :=
         Py.append formatted
           (Py.chr Py.newline ++ upper element_type ++ " Elements:") in
       fold_left
         (fun formatted elem =>
            let attributes := attributes_of elem in
            Py.append formatted ("  - " ++ Py.join ", " attributes))
         elements formatted)
    data acc
  = (acc ++ rendered_lines upper data)%list.
Proof.
  revert acc; induction data as [|[element_type elements] data IH];
    intros acc; simpl.
  - now rewrite app_nil_r.
  - rewrite fold_append_records, IH. unfold Py.append.
    rewrite <- !app_assoc. reflexivity.
Qed.

Lemma nonempty_pairs_attributes (elem : element_record) :
  nonempty_pairs elem = attributes_of elem.
Proof.
  unfold nonempty_pairs, attributes_of.
  induction elem as [|[k [[|c t]|]] elem IH]; simpl;
    [reflexivity | exact IH | f_equal; exact IH | exact IH].
Qed.

Lemma expected_lines_rendered (data : inventory) :
  expected_lines upper data = rendered_lines upper data.
Proof.
  unfold expected_lines, rendered_lines.
  induction data as [|[element_type elements] data IH]; simpl;
    [reflexivity|].
  rewrite IH. f_equal. f_equal.
  apply map_ext. intros elem. unfold record_line, rendered_record.
  now rewrite nonempty_pairs_attributes.
Qed.

(** C9.  The text built by the loops of [_format_elements_data] is the
    newline-joined list that has, for each type in the mapping's order, the
    header of the type (its upper-cased name followed by [" Elements:"])
    and then one line per record, in order, made of the record's pairs
    whose value is a non-empty string, each rendered [key: value], joined
    by [", "]; it has one line per type and one per record. *)
Theorem format_elements_data_renders (data : inventory) :
  _format_elements_data upper data
  = String.concat (String "010"%char "") (expected_lines upper data)
  /\ List.length (expected_lines upper data)
     = List.length data
       + list_sum (map (fun group => List.length (snd group)) data).
Proof.
  split.
  - unfold _format_elements_data.
    now rewrite fold_append_groups, expected_lines_rendered.
  - induction data as [|[element_type elements] data IH]; simpl;
      [reflexivity|].
    rewrite length_app, length_map, IH. lia.
Qed.

End FormatterFacts.

Example format_elements_data_demo :
  _format_elements_data ascii_upper
    [("input",
      [[("type", Some "input"); ("id", Some "amount"); ("name", None);
        ("class", Some ""); ("text", Some "0"); ("xpath", Some "//x")];
       [("type", Some "input"); ("id", Some ""); ("name", None);
        ("class", None); ("text", None); ("xpath", None)]]);
     ("button", [])]
  = Py.chr Py.newline ++ "INPUT Elements:" ++ Py.chr Py.newline
    ++ "  - type: input, id: amount, text: 0, xpath: //x"
    ++ Py.chr Py.newline
    ++ "  - type: input" ++ Py.chr Py.newline
    ++ Py.chr Py.newline ++ "BUTTON Elements:".
Proof. reflexivity. Qed.

(** ** XPath synthesis *)

Section XPathFacts.

Variable toLowerCase : string -> string.
Variable doc : document.

(** The loop reaches the element and has then counted the siblings of the
    same tag that precede it. *)
Lemma count_siblings_reaches (siblings : list node) (tag : string) :
  forall i self ix,
    i <= self -> self - i < List.length siblings ->
    count_siblings siblings i self tag ix
    = Some (ix + preceding_same_tag siblings (self - i) tag).
Proof.
  unfold preceding_same_tag, same_tag.
  induction siblings as [|sibling rest IH]; intros i self ix Hle Hlt;
    simpl in *.
  - lia.
  - destruct (Nat.eqb_spec i self) as [->|Hne].
    + rewrite Nat.sub_diag. simpl. f_equal. lia.
    + rewrite IH by lia.
      replace (self - i) with (S (self - S i)) by lia.
      destruct sibling as [t ? ?|]; simpl; [destruct (t =? tag); simpl|];
        f_equal; lia.
Qed.

Lemma parent_designates (self : nat) (parent : address) (n : node) :
  node_at doc (self :: parent) = Some n -> designates doc parent.
Proof.
  simpl. intros Hn. destruct parent as [|i grand]; [now left|].
  right. simpl in *.
  destruct (nth_error (children_at doc grand) i)
    as [[tag id children|]|] eqn:E.
  - eauto.
  - now destruct self.
  - now destruct self.
Qed.

(** On the document and on every node of the tree the script returns a
    string. *)
Lemma getXPath_returns (a : address) :
  designates doc a -> exists s, getXPath toLowerCase doc a = Returns s.
Proof.
  induction a as [|self parent IH]; intros Ha.
  - simpl. eauto.
  - destruct Ha as [Ha | [n Hn]]; [discriminate|].
    pose proof (parent_designates _ _ _ Hn) as Hp.
    simpl in Hn. simpl. rewrite Hn.
    destruct n as [tag id children|]; [|eauto].
    destruct (negb (id =? "")); [eauto|].
    destruct (is_body doc (self :: parent)); [eauto|].
    rewrite count_siblings_reaches; [|lia|].
    + destruct (IH Hp) as [p Hpath]. rewrite Hpath. simpl. eauto.
    + rewrite Nat.sub_0_r. apply nth_error_Some. congruence.
Qed.

(** C2 (as amended).  For an element of the tree: with a non-empty [id]
    the script returns the predicate on that [id]; else, on the
    document's body, the lower-cased tag name; else the path it returns
    for the parent followed by [/tag[k]], with the tag lower-cased and [k],
    in decimal, one more than the number of element siblings of the same
    tag name that precede the element.  For the document, which the climb
    reaches from an element outside the body, and for a node that is not
    an element, neither of which has an [id] property, it returns the
    predicate on the id [undefined]. *)
Theorem getXPath_cases :
  (forall (self : nat) (parent : address) (tag id : string)
          (children : list node),
     node_at doc (self :: parent) = Some (Element tag id children) ->
     (id <> "" ->
      getXPath toLowerCase doc (self :: parent)
      = Returns ("//*[@id=" ++ String "034"%char (id ++ String "034"%char "]")))
     /\ (id = "" -> is_body doc (self :: parent) = true ->
         getXPath toLowerCase doc (self :: parent)
         = Returns (toLowerCase tag))
     /\ (id = "" -> is_body doc (self :: parent) = false ->
         exists p,
           getXPath toLowerCase doc parent = Returns p
           /\ getXPath toLowerCase doc (self :: parent)
              = Returns
                  (p ++ "/" ++ toLowerCase tag ++ "["
                   ++ DecimalString.NilZero.string_of_uint
                        (Nat.to_uint
                           (1 + preceding_same_tag (children_at doc parent)
                                  self tag))
                   ++ "]")))
  /\ (forall a : address,
        a = [] \/ node_at doc a = Some Other ->
        getXPath toLowerCase doc a
        = Returns
            ("//*[@id=" ++ String "034"%char
                             ("undefined" ++ String "034"%char "]"))).
Proof.
  split.
  - intros self parent tag id children Hn.
    pose proof (parent_designates _ _ _ Hn) as Hp.
    simpl in Hn. split; [|split].
    + intros Hid. simpl. rewrite Hn.
      apply String.eqb_neq in Hid. now rewrite Hid.
    + intros -> Hbody. simpl getXPath. rewrite Hn. simpl negb. cbv iota.
      now rewrite Hbody.
    + intros -> Hbody. destruct (getXPath_returns parent Hp) as [p Hpath].
      exists p. split; [exact Hpath|].
      simpl getXPath. rewrite Hn. simpl negb. cbv iota. rewrite Hbody.
      rewrite count_siblings_reaches; [|lia|].
      * rewrite Hpath, Nat.sub_0_r. cbn [extend Nat.add].
        rewrite (Nat.add_comm _ 1). reflexivity.
      * rewrite Nat.sub_0_r. apply nth_error_Some. congruence.
  - intros a [-> | Hn]; [reflexivity|].
    destruct a as [|self parent]; [discriminate|].
    simpl in Hn. simpl. now rewrite Hn.
Qed.

End XPathFacts.

Example getXPath_demo :
  getXPath ascii_lower demo_doc [0; 0; 2; 1] = Returns (id_path "amount")
  /\ getXPath ascii_lower demo_doc [2; 1] = Returns "body"
  /\ getXPath ascii_lower demo_doc [3; 3; 2; 1]
     = Returns "body/div[2]/input[2]"
  /\ getXPath ascii_lower demo_doc [2; 3; 2; 1] = Returns "body/div[2]/a[1]"
  /\ getXPath ascii_lower demo_doc [0; 1]
     = Returns (id_path "undefined" ++ "/html[1]/head[1]").
Proof. repeat split. Qed.

(** The elements of [demo_doc]: the first input, which has an [id]; the
    body; the second [input] of the second [div], without [id], which one
    [input] precedes among its four siblings; and the [head], outside the
    body, whose path starts at the document. *)
Lemma getXPath_cases_witness :
  getXPath ascii_lower demo_doc [0; 0; 2; 1]
  = Returns ("//*[@id=" ++ String "034"%char
                             ("amount" ++ String "034"%char "]"))
  /\ getXPath ascii_lower demo_doc [2; 1] = Returns "body"
  /\ getXPath ascii_lower demo_doc [3; 3; 2; 1]
     = Returns "body/div[2]/input[2]"
  /\ getXPath ascii_lower demo_doc []
     = Returns ("//*[@id=" ++ String "034"%char
                                ("undefined" ++ String "034"%char "]"))
  /\ getXPath ascii_lower demo_doc [0; 1]
     = Returns ("//*[@id=" ++ String "034"%char
                                ("undefined" ++ String "034"%char "]")
                ++ "/html[1]/head[1]").
Proof.
  pose proof (getXPath_cases ascii_lower demo_doc) as [Helement Hother].
  split.
  { exact (proj1 (Helement 0 [0; 2; 1] "INPUT" "amount" [] eq_refl)
             ltac:(discriminate)). }
  split.
  { exact (proj1 (proj2 (Helement 2 [1] "BODY" "" _ eq_refl))
             eq_refl eq_refl). }
  split.
  { destruct (proj2 (proj2 (Helement 3 [3; 2; 1] "INPUT" "" [] eq_refl))
                eq_refl eq_refl) as (p & Hp & ->).
    destruct (proj2 (proj2 (Helement 3 [2; 1] "DIV" "" _ eq_refl))
                eq_refl eq_refl) as (q & Hq & Hdiv).
    rewrite Hdiv in Hp. injection Hp as <-.
    rewrite (proj1 (proj2 (Helement 2 [1] "BODY" "" _ eq_refl))
               eq_refl eq_refl) in Hq.
    injection Hq as <-. reflexivity. }
  split.
  { exact (Hother [] (or_introl eq_refl)). }
  destruct (proj2 (proj2 (Helement 0 [1] "HEAD" "" [] eq_refl))
              eq_refl eq_refl) as (p & Hp & ->).
  destruct (proj2 (proj2 (Helement 1 [] "HTML" "" _ eq_refl))
              eq_refl eq_refl) as (q & Hq & Hhtml).
  rewrite Hhtml in Hp. injection Hp as <-.
  rewrite (Hother [] (or_introl eq_refl)) in Hq. injection Hq as <-.
  reflexivity.
Defined.

(** C2 (as stated) fails on the nodes that are not elements.  The text
    node that follows the first [div] of the body of [demo_doc] has no
    [id] attribute and is not the body, and the script does not return
    the path of its parent, [body], followed by a segment: it returns the
    predicate on the id [undefined], as it does for the document. *)
Lemma non_element_node_gets_id_predicate :
  node_at demo_doc [1; 2; 1] = Some Other
  /\ getXPath ascii_lower demo_doc [2; 1] = Returns "body"
  /\ getXPath ascii_lower demo_doc [1; 2; 1]
     = Returns ("//*[@id=" ++ String "034"%char
                                ("undefined" ++ String "034"%char "]"))
  /\ (forall segment,
        getXPath ascii_lower demo_doc [1; 2; 1]
        <> Returns ("body" ++ segment))
  /\ getXPath ascii_lower demo_doc []
     = Returns ("//*[@id=" ++ String "034"%char
                                ("undefined" ++ String "034"%char "]")).
Proof.
  split; [reflexivity|]. split; [reflexivity|]. split; [reflexivity|].
  split; [intros segment; discriminate | reflexivity].
Qed.

(** ** The test generator *)

Section GeneratorFacts.

Variable describe : exn -> string.
Variable loads : string -> result json.

Lemma contains_key_lookup (k : string) (entries : list (string * json)) :
  existsb (fun kv => fst kv =? k) entries = true
  <-> exists x, Value.lookup k entries = Some x.
Proof.
  induction entries as [|[k' x] entries IH]; simpl.
  - split; [discriminate | intros [x Hx]; discriminate].
  - destruct (k' =? k); simpl; [split; eauto | exact IH].
Qed.

Lemma all_fields_in_true (step : json) (fields : list string) :
  all_fields_in step fields = Ok true
  <-> forall field, In field fields -> Value.contains field step = Ok true.
Proof.
  induction fields as [|f fields IH]; simpl.
  - split; [intros _ field [] | reflexivity].
  - destruct (Value.contains f step) as [[|]|e] eqn:E; simpl.
    + rewrite IH. split.
      * intros Hall field [<-|Hin]; auto.
      * intros Hall field Hin. apply Hall. now right.
    + split; [discriminate|]. intros Hall.
      specialize (Hall f (or_introl eq_refl)). congruence.
    + split; [discriminate|]. intros Hall.
      specialize (Hall f (or_introl eq_refl)). congruence.
Qed.

Lemma check_steps_cons (step : json) (items : list json) :
  check_steps (step :: items)
  = bind (all_fields_in step required_fields) (fun complete =>
      if complete : bool then check_steps items
      else Raise (ValueError
        "Step missing required fields: ['action', 'by', 'value', 'step_type']")).
Proof. reflexivity. Qed.

Lemma check_steps_ok (items : list json) :
  check_steps items = Ok tt <-> Forall has_required_fields items.
Proof.
  induction items as [|step items IH].
  - split; [constructor | reflexivity].
  - rewrite check_steps_cons.
    destruct (all_fields_in step required_fields) as [[|]|e] eqn:E;
      unfold bind.
    + rewrite IH. pose proof (proj1 (all_fields_in_true _ _) E) as Hstep.
      split.
      * intros Hrest. now constructor.
      * intros Hall. now inversion Hall.
    + split; [discriminate|]. intros Hall.
      inversion Hall as [|? ? Hstep _]; subst.
      apply (proj2 (all_fields_in_true _ _)) in Hstep. congruence.
    + split; [discriminate|]. intros Hall.
      inversion Hall as [|? ? Hstep _]; subst.
      apply (proj2 (all_fields_in_true _ _)) in Hstep. congruence.
Qed.

Lemma validate_ok (test_case out : json) :
  validate test_case = Ok out
  <-> out = test_case
      /\ exists entries steps items,
           test_case = JDict entries
           /\ Value.lookup "steps" entries = Some steps
           /\ Value.iterate steps = Ok items
           /\ Forall has_required_fields items.
Proof.
  unfold validate. split.
  - destruct test_case as [| | | | | |entries]; simpl; try discriminate.
    destruct (existsb _ entries) eqn:Ex; [|discriminate].
    apply contains_key_lookup in Ex as [steps Hsteps]. rewrite Hsteps. simpl.
    destruct (Value.iterate steps) as [items|e] eqn:Hit; simpl;
      [|discriminate].
    destruct (check_steps items) as [[]|e] eqn:Hck; simpl; [|discriminate].
    intros [= <-]. split; [reflexivity|].
    exists entries, steps, items. repeat split; auto.
    now apply check_steps_ok.
  - intros [-> (entries & steps & items & -> & Hsteps & Hit & Hall)]. simpl.
    assert (Ex : existsb (fun kv => fst kv =? "steps") entries = true)
      by (apply contains_key_lookup; eauto).
    rewrite Ex, Hsteps. simpl. rewrite Hit. simpl.
    apply check_steps_ok in Hall. now rewrite Hall.
Qed.

Lemma generate_ok (response : Response) (test_case : json) :
  generate_test_case describe loads (Ok response) = Ok test_case
  <-> accepted loads response test_case.
Proof.
  unfold generate_test_case, accepted, message_content. simpl.
  destruct (Z.eqb_spec (status_code response) 200) as [Hs|Hs];
    [|split; [discriminate | intros [? _]; contradiction]].
  unfold response_json.
  destruct (loads (text response)) as [body|e0] eqn:Hbody; simpl;
    [|split; [discriminate | intros [_ (? & ? & ? & ? & ? & ? & _)]; discriminate]].
  destruct (Value.getitem body (Name "choices")) as [choices|e] eqn:H1; simpl.
  2:{ split; [discriminate|]. intros [_ (b & c & ? & ? & ? & [= <-] & Hc & _)].
      rewrite H1 in Hc. discriminate. }
  destruct (Value.getitem choices (Index 0)) as [choice|e] eqn:H2; simpl.
  2:{ split; [discriminate|]. intros [_ (b & c & ? & ? & ? & [= <-] & Hc & _)].
      rewrite H1 in Hc. simpl in Hc. rewrite H2 in Hc. discriminate. }
  destruct (Value.getitem choice (Name "message")) as [message|e] eqn:H3; simpl.
  2:{ split; [discriminate|]. intros [_ (b & c & ? & ? & ? & [= <-] & Hc & _)].
      rewrite H1 in Hc. simpl in Hc. rewrite H2 in Hc. simpl in Hc.
      rewrite H3 in Hc. discriminate. }
  destruct (Value.getitem message (Name "content")) as [content|e] eqn:H4; simpl.
  2:{ split; [discriminate|]. intros [_ (b & c & ? & ? & ? & [= <-] & Hc & _)].
      rewrite H1 in Hc. simpl in Hc. rewrite H2 in Hc. simpl in Hc.
      rewrite H3 in Hc. simpl in Hc. rewrite H4 in Hc. discriminate. }
  assert (Hcontent : forall b c, Ok body = Ok b ->
            bind (Value.getitem b (Name "choices")) (fun choices =>
            bind (Value.getitem choices (Index 0)) (fun choice =>
            bind (Value.getitem choice (Name "message")) (fun message =>
            Value.getitem message (Name "content")))) = Ok (JStr c) ->
            content = JStr c).
  { intros b c [= <-] Hc. rewrite H1 in Hc. simpl in Hc. rewrite H2 in Hc.
    simpl in Hc. rewrite H3 in Hc. simpl in Hc. rewrite H4 in Hc. congruence. }
  destruct content as [| | | |c| |]; simpl;
    try (split; [discriminate|];
         intros [_ (bd & c' & ? & ? & ? & Hb & Hc & _)];
         specialize (Hcontent bd c' Hb Hc); discriminate).
  destruct (loads (strip_code_fence c)) as [tc|e0] eqn:Htc; simpl.
  2:{ split; [destruct e0; discriminate|].
      intros [_ (b & c' & ? & ? & ? & Hb & Hc & Hl & _)].
      specialize (Hcontent b c' Hb Hc). injection Hcontent as <-. congruence. }
  destruct (validate tc) as [out|e] eqn:Hv; simpl.
  - apply validate_ok in Hv as [-> (entries & steps & items & -> & Hst & Hit & Hall)].
    split.
    + intros [= <-]. split; [assumption|].
      exists body, c, entries, steps, items. repeat split; auto.
      rewrite H1. simpl. rewrite H2. simpl. rewrite H3. simpl. exact H4.
    + intros [_ (b & c' & ? & ? & ? & Hb & Hc & Hl & _)].
      specialize (Hcontent b c' Hb Hc). injection Hcontent as <-. congruence.
  - split; [destruct e; discriminate|].
    intros [_ (b & c' & entries & steps & items & Hb & Hc & Hl & -> & Hst & Hit & Hall)].
    specialize (Hcontent b c' Hb Hc). injection Hcontent as <-.
    rewrite Htc in Hl. injection Hl as ->.
    assert (Hok : validate (JDict entries) = Ok (JDict entries)).
    { apply validate_ok. split; [reflexivity|]. eauto 10. }
    congruence.
Qed.

(** C1 (as amended).  For every response, the generator returns a test
    case exactly when the status code is 200, the body decodes to a value
    whose [choices[0].message.content] is a string, that string decodes
    after the fence clean-up, the decoded value is a dict with a [steps]
    key, the value under [steps] can be iterated, and [field in step] holds
    for each required field and each item of the iteration; it then returns
    the decoded value.  In every other case it raises. *)
Theorem generate_test_case_outcome (response : Response) :
  (forall test_case,
     generate_test_case describe loads (Ok response) = Ok test_case
     <-> accepted loads response test_case)
  /\ (raises (generate_test_case describe loads (Ok response))
      <-> ~ exists test_case, accepted loads response test_case).
Proof.
  split; [apply generate_ok|].
  destruct (generate_test_case describe loads (Ok response)) as [tc|e] eqn:E.
  - split.
    + intros [e He]. discriminate.
    + intros Hno. exfalso. apply Hno. exists tc. now apply generate_ok.
  - split.
    + intros _ [tc Htc]. apply generate_ok in Htc. congruence.
    + intros _. now exists e.
Qed.

(** The check of the required fields does not look at [input_value]. *)
Lemma required_fields_without_input_value (step : json) :
  has_required_fields step -> has_required_fields (without_input_value step).
Proof.
  intros Hstep field Hin. specialize (Hstep field Hin).
  destruct step as [| | | | | |entries]; try exact Hstep.
  simpl in *. injection Hstep as Hstep. f_equal.
  assert (Hfield : (field =? "input_value") = false).
  { unfold required_fields in Hin. simpl in Hin.
    destruct Hin as [<-|[<-|[<-|[<-|[]]]]]; reflexivity. }
  induction entries as [|[k x] entries IH]; simpl in *; [discriminate|].
  destruct (String.eqb_spec k field) as [->|Hk]; simpl in *.
  - rewrite Hfield. simpl. now rewrite String.eqb_refl.
  - destruct (k =? "input_value"); simpl; [now apply IH|].
    apply String.eqb_neq in Hk. rewrite Hk. now apply IH.
Qed.

(** C5 (as amended).  Every item of the [steps] of a returned test case
    passes the membership test for [action], [by], [value] and
    [step_type], so an item that is an object carries these four keys.
    [input_value] is not looked at: the item would pass as well with that
    entry removed. *)
Theorem generated_steps_carry_required_fields
  (posted : result Response) (test_case : json) :
  generate_test_case describe loads posted = Ok test_case ->
  exists entries steps items,
    test_case = JDict entries
    /\ Value.lookup "steps" entries = Some steps
    /\ Value.iterate steps = Ok items
    /\ Forall
         (fun step =>
            has_required_fields step
            /\ has_required_fields (without_input_value step)
            /\ forall fields, step = JDict fields ->
                 forall field, In field required_fields ->
                   exists x, Value.lookup field fields = Some x)
         items.
Proof.
  destruct posted as [response|e]; [|discriminate].
  intros Hgen. apply generate_ok in Hgen
    as [_ (body & content & entries & steps & items
           & _ & _ & _ & -> & Hsteps & Hitems & Hall)].
  exists entries, steps, items. repeat split; auto.
  eapply Forall_impl; [|exact Hall].
  intros step Hstep. split; [exact Hstep|].
  split; [now apply required_fields_without_input_value|].
  intros fields -> field Hin. specialize (Hstep field Hin).
  simpl in Hstep. injection Hstep as Hstep.
  now apply contains_key_lookup.
Qed.

(** The generator on the empty test case. *)
Lemma generate_empty_test_case (response : Response) (body : json)
  (content : string) :
  status_code response = 200%Z ->
  loads (text response) = Ok body ->
  message_content body = Ok (JStr content) ->
  loads (strip_code_fence content) = Ok empty_test_case ->
  validate empty_test_case = Ok empty_test_case
  /\ generate_test_case describe loads (Ok response) = Ok empty_test_case.
Proof.
  intros Hstatus Hbody Hcontent Hcase. split; [reflexivity|].
  apply generate_ok. split; [exact Hstatus|].
  exists body, content, [("steps", JList [])], (JList []), [].
  repeat split; auto.
Qed.

End GeneratorFacts.

(** The decoder on some documents. *)
Example loads_demo :
  Decoder.loads (json_text " {'steps': [1.5e3, -12, true, null, 'a\nb'], 'steps': [] } ")
  = Some (JDict [("steps", JList [])])
  /\ Decoder.loads (json_text "[1, {'a': [[], {}]}, 'A\u00e9\n']")
     = Some (JList [JInt 1; JDict [("a", JList [JList []; JDict []])];
                    JStr ("A" ++ Py.chr (ascii_of_nat 233)
                          ++ Py.chr Py.newline)])
  /\ Decoder.loads (json_text "[1,]") = None
  /\ Decoder.loads (json_text "{'a': 1} x") = None
  /\ Decoder.loads "01" = None
  /\ Decoder.loads "" = None.
Proof. repeat split. Qed.

(** C1 (as stated) fails.  In this response the status is 200 and the
    message decodes to a dict with a [steps] key whose value, the number 5,
    has no element, so none that lacks a field; the generator raises all
    the same, since the loop over [steps] cannot start. *)
Lemma non_iterable_steps_are_rejected :
  status_code (reply_of "{\'steps\': 5}") = 200%Z
  /\ (exists body,
        json_loads (text (reply_of "{\'steps\': 5}")) = Ok body
        /\ message_content body = Ok (JStr (json_text "{'steps': 5}")))
  /\ json_loads (strip_code_fence (json_text "{'steps': 5}"))
     = Ok (JDict [("steps", JInt 5)])
  /\ generate_test_case cpython_str json_loads
       (Ok (reply_of "{\'steps\': 5}"))
     = Raise (Exception
         "Error generating test case: Invalid test case format: 'int' object is not iterable").
Proof.
  split; [reflexivity|]. split; [eexists; split; reflexivity|].
  split; reflexivity.
Qed.

(** In the other direction, a step that is a string passes the check
    when the four names occur in it. *)
Example string_step_is_accepted :
  generate_test_case cpython_str json_loads
    (Ok (reply_of "{\'steps\': [\'action by value step_type\']}"))
  = Ok (test_case_of [JStr "action by value step_type"]).
Proof. reflexivity. Qed.

Lemma generated_steps_carry_required_fields_witness :
  generate_test_case cpython_str json_loads (Ok click_reply)
  = Ok (test_case_of [step_of "//button" "click" None])
  /\ exists entries steps items,
       test_case_of [step_of "//button" "click" None] = JDict entries
       /\ Value.lookup "steps" entries = Some steps
       /\ Value.iterate steps = Ok items
       /\ Forall
            (fun step =>
               has_required_fields step
               /\ has_required_fields (without_input_value step)
               /\ forall fields, step = JDict fields ->
                    forall field, In field required_fields ->
                      exists x, Value.lookup field fields = Some x)
            items.
Proof.
  split; [reflexivity|].
  exact (generated_steps_carry_required_fields cpython_str json_loads
           (Ok click_reply) (test_case_of [step_of "//button" "click" None])
           eq_refl).
Defined.

(** ** The test executor *)

Section ExecutorFacts.

Local Open Scope list_scope.

Variable describe : exn -> string.
Variable drv : browser.
Variable v : variant.

Lemma perform_trace {A : Type} (c : command A) (h : trace) :
  perform drv c h = (drv A h c, h ++ [Call c]).
Proof. reflexivity. Qed.

Lemma run_steps_cons (step : json) (rest : list json) (h : trace) :
  run_steps drv v (step :: rest) h
  = match run_step drv v step h with
    | (Ok _, h') => run_steps drv v rest h'
    | (Raise e, h') => (Raise e, h')
    end.
Proof. reflexivity. Qed.

Lemma run_steps_app (pre post : list json) (h : trace) :
  run_steps drv v (pre ++ post) h
  = match run_steps drv v pre h with
    | (Ok _, h') => run_steps drv v post h'
    | (Raise e, h') => (Raise e, h')
    end.
Proof.
  revert h; induction pre as [|step pre IH]; intros h.
  - reflexivity.
  - rewrite <- app_comm_cons, !run_steps_cons.
    destruct (run_step drv v step h) as [[[]|e] h']; [apply IH | reflexivity].
Qed.

Lemma extends_ret {A : Type} (a : A) : extends (ret a).
Proof. intros h r h' [= <- <-]. exists []. now rewrite app_nil_r. Qed.

Lemma extends_lift {A : Type} (x : result A) : extends (lift x).
Proof. intros h r h' [= <- <-]. exists []. now rewrite app_nil_r. Qed.

Lemma extends_perform {A : Type} (c : command A) : extends (perform drv c).
Proof. intros h r h' [= <- <-]. now exists [Call c]. Qed.

Lemma extends_sleep (n : nat) : extends (sleep (S:=trace) n).
Proof. intros h r h' [= <- <-]. now exists [Sleep n]. Qed.

Lemma extends_mbind {A B : Type} (m : M trace A) (k : A -> M trace B) :
  extends m -> (forall a, extends (k a)) -> extends (mbind m k).
Proof.
  intros Hm Hk h r h'. unfold mbind.
  destruct (m h) as [[a|e] h1] eqn:E.
  - intros Hr. destruct (Hm _ _ _ E) as [t1 ->].
    destruct (Hk a _ _ _ Hr) as [t2 ->].
    exists (t1 ++ t2). now rewrite app_assoc.
  - intros [= <- <-]. exact (Hm _ _ _ E).
Qed.

Lemma extends_run_step (step : json) : extends (run_step drv v step).
Proof.
  unfold run_step.
  repeat first
    [ apply extends_mbind; [|intros ?]
    | apply extends_lift
    | apply extends_perform
    | apply extends_ret
    | match goal with
      | |- extends (if ?b then _ else _) => destruct b
      | |- extends (match ?x with Original => _ | Copy => _ end) => destruct x
      end ].
Qed.

Lemma extends_run_steps (steps : list json) : extends (run_steps drv v steps).
Proof.
  induction steps as [|step steps IH].
  - apply extends_ret.
  - apply extends_mbind; [apply extends_run_step | intros _; exact IH].
Qed.

(** The run of [execute_test] in terms of the run of its loop. *)
Lemma execute_test_unfold (url : string) (test_steps steps : json)
  (items : list json) (h : trace) :
  drv unit h (Get url) = Ok tt ->
  Value.getitem test_steps (Name "steps") = Ok steps ->
  Value.iterate steps = Ok items ->
  execute_test describe drv v url test_steps h
  = match run_steps drv v items (h ++ [Call (Get url)]) with
    | (Ok _, h') => ((true, success_message), h' ++ pause v)
    | (Raise e, h') => ((false, failure_message describe e), h')
    end.
Proof.
  intros Hget Hsteps Hitems. unfold execute_test, mbind, lift.
  rewrite perform_trace, Hget, Hsteps, Hitems.
  destruct (run_steps drv v items (h ++ [Call (Get url)])) as [[[]|e] h'];
    [|reflexivity].
  unfold final_pause, pause. destruct v; simpl; [now rewrite app_nil_r | reflexivity].
Qed.

(** C3.  When the steps before a step ran through and that step raises [e],
    whether while locating its element or while acting on it,
    [execute_test] returns [false] with the message of [e] after the prefix
    [Test execution failed: ], and stops with the trace as the failing step
    left it: the commands of the earlier steps stay in it, once each, and
    nothing is sent for the later steps. *)
Theorem execute_test_halts (url : string) (test_steps steps : json)
  (pre post : list json) (step : json) (e : exn) (h0 h1 h2 : trace) :
  drv unit h0 (Get url) = Ok tt ->
  Value.getitem test_steps (Name "steps") = Ok steps ->
  Value.iterate steps = Ok (pre ++ step :: post) ->
  run_steps drv v pre (h0 ++ [Call (Get url)]) = (Ok tt, h1) ->
  run_step drv v step h1 = (Raise e, h2) ->
  execute_test describe drv v url test_steps h0
  = ((false, ("Test execution failed: " ++ str describe e)%string), h2)
  /\ exists before during,
       h1 = h0 ++ Call (Get url) :: before /\ h2 = h1 ++ during.
Proof.
  intros Hget Hsteps Hitems Hpre Hstep. split.
  - rewrite (execute_test_unfold _ _ _ _ _ Hget Hsteps Hitems).
    rewrite run_steps_app, Hpre, run_steps_cons, Hstep. reflexivity.
  - destruct (extends_run_steps _ _ _ _ Hpre) as [before ->].
    destruct (extends_run_step _ _ _ _ Hstep) as [during ->].
    exists before, during. split; [|reflexivity].
    now rewrite <- app_assoc.
Qed.


(** The run of a step whose type is not dispatched on. *)
Lemma run_step_unrecognized (step value step_type : json) (h : trace) :
  Value.getitem step (Name "value") = Ok value ->
  Value.getitem step (Name "step_type") = Ok step_type ->
  recognized v step_type = false ->
  run_step drv v step h
  = (match drv elem h (WaitPresence "xpath" value) with
     | Ok _ => Ok tt
     | Raise e => Raise e
     end, h ++ [Call (WaitPresence "xpath" value)]).
Proof.
  intros Hvalue Htype Hrec. unfold recognized in Hrec.
  apply orb_false_iff in Hrec as [Hrec Hscroll].
  apply orb_false_iff in Hrec as [Hrec Hselect].
  apply orb_false_iff in Hrec as [Hinput Hclick].
  unfold run_step, mbind, lift, is_type.
  rewrite Hvalue, perform_trace.
  destruct (drv elem h (WaitPresence "xpath" value)) as [e|err]; [|reflexivity].
  rewrite Htype, Hinput, Hclick, Hselect.
  destruct v; [reflexivity | now rewrite Hscroll].
Qed.

(** C4 (as amended).  For a step whose [step_type] is not dispatched on,
    the executor still looks the element up.  When the lookup succeeds the
    step sends nothing else, raises nothing, and the loop goes on with the
    next step; when the lookup raises, so does the step.  Which
    unrecognized [step_type] the step carries makes no difference. *)
Theorem unrecognized_step_is_only_looked_up
  (step value step_type : json) (h : trace) :
  Value.getitem step (Name "value") = Ok value ->
  Value.getitem step (Name "step_type") = Ok step_type ->
  recognized v step_type = false ->
  (forall e, drv elem h (WaitPresence "xpath" value) = Ok e ->
     run_step drv v step h = (Ok tt, h ++ [Call (WaitPresence "xpath" value)])
     /\ forall rest,
          run_steps drv v (step :: rest) h
          = run_steps drv v rest (h ++ [Call (WaitPresence "xpath" value)]))
  /\ (forall err, drv elem h (WaitPresence "xpath" value) = Raise err ->
        run_step drv v step h
        = (Raise err, h ++ [Call (WaitPresence "xpath" value)]))
  /\ (forall step' step_type',
        Value.getitem step' (Name "value") = Ok value ->
        Value.getitem step' (Name "step_type") = Ok step_type' ->
        recognized v step_type' = false ->
        run_step drv v step' h = run_step drv v step h).
Proof.
  intros Hvalue Htype Hrec.
  pose proof (run_step_unrecognized _ _ _ h Hvalue Htype Hrec) as Hrun.
  repeat split.
  - now rewrite Hrun, H.
  - intros rest. now rewrite run_steps_cons, Hrun, H.
  - intros err Herr. now rewrite Hrun, Herr.
  - intros step' step_type' Hvalue' Htype' Hrec'.
    now rewrite Hrun, (run_step_unrecognized _ _ _ h Hvalue' Htype' Hrec').
Qed.

Lemma run_step_executable (e : elem) (step x : json) (calls : list event)
  (h : trace) :
  locator_of step = Some x ->
  drv elem h (WaitPresence "xpath" x) = Ok e ->
  interaction v step e = Some calls ->
  go_through drv calls (h ++ [Call (WaitPresence "xpath" x)]) ->
  run_step drv v step h = (Ok tt, h ++ Call (WaitPresence "xpath" x) :: calls).
Proof.
  intros Hloc Hwait Hcalls Hthrough.
  destruct step as [| | | | | |entries]; try discriminate.
  simpl in Hloc, Hcalls.
  unfold run_step, mbind, lift, is_type. simpl Value.getitem.
  rewrite Hloc, perform_trace, Hwait.
  destruct (Value.lookup "step_type" entries) as [step_type|]; [|discriminate].
  destruct (Value.eq_str step_type "input").
  { destruct (Value.lookup "input_value" entries) as [text|] eqn:Htext;
      [|discriminate].
    injection Hcalls as <-.
    destruct Hthrough as ([[] Hfirst] & [[] Hsecond] & _).
    rewrite perform_trace, Hfirst.
    cbv beta iota. simpl Value.getitem. rewrite Htext, perform_trace, Hsecond.
    rewrite <- !app_assoc. reflexivity. }
  destruct (Value.eq_str step_type "click").
  { injection Hcalls as <-.
    destruct Hthrough as ([[] Hfirst] & _).
    rewrite perform_trace, Hfirst.
    rewrite <- !app_assoc. reflexivity. }
  destruct (Value.eq_str step_type "select").
  { destruct (Value.lookup "input_value" entries) as [text|] eqn:Htext;
      [|discriminate].
    injection Hcalls as <-.
    destruct Hthrough as ([[] Hfirst] & [[] Hsecond] & _).
    rewrite perform_trace, Hfirst.
    cbv beta iota. simpl Value.getitem. rewrite Htext, perform_trace, Hsecond.
    rewrite <- !app_assoc. reflexivity. }
  destruct v; [discriminate|].
  destruct (Value.eq_str step_type "scroll"); [|discriminate].
  injection Hcalls as <-.
  destruct Hthrough as ([r1 Hfirst] & [r2 Hsecond] & _).
  rewrite perform_trace, Hfirst.
  cbv beta iota. rewrite perform_trace, Hsecond.
  unfold ret. rewrite <- !app_assoc. reflexivity.
Qed.

Lemma run_steps_replay (resolve : trace -> json -> elem) (items : list json) :
  forall h,
    carried_out drv v resolve items h ->
    run_steps drv v items h = (Ok tt, replay resolve v items h).
Proof.
  induction items as [|step items IH]; intros h Hout.
  - reflexivity.
  - destruct Hout as (x & calls & Hloc & Hwait & Hint & Hthrough & Hrest).
    rewrite run_steps_cons.
    rewrite (run_step_executable _ step x calls h Hloc Hwait Hint Hthrough).
    simpl replay. rewrite Hloc, Hint. now apply IH.
Qed.

(** C8 (as amended).  When the navigation succeeds and, as the run goes,
    every step is an object with a locator, a recognized [step_type] and
    the [input_value] its type needs, its lookup resolves when it is made
    and the browser answers the commands of its interaction when they are
    sent, [execute_test] sends, after the navigation and in the order of
    the steps, the lookup of each step followed by its interaction (clear
    then type for [input], click for [click], the [Select] wrapper then
    the choice by visible text for [select]), nothing else but the pause
    of the copy, and returns [true] with the success message. *)
Theorem execute_test_replays (resolve : trace -> json -> elem) (url : string)
  (test_steps steps : json) (items : list json) (h0 : trace) :
  drv unit h0 (Get url) = Ok tt ->
  Value.getitem test_steps (Name "steps") = Ok steps ->
  Value.iterate steps = Ok items ->
  carried_out drv v resolve items (h0 ++ [Call (Get url)]) ->
  execute_test describe drv v url test_steps h0
  = ((true, "Test executed successfully"%string),
     replay resolve v items (h0 ++ [Call (Get url)]) ++ pause v).
Proof.
  intros Hget Hsteps Hitems Hall.
  rewrite (execute_test_unfold _ _ _ _ _ Hget Hsteps Hitems).
  now rewrite (run_steps_replay resolve items _ Hall).
Qed.

Lemma execute_empty_test_case (url : string) (h : trace) :
  drv unit h (Get url) = Ok tt ->
  execute_test describe drv v url empty_test_case h
  = ((true, "Test executed successfully"%string), h ++ Call (Get url) :: pause v).
Proof.
  intros Hget.
  rewrite (execute_test_unfold url empty_test_case (JList []) [] h Hget
             eq_refl eq_refl).
  simpl. now rewrite <- app_assoc.
Qed.

End ExecutorFacts.

(** C10.  The test case with no step passes the structural validation and
    is what the generator returns when the message decodes to it; run
    through [execute_test], with a navigation that succeeds, it sends the
    browser the navigation and nothing else, and the result is [true] with
    the success message. *)
Theorem empty_test_case_passes (describe : exn -> string)
  (loads : string -> result json) (drv : browser) (v : variant)
  (response : Response) (body : json) (content url : string) (h : trace) :
  status_code response = 200%Z ->
  loads (text response) = Ok body ->
  message_content body = Ok (JStr content) ->
  loads (strip_code_fence content) = Ok empty_test_case ->
  drv unit h (Get url) = Ok tt ->
  validate empty_test_case = Ok empty_test_case
  /\ generate_test_case describe loads (Ok response) = Ok empty_test_case
  /\ execute_test describe drv v url empty_test_case h
     = ((true, "Test executed successfully"),
        (h ++ Call (Get url) :: pause v)%list).
Proof.
  intros Hstatus Hbody Hcontent Hcase Hget.
  destruct (generate_empty_test_case describe loads response body content
              Hstatus Hbody Hcontent Hcase) as [Hvalid Hgen].
  split; [exact Hvalid|]. split; [exact Hgen|].
  now apply execute_empty_test_case.
Qed.

Lemma empty_test_case_passes_witness :
  generate_test_case cpython_str json_loads (Ok (reply_of "{\'steps\': []}"))
  = Ok empty_test_case
  /\ execute_test cpython_str (serve shop_page) Copy shop_url empty_test_case []
     = ((true, "Test executed successfully"),
        [Call (Get shop_url); Sleep 300])
  /\ execute_test cpython_str (serve shop_page) Original shop_url
       empty_test_case []
     = ((true, "Test executed successfully"), [Call (Get shop_url)]).
Proof.
  destruct (empty_test_case_passes cpython_str json_loads (serve shop_page)
              Copy (reply_of "{\'steps\': []}")
              (JDict [("choices",
                       JList [JDict [("message",
                                      JDict [("role", JStr "assistant");
                                             ("content",
                                              JStr (json_text
                                                      "{'steps': []}"))])]])])
              (json_text "{'steps': []}") shop_url []
              eq_refl eq_refl eq_refl eq_refl eq_refl)
    as (_ & Hgen & Hrun).
  split; [exact Hgen|]. split; [exact Hrun|]. reflexivity.
Defined.

Lemma execute_test_halts_witness :
  execute_test cpython_str (serve shop_page) Original shop_url broken_case []
  = ((false, "Test execution failed: Message: "),
     [Call (Get shop_url);
      Call (WaitPresence "xpath" (JStr "//button")); Call (Click 3);
      Call (WaitPresence "xpath" (JStr "//nowhere"))]).
Proof.
  destruct (execute_test_halts cpython_str (serve shop_page) Original
              shop_url broken_case
              (JList [step_of "//button" "click" None;
                      step_of "//nowhere" "input" (Some "5");
                      step_of "//input[1]" "click" None])
              [step_of "//button" "click" None]
              [step_of "//input[1]" "click" None]
              (step_of "//nowhere" "input" (Some "5"))
              (TimeoutException "Message: ")
              []
              [Call (Get shop_url);
               Call (WaitPresence "xpath" (JStr "//button")); Call (Click 3)]
              [Call (Get shop_url);
               Call (WaitPresence "xpath" (JStr "//button")); Call (Click 3);
               Call (WaitPresence "xpath" (JStr "//nowhere"))]
              eq_refl eq_refl eq_refl eq_refl eq_refl) as [Hrun _].
  exact Hrun.
Defined.

Lemma unrecognized_step_is_only_looked_up_witness :
  run_step (serve shop_page) Original hover_step []
  = (Ok tt, [Call (WaitPresence "xpath" (JStr "//button"))])
  /\ run_step (serve shop_page) Original
       (step_of "//button" "scroll" (Some "down")) []
     = run_step (serve shop_page) Original hover_step [].
Proof.
  destruct (unrecognized_step_is_only_looked_up (serve shop_page) Original
              hover_step (JStr "//button") (JStr "hover") []
              eq_refl eq_refl eq_refl) as (Hfound & _ & Hsame).
  split.
  - exact (proj1 (Hfound 3 eq_refl)).
  - exact (Hsame (step_of "//button" "scroll" (Some "down")) (JStr "scroll")
             eq_refl eq_refl eq_refl).
Defined.

(** C4 (as stated) fails.  A step of an unknown type is looked up like any
    other: the lookup is a command sent to the browser, and when it times
    out the run ends there with a failure; the click that follows is never
    sent. *)
Lemma unrecognized_step_can_fail :
  recognized Original (JStr "hover") = false
  /\ execute_test cpython_str (serve shop_page) Original shop_url
       (test_case_of [step_of "//nowhere" "hover" None;
                      step_of "//button" "click" None]) []
     = ((false, "Test execution failed: Message: "),
        [Call (Get shop_url);
         Call (WaitPresence "xpath" (JStr "//nowhere"))])
  /\ execute_test cpython_str (serve shop_page) Original shop_url
       (test_case_of [hover_step]) []
     = ((true, "Test executed successfully"),
        [Call (Get shop_url);
         Call (WaitPresence "xpath" (JStr "//button"))]).
Proof. repeat split. Qed.


(** The steps of [form_steps] on [shop_page], and those of [reveal_steps]
    in [revealing], where the field cannot be found before the click and
    is found when its turn comes. *)
Lemma execute_test_replays_witness :
  execute_test cpython_str (serve shop_page) Original shop_url
    (test_case_of form_steps) []
  = ((true, "Test executed successfully"),
     [Call (Get shop_url);
      Call (WaitPresence "xpath" (JStr "//input[1]")); Call (Click 1);
      Call (WaitPresence "xpath" (JStr "//input[1]"));
      Call (Clear 1); Call (SendKeys 1 (JStr "2500000"));
      Call (WaitPresence "xpath" (JStr "//button")); Call (Click 3)])
  /\ revealing elem [Call (Get shop_url)]
       (WaitPresence "xpath" (JStr "//field"))
     = Raise (TimeoutException "Message: ")
  /\ execute_test cpython_str revealing Original shop_url
       (test_case_of reveal_steps) []
     = ((true, "Test executed successfully"),
        [Call (Get shop_url);
         Call (WaitPresence "xpath" (JStr "//button")); Call (Click 3);
         Call (WaitPresence "xpath" (JStr "//field"));
         Call (Clear 4); Call (SendKeys 4 (JStr "5"))]).
Proof.
  split; [|split; [reflexivity|]].
  - apply (execute_test_replays cpython_str (serve shop_page) Original
             shop_resolve shop_url (test_case_of form_steps)
             (JList form_steps) form_steps [] eq_refl eq_refl eq_refl).
    simpl. repeat (eexists || split || reflexivity).
  - apply (execute_test_replays cpython_str revealing Original
             revealed shop_url (test_case_of reveal_steps)
             (JList reveal_steps) reveal_steps [] eq_refl eq_refl eq_refl).
    simpl. repeat (eexists || split || reflexivity).
Defined.

(** C8 (as stated) fails.  In both runs every step has a recognized
    [step_type] and a locator that resolves.  In the first the [input]
    step carries no [input_value]: the click is made, the field is cleared,
    and the run fails on the missing key.  In the second the [select] step
    designates an element that is not a [select]: the [Select] wrapper
    raises. *)
Lemma resolved_steps_can_fail :
  execute_test cpython_str (serve shop_page) Original shop_url
    (test_case_of [step_of "//button" "click" None;
                   step_of "//input[2]" "input" None]) []
  = ((false, "Test execution failed: 'input_value'"),
     [Call (Get shop_url);
      Call (WaitPresence "xpath" (JStr "//button")); Call (Click 3);
      Call (WaitPresence "xpath" (JStr "//input[2]")); Call (Clear 2)])
  /\ execute_test cpython_str (serve shop_page) Original shop_url
       (test_case_of [step_of "//input[1]" "select" (Some "Monthly")]) []
     = ((false,
         "Test execution failed: Select only works on <select> elements"),
        [Call (Get shop_url);
         Call (WaitPresence "xpath" (JStr "//input[1]"));
         Call (NewSelect 1)]).
Proof. split; reflexivity. Qed.

(** C5 (as stated) fails.  The generator returns this test case, whose
    only step is an [input] step without [input_value]; its execution
    locates the element, clears it, and fails on the missing key. *)
Lemma input_value_is_not_checked :
  generate_test_case cpython_str json_loads (Ok bare_input_reply)
  = Ok bare_input_case
  /\ execute_test cpython_str (serve shop_page) Original shop_url
       bare_input_case []
     = ((false, "Test execution failed: 'input_value'"),
        [Call (Get shop_url);
         Call (WaitPresence "xpath" (JStr "//input[1]")); Call (Clear 1)]).
Proof. split; reflexivity. Qed.

(** ** The element detector *)

Section DetectorFacts.

Local Open Scope list_scope.

Variable drv : browser.
Variable v : variant.

Lemma alike_refl {S A : Type} (m : M S A) : alike m m.
Proof. intros s. reflexivity. Qed.

Lemma alike_mbind {S A B : Type} (m1 m2 : M S A) (k1 k2 : A -> M S B) :
  alike m1 m2 -> (forall a, alike (k1 a) (k2 a)) ->
  alike (mbind m1 k1) (mbind m2 k2).
Proof.
  intros Hm Hk s. unfold mbind. rewrite Hm.
  destruct (m2 s) as [[a|e] s']; [apply Hk | reflexivity].
Qed.

Lemma alike_for_each {S A : Type} (f g : A -> M S unit) (l : list A) :
  (forall a, alike (f a) (g a)) -> alike (for_each f l) (for_each g l).
Proof.
  intros Hfg. induction l as [|a l IH]; [apply alike_refl|].
  simpl. apply alike_mbind; [apply Hfg | intros _; exact IH].
Qed.

Lemma generate_xpath_total {S : Type} `{Session S} (element : elem) (s : S) :
  exists x,
    _generate_xpath drv element s
    = (Ok x, record (Call (ExecuteScript GetXPathScript element)) s)
    /\ (forall err,
          drv (option string) (history s)
              (ExecuteScript GetXPathScript element) = Raise err ->
          x = None)
    /\ (forall y,
          drv (option string) (history s)
              (ExecuteScript GetXPathScript element) = Ok y ->
          x = y).
Proof.
  unfold _generate_xpath, attempt, perform.
  destruct (drv (option string) (history s)
              (ExecuteScript GetXPathScript element)) as [y|err].
  - exists y. split; [reflexivity|]. split; [discriminate | congruence].
  - exists None. split; [reflexivity|]. split; [congruence | discriminate].
Qed.

Lemma generate_xpath_quiet {S : Type} `{Session S} (element : elem) :
  alike (_generate_xpath (S:=S) (quiet drv) element)
        (_generate_xpath drv element).
Proof.
  intros s. unfold _generate_xpath, attempt, perform, quiet.
  now destruct (drv (option string) (history s)
                  (ExecuteScript GetXPathScript element)).
Qed.

Lemma scan_element_quiet (element_type : string) (element : elem) :
  alike (scan_element (quiet drv) element_type element)
        (scan_element drv element_type element).
Proof.
  unfold scan_element.
  repeat (apply alike_mbind; [apply alike_refl | intros ?]).
  apply alike_mbind; [apply generate_xpath_quiet | intros ?; apply alike_refl].
Qed.

Lemma scan_type_quiet (q : string * string) :
  alike (scan_type (quiet drv) q) (scan_type drv q).
Proof.
  destruct q as [element_type xpath]. unfold scan_type.
  apply alike_mbind; [apply alike_refl | intros elements].
  apply alike_mbind; [apply alike_refl | intros _].
  apply alike_for_each. intros e. apply scan_element_quiet.
Qed.

(** Appending to the group of a type changes that group only. *)
Lemma group_of_appended_same (t : string) (info : element_record)
  (data : inventory) (records : list element_record) :
  group_of t data = Some records ->
  exists data',
    appended t info data = Some data'
    /\ group_of t data' = Some (records ++ [info])
    /\ (forall t', t' <> t -> group_of t' data' = group_of t' data)
    /\ map fst data' = map fst data.
Proof.
  induction data as [|[k rs] data IH]; simpl; [discriminate|].
  destruct (k =? t) eqn:Ek.
  - intros [= ->]. eexists. split; [reflexivity|]. simpl. rewrite Ek.
    split; [reflexivity|]. split; [|reflexivity].
    intros t' Hne. apply String.eqb_eq in Ek. subst k.
    destruct (t =? t') eqn:E; [apply String.eqb_eq in E; congruence|reflexivity].
  - intros Hg. destruct (IH Hg) as (data' & -> & Hsame & Hother & Hkeys).
    eexists. split; [reflexivity|]. simpl. rewrite Ek.
    split; [exact Hsame|]. split.
    + intros t' Hne. destruct (k =? t'); [reflexivity|]. now apply Hother.
    + now rewrite Hkeys.
Qed.

(** C6 (as amended).  [_generate_xpath] never raises: whatever the script
    does, the call completes, with [None] when the script failed.  When
    the reads of an element succeed as the scan makes them and the script
    then fails, [scan_element] completes: the record of the element, with
    what was read and a null [xpath], is added at the end of the group of
    its type, no other group changes, and the loop goes on with the
    remaining elements.  For the whole scan a failure of the script is the
    same as the script returning nothing: the scan ends as it would in a
    browser where the script had returned nothing. *)
Theorem xpath_failure_is_isolated :
  (forall (element : elem) (d : detector),
      exists x,
        _generate_xpath drv element d
        = (Ok x, record (Call (ExecuteScript GetXPathScript element)) d)
        /\ (forall err,
              drv (option string) (history d)
                  (ExecuteScript GetXPathScript element) = Raise err ->
              x = None))
  /\ (forall (element_type : string) (element : elem) (d : detector)
           (id name class text : option string) (shown : string)
           (records : list element_record) (err : exn),
      let h1 := driver_log d ++ [Call (GetAttribute element "id")] in
      let h2 := h1 ++ [Call (GetAttribute element "name")] in
      let h3 := h2 ++ [Call (GetAttribute element "class")] in
      let h4 := h3 ++ [Call (GetText element)] in
      let h5 := h4 ++ [if shown =? "" then Call (GetAttribute element "value")
                       else Call (GetText element)] in
      let h6 := h5 ++ [Call (ExecuteScript GetXPathScript element)] in
      drv _ (driver_log d) (GetAttribute element "id") = Ok id ->
      drv _ h1 (GetAttribute element "name") = Ok name ->
      drv _ h2 (GetAttribute element "class") = Ok class ->
      drv _ h3 (GetText element) = Ok shown ->
      (if shown =? ""
       then drv _ h4 (GetAttribute element "value") = Ok text
       else exists again,
              drv _ h4 (GetText element) = Ok again /\ text = Some again) ->
      drv _ h5 (ExecuteScript GetXPathScript element) = Raise err ->
      group_of element_type (elements_data d) = Some records ->
      exists data,
        scan_element drv element_type element d
        = (Ok tt, {| driver_log := h6; elements_data := data |})
        /\ group_of element_type data
           = Some (records
                   ++ [[("type", Some element_type); ("id", id);
                        ("name", name); ("class", class); ("text", text);
                        ("xpath", None)]])
        /\ (forall t, t <> element_type ->
              group_of t data = group_of t (elements_data d))
        /\ (forall rest,
              for_each (scan_element drv element_type) (element :: rest) d
              = for_each (scan_element drv element_type) rest
                  {| driver_log := h6; elements_data := data |}))
  /\ (forall (url : string) (d : detector),
        detect_elements drv v url d = detect_elements (quiet drv) v url d).
Proof.
  split; [|split].
  - intros element d.
    destruct (generate_xpath_total element d) as (x & Hrun & Hnone & _).
    eauto.
  - intros element_type element d id name class text shown records err
           h1 h2 h3 h4 h5 h6 Hid Hname Hclass Hshown Htext Hscript Hgroup.
    destruct (group_of_appended_same element_type
                [("type", Some element_type); ("id", id); ("name", name);
                 ("class", class); ("text", text); ("xpath", None)]
                (elements_data d) records Hgroup)
      as (data & Happ & Hsame & Hother & _).
    exists data.
    assert (Hrun : scan_element drv element_type element d
                   = (Ok tt, {| driver_log := h6; elements_data := data |})).
    { subst h1 h2 h3 h4 h5 h6.
      unfold scan_element, _generate_xpath, attempt, mbind, perform, ret,
        append_record, Py.append.
      cbn [history record detector_session driver_log elements_data].
      unfold Py.append.
      rewrite Hid, Hname, Hclass, Hshown.
      destruct shown as [|c shown]; cbn [truthy String.eqb] in *.
      - cbn [history record detector_session driver_log elements_data].
        unfold Py.append.
        rewrite Htext. cbn [driver_log elements_data].
        rewrite Hscript. cbn [driver_log elements_data]. rewrite Happ.
        reflexivity.
      - destruct Htext as (again & Hagain & ->).
        cbn [history record detector_session driver_log elements_data].
        unfold Py.append.
        rewrite Hagain. cbn [driver_log elements_data].
        rewrite Hscript. cbn [driver_log elements_data]. rewrite Happ.
        reflexivity. }
    split; [exact Hrun|]. split; [exact Hsame|]. split; [exact Hother|].
    intros rest. simpl. unfold mbind at 1. now rewrite Hrun.
  - intros url d. symmetry. revert d. unfold detect_elements.
    apply alike_mbind; [apply alike_refl | intros _].
    apply alike_mbind; [apply alike_refl | intros _].
    apply alike_mbind; [apply alike_refl | intros _].
    apply alike_mbind; [destruct v; apply alike_refl | intros path].
    apply alike_mbind; [|intros _; apply alike_refl].
    apply alike_for_each. intros q. apply scan_type_quiet.
Qed.

End DetectorFacts.

Example generate_xpath_demo :
  _generate_xpath (serve demo_page) 7 ([] : trace)
  = (Ok (Some "body/div[2]/input[2]"),
     [Call (ExecuteScript GetXPathScript 7)]).
Proof. reflexivity. Qed.

(** On [shop_page] the script fails for the second input: its record has
    no [xpath], and the button, found later, is scanned all the same. *)
Example detect_elements_shop :
  fst (detect_elements (serve shop_page) Original shop_url new_detector)
  = Ok ([("input",
          [[("type", Some "input"); ("id", Some "amount");
            ("name", Some "amount"); ("class", None);
            ("text", Some "100"); ("xpath", Some (id_path "amount"))];
           [("type", Some "input"); ("id", None); ("name", None);
            ("class", Some "rate"); ("text", None); ("xpath", None)]]);
         ("button",
          [[("type", Some "button"); ("id", None); ("name", None);
            ("class", None); ("text", Some "Calculate");
            ("xpath", Some "body/div[1]/button[1]")]]);
         ("select", []); ("link", [])], None).
Proof. reflexivity. Qed.

(** The second input of [shop_page], for which the script fails, scanned
    when the group of the inputs is empty. *)
Lemma xpath_failure_is_isolated_witness :
  exists data,
    scan_element (serve shop_page) "input" 2
      {| driver_log := []; elements_data := [("input", [])] |}
    = (Ok tt,
       {| driver_log :=
            [Call (GetAttribute 2 "id"); Call (GetAttribute 2 "name");
             Call (GetAttribute 2 "class"); Call (GetText 2);
             Call (GetAttribute 2 "value");
             Call (ExecuteScript GetXPathScript 2)];
          elements_data := data |})
    /\ group_of "input" data
       = Some [[("type", Some "input"); ("id", None); ("name", None);
                ("class", Some "rate"); ("text", None); ("xpath", None)]].
Proof.
  destruct (proj1 (proj2 (xpath_failure_is_isolated (serve shop_page)
                            Original))
              "input" 2
              {| driver_log := []; elements_data := [("input", [])] |}
              None None (Some "rate") None "" []
              (WebDriverException "javascript error")
              eq_refl eq_refl eq_refl eq_refl eq_refl eq_refl eq_refl)
    as (data & Hrun & Hgroup & _).
  exists data. split; [exact Hrun | exact Hgroup].
Defined.

(** C6 (as stated) fails.  On [stale_page] reading the first attribute of
    the first input raises; nothing isolates that failure: the scan stops
    there and [detect_elements] raises, with the second input and the
    button never looked at. *)
Lemma attribute_failure_aborts_scan :
  detect_elements (serve stale_page) Original shop_url new_detector
  = (Raise (WebDriverException "stale element reference"),
     {| driver_log :=
          [Call (Get shop_url);
           Call (WaitPresence "tag name" (JStr "body"));
           Call CurrentUrl;
           Call (FindElements "xpath" "//input");
           Call (GetAttribute 1 "id")];
        elements_data := [("input", [])] |}).
Proof. reflexivity. Qed.

(** * Further properties *)

(** ** More on the fences *)

Lemma blank_rstrip (w : string) : blank w -> Py.rstrip w = "".
Proof.
  unfold blank. induction w as [|c w IH]; simpl; [reflexivity|].
  destruct (Py.isspace c) eqn:Ec; [|discriminate].
  intros Hw. now rewrite (IH Hw).
Qed.

Lemma lstrip_blank_append (w t : string) :
  blank w -> Py.lstrip (w ++ t) = Py.lstrip t.
Proof.
  unfold blank. induction w as [|c w IH]; simpl; [reflexivity|].
  destruct (Py.isspace c); [exact IH | discriminate].
Qed.

Lemma rstrip_append_blank (t w : string) :
  Py.rstrip w = "" -> Py.rstrip (t ++ w) = Py.rstrip t.
Proof.
  intros Hw. induction t as [|c t IH]; simpl; [exact Hw|]. now rewrite IH.
Qed.

Lemma strip_code_fence_strip (x y : string) :
  Py.strip x = Py.strip y -> strip_code_fence x = strip_code_fence y.
Proof. intros Heq. unfold strip_code_fence. now rewrite Heq. Qed.

(** X4.  Whitespace around the fences changes nothing: a text wrapped in
    the two markers, with blanks before and after, is cleaned up to the
    stripped text. *)
Theorem strip_code_fence_padded (w1 w2 s : string) :
  blank w1 -> blank w2 ->
  strip_code_fence (w1 ++ fence_open ++ s ++ fence_close ++ w2) = Py.strip s.
Proof.
  intros H1 H2. rewrite <- strip_code_fence_fenced.
  apply strip_code_fence_strip. unfold Py.strip.
  rewrite lstrip_blank_append by exact H1.
  replace (fence_open ++ s ++ fence_close ++ w2)
    with ((fence_open ++ s ++ fence_close) ++ w2)
    by (now rewrite !append_assoc).
  replace (Py.lstrip ((fence_open ++ s ++ fence_close) ++ w2))
    with ((fence_open ++ s ++ fence_close) ++ w2) by reflexivity.
  rewrite rstrip_append_blank by (now apply blank_rstrip).
  reflexivity.
Qed.

(** Two spaces before the fences and a newline after them. *)
Lemma strip_code_fence_padded_witness :
  strip_code_fence
    ("  " ++ fence_open ++ " {} " ++ fence_close ++ Py.chr Py.newline)
  = Py.strip " {} ".
Proof.
  apply (strip_code_fence_padded "  " (Py.chr Py.newline) " {} ");
    reflexivity.
Defined.

Lemma rstrip_fence_append (s : string) :
  Py.rstrip (fence_close ++ s) = fence_close ++ Py.rstrip s.
Proof.
  destruct (Py.rstrip s) as [|c r] eqn:E.
  - rewrite rstrip_append_blank by exact E. reflexivity.
  - rewrite rstrip_append by congruence. now rewrite E.
Qed.

Lemma startswith_json_append (s t : string) :
  Py.startswith s "json" = false ->
  Py.startswith (s ++ String "`" t) "json" = false.
Proof.
  unfold Py.startswith.
  destruct s as [|c1 [|c2 [|c3 [|c4 s]]]]; simpl;
    repeat match goal with
           | |- context [ascii_dec ?a ?b] => destruct (ascii_dec a b)
           end; try reflexivity; try discriminate; auto.
  all: now destruct s.
Qed.

Lemma strip_code_fence_plain_fence (s : string) :
  Py.startswith s "json" = false ->
  strip_code_fence (fence_close ++ s ++ fence_close)
  = fence_close ++ Py.rstrip s.
Proof.
  intros Hs. unfold strip_code_fence.
  assert (Hstrip : Py.strip (fence_close ++ s ++ fence_close)
                   = fence_close ++ s ++ fence_close).
  { unfold Py.strip.
    replace (Py.lstrip (fence_close ++ s ++ fence_close))
      with ((fence_close ++ s) ++ fence_close)
      by (rewrite append_assoc; reflexivity).
    rewrite rstrip_append; [apply append_assoc | discriminate]. }
  rewrite Hstrip.
  assert (Hstart : Py.startswith (fence_close ++ s ++ fence_close) fence_open
                   = false).
  { pose proof (startswith_json_append s "``" Hs) as Hp.
    unfold Py.startswith, fence_open, fence_close in *. simpl.
    repeat (destruct (ascii_dec _ _); [|congruence]). exact Hp. }
  rewrite Hstart.
  replace (fence_close ++ s ++ fence_close)
    with ((fence_close ++ s) ++ fence_close) by apply append_assoc.
  rewrite endswith_append.
  change 3 with (String.length fence_close). rewrite chop_append.
  unfold Py.strip.
  replace (Py.lstrip (fence_close ++ s)) with (fence_close ++ s) by reflexivity.
  apply rstrip_fence_append.
Qed.

Lemma decoder_rejects_backtick (t : string) :
  json_loads (String "`" t) = Raise (JSONDecodeError (String "`" t)).
Proof. reflexivity. Qed.

(** ** The generator's failures *)

Section GeneratorErrors.

Variable describe : exn -> string.
Variable loads : string -> result json.

Lemma try_except_raise {A : Type} (body : result A) (wrap : exn -> exn)
  (e : exn) :
  try_except body (fun e0 => Raise (wrap e0)) = Raise e ->
  exists e0, body = Raise e0 /\ e = wrap e0.
Proof.
  destruct body as [a|e0]; simpl; [discriminate|].
  intros [= <-]. eauto.
Qed.

(** X1.  Whatever goes wrong, the transport, the status, the decoding or
    the validation, the exception that leaves [generate_test_case] is an
    [Exception] whose message starts with [Error generating test case: ]. *)
Theorem generate_test_case_wraps_errors (posted : result Response) (e : exn) :
  generate_test_case describe loads posted = Raise e ->
  exists msg, e = Exception ("Error generating test case: " ++ msg).
Proof.
  unfold generate_test_case. intros Hraise.
  apply try_except_raise in Hraise as (e0 & _ & ->). eauto.
Qed.

(** The generator up to the decoding of the message. *)
Lemma generate_inner (response : Response) (body : json) (content : string) :
  status_code response = 200%Z ->
  loads (text response) = Ok body ->
  message_content body = Ok (JStr content) ->
  generate_test_case describe loads (Ok response)
  = try_except
      (try_except
         (bind (loads (strip_code_fence content)) validate)
         (fun e =>
            match e with
            | JSONDecodeError _ =>
                Raise (Exception
                  ("Failed to parse LLM response as JSON: " ++ str describe e))
            | _ =>
                Raise (Exception
                  ("Invalid test case format: " ++ str describe e))
            end))
      (fun e =>
         Raise (Exception ("Error generating test case: " ++ str describe e))).
Proof.
  intros Hs Hbody Hcontent.
  unfold generate_test_case, response_json. simpl.
  apply Z.eqb_eq in Hs. rewrite Hs, Hbody. unfold message_content in Hcontent.
  simpl.
  destruct (Value.getitem body (Name "choices")) as [choices|]; [|discriminate].
  simpl in *.
  destruct (Value.getitem choices (Index 0)) as [choice|]; [|discriminate].
  simpl in *.
  destruct (Value.getitem choice (Name "message")) as [message|]; [|discriminate].
  simpl in *. rewrite Hcontent. reflexivity.
Qed.

(** A message on which the decoder raises a [JSONDecodeError]. *)
Lemma generate_parse_failure (response : Response) (body : json)
  (content d : string) :
  status_code response = 200%Z ->
  loads (text response) = Ok body ->
  message_content body = Ok (JStr content) ->
  loads (strip_code_fence content) = Raise (JSONDecodeError d) ->
  generate_test_case describe loads (Ok response)
  = Raise (Exception
      ("Error generating test case: "
       ++ "Failed to parse LLM response as JSON: "
       ++ describe (JSONDecodeError d))).
Proof.
  intros Hs Hbody Hcontent Hdoc.
  rewrite (generate_inner response body content Hs Hbody Hcontent), Hdoc.
  reflexivity.
Qed.

(** X2.  The message tells the stage that failed: the text of the
    transport error; the status code when it is not 200; the error of the
    decoding of the body, with no further prefix; [Failed to parse LLM
    response as JSON: ] before the error of the decoding of the message
    when that error is a [JSONDecodeError], and [Invalid test case
    format: ] before it when it is of another class; and [Invalid test
    case format: Invalid test case structure] when [steps] is not in the
    decoded value. *)
Theorem generate_test_case_messages (response : Response) :
  (forall e,
     generate_test_case describe loads (Raise e)
     = Raise (Exception ("Error generating test case: " ++ str describe e)))
  /\ (status_code response <> 200%Z ->
      generate_test_case describe loads (Ok response)
      = Raise (Exception
          ("Error generating test case: API request failed with status code: "
           ++ str_of_Z (status_code response))))
  /\ (forall e,
        status_code response = 200%Z -> loads (text response) = Raise e ->
        generate_test_case describe loads (Ok response)
        = Raise (Exception ("Error generating test case: " ++ str describe e)))
  /\ (forall body content d,
        status_code response = 200%Z ->
        loads (text response) = Ok body ->
        message_content body = Ok (JStr content) ->
        loads (strip_code_fence content) = Raise (JSONDecodeError d) ->
        generate_test_case describe loads (Ok response)
        = Raise (Exception
            ("Error generating test case: "
             ++ "Failed to parse LLM response as JSON: "
             ++ describe (JSONDecodeError d))))
  /\ (forall body content e,
        status_code response = 200%Z ->
        loads (text response) = Ok body ->
        message_content body = Ok (JStr content) ->
        loads (strip_code_fence content) = Raise e ->
        (forall d, e <> JSONDecodeError d) ->
        generate_test_case describe loads (Ok response)
        = Raise (Exception
            ("Error generating test case: Invalid test case format: "
             ++ str describe e)))
  /\ (forall body content test_case,
        status_code response = 200%Z ->
        loads (text response) = Ok body ->
        message_content body = Ok (JStr content) ->
        loads (strip_code_fence content) = Ok test_case ->
        Value.contains "steps" test_case <> Ok true ->
        generate_test_case describe loads (Ok response)
        = Raise (Exception
            ("Error generating test case: Invalid test case format: "
             ++ "Invalid test case structure"))).
Proof.
  split; [reflexivity|].
  split.
  { intros Hs. unfold generate_test_case. simpl.
    apply Z.eqb_neq in Hs. now rewrite Hs. }
  split.
  { intros e Hs Hbody. unfold generate_test_case, response_json. simpl.
    apply Z.eqb_eq in Hs. now rewrite Hs, Hbody. }
  split.
  { intros body content d. apply generate_parse_failure. }
  split.
  { intros body content e Hs Hbody Hcontent Hdoc Hclass.
    rewrite (generate_inner response body content Hs Hbody Hcontent), Hdoc.
    destruct e; try reflexivity. now destruct (Hclass doc). }
  intros body content test_case Hs Hbody Hcontent Hdoc Hsteps.
  rewrite (generate_inner response body content Hs Hbody Hcontent), Hdoc.
  simpl. unfold validate.
  destruct test_case as [| | | | | |entries]; try reflexivity.
  simpl in *.
  destruct (existsb (fun kv => fst kv =? "steps") entries); [congruence|].
  reflexivity.
Qed.

(** X3.  Only the marker followed by [json] opens a fence.  A message
    fenced with bare markers keeps its opening marker through the
    clean-up, so with a decoder that rejects a text starting with a
    backquote the generator raises the parse failure. *)
Theorem plain_fence_is_rejected (response : Response) (body : json)
  (s : string) :
  (forall t, loads (String "`" t) = Raise (JSONDecodeError (String "`" t))) ->
  status_code response = 200%Z ->
  loads (text response) = Ok body ->
  message_content body = Ok (JStr (fence_close ++ s ++ fence_close)) ->
  Py.startswith s "json" = false ->
  strip_code_fence (fence_close ++ s ++ fence_close)
  = fence_close ++ Py.rstrip s
  /\ generate_test_case describe loads (Ok response)
     = Raise (Exception
         ("Error generating test case: "
          ++ "Failed to parse LLM response as JSON: "
          ++ describe (JSONDecodeError (fence_close ++ Py.rstrip s)))).
Proof.
  intros Hloads Hs Hbody Hcontent Hjson.
  pose proof (strip_code_fence_plain_fence s Hjson) as Hclean.
  split; [exact Hclean|].
  apply (generate_parse_failure response body _ _ Hs Hbody Hcontent).
  rewrite Hclean. apply Hloads.
Qed.

End GeneratorErrors.

(** A response with status 503. *)
Lemma generate_test_case_wraps_errors_witness :
  generate_test_case cpython_str json_loads
    (Ok {| status_code := 503; text := "Service Unavailable" |})
  = Raise (Exception
      "Error generating test case: API request failed with status code: 503")
  /\ exists msg,
       Exception
         "Error generating test case: API request failed with status code: 503"
       = Exception ("Error generating test case: " ++ msg).
Proof.
  split; [reflexivity|].
  exact (generate_test_case_wraps_errors cpython_str json_loads
           (Ok {| status_code := 503; text := "Service Unavailable" |})
           _ eq_refl).
Defined.

(** A failure of each stage after the transport. *)
Lemma generate_test_case_messages_witness :
  generate_test_case cpython_str json_loads
    (Ok {| status_code := 503; text := "Service Unavailable" |})
  = Raise (Exception
      ("Error generating test case: API request failed with status code: "
       ++ str_of_Z 503))
  /\ generate_test_case cpython_str json_loads
       (Ok {| status_code := 200; text := "<html>" |})
     = Raise (Exception
         ("Error generating test case: "
          ++ str cpython_str (JSONDecodeError "<html>")))
  /\ generate_test_case cpython_str json_loads
       (Ok (reply_of "Here is the test case."))
     = Raise (Exception
         ("Error generating test case: "
          ++ "Failed to parse LLM response as JSON: "
          ++ cpython_str (JSONDecodeError "Here is the test case.")))
  /\ generate_test_case cpython_str limited_loads (Ok (reply_of long_integer))
     = Raise (Exception
         ("Error generating test case: Invalid test case format: "
          ++ "Exceeds the limit (4300 digits) for integer string conversion: "
          ++ "value has 4301 digits; use sys.set_int_max_str_digits() "
          ++ "to increase the limit"))
  /\ generate_test_case cpython_str json_loads (Ok (reply_of "[]"))
     = Raise (Exception
         ("Error generating test case: Invalid test case format: "
          ++ "Invalid test case structure")).
Proof.
  split.
  { apply (generate_test_case_messages cpython_str json_loads
             {| status_code := 503; text := "Service Unavailable" |}).
    discriminate. }
  split.
  { apply (generate_test_case_messages cpython_str json_loads
             {| status_code := 200; text := "<html>" |}); reflexivity. }
  split.
  { eapply (generate_test_case_messages cpython_str json_loads
              (reply_of "Here is the test case.")); reflexivity. }
  split.
  { exact (proj1 (proj2 (proj2 (proj2 (proj2
             (generate_test_case_messages cpython_str limited_loads
                (reply_of long_integer))))))
             (JDict [("choices",
                      JList [JDict [("message",
                                     JDict [("role", JStr "assistant");
                                            ("content", JStr long_integer)])]])])
             long_integer
             (ValueError
                ("Exceeds the limit (4300 digits) for integer string "
                 ++ "conversion: value has 4301 digits; use "
                 ++ "sys.set_int_max_str_digits() to increase the limit"))
             eq_refl
             ltac:(vm_compute; reflexivity)
             ltac:(vm_compute; reflexivity)
             ltac:(vm_compute; reflexivity)
             ltac:(intros d; discriminate)). }
  eapply (generate_test_case_messages cpython_str json_loads
            (reply_of "[]"));
    [reflexivity | reflexivity | reflexivity | reflexivity | discriminate].
Defined.

(** An empty test case between bare markers, with the decoder of this
    file. *)
Lemma plain_fence_is_rejected_witness :
  json_loads (text plain_fence_reply) = Ok plain_fence_body
  /\ strip_code_fence
       (fence_close
        ++ (Py.chr Py.newline ++ json_text "{'steps': []}"
            ++ Py.chr Py.newline)
        ++ fence_close)
     = fence_close
       ++ Py.rstrip (Py.chr Py.newline ++ json_text "{'steps': []}"
                     ++ Py.chr Py.newline)
  /\ generate_test_case cpython_str json_loads (Ok plain_fence_reply)
     = Raise (Exception
         ("Error generating test case: "
          ++ "Failed to parse LLM response as JSON: "
          ++ cpython_str
               (JSONDecodeError
                  (fence_close
                   ++ Py.rstrip (Py.chr Py.newline
                                 ++ json_text "{'steps': []}"
                                 ++ Py.chr Py.newline))))).
Proof.
  split; [reflexivity|].
  apply (plain_fence_is_rejected cpython_str json_loads plain_fence_reply
           plain_fence_body
           (Py.chr Py.newline ++ json_text "{'steps': []}"
            ++ Py.chr Py.newline)).
  - exact decoder_rejects_backtick.
  - reflexivity.
  - reflexivity.
  - reflexivity.
  - reflexivity.
Defined.


(** ** More on the rendering *)

Section FormatterExtras.

Variable upper : string -> string.

Lemma join_app (sep : string) (l1 l2 : list string) :
  l1 <> [] -> l2 <> [] ->
  Py.join sep (l1 ++ l2)%list = Py.join sep l1 ++ sep ++ Py.join sep l2.
Proof.
  intros H1 H2. induction l1 as [|x l1 IH]; [contradiction|].
  destruct l1 as [|y l1].
  - simpl. destruct l2; [contradiction | reflexivity].
  - change (Py.join sep ((x :: y :: l1) ++ l2)%list)
      with (x ++ sep ++ Py.join sep ((y :: l1) ++ l2)%list).
    rewrite IH by discriminate.
    change (Py.join sep (x :: y :: l1)) with (x ++ sep ++ Py.join sep (y :: l1)).
    now rewrite !append_assoc.
Qed.

Lemma format_elements_data_lines (data : inventory) :
  _format_elements_data upper data
  = Py.join (Py.chr Py.newline) (rendered_lines upper data).
Proof. unfold _format_elements_data. now rewrite fold_append_groups. Qed.

Lemma rendered_lines_app (d1 d2 : inventory) :
  rendered_lines upper (d1 ++ d2)%list
  = (rendered_lines upper d1 ++ rendered_lines upper d2)%list.
Proof. unfold rendered_lines. apply flat_map_app. Qed.

Lemma rendered_lines_nonempty (d : inventory) :
  d <> [] -> rendered_lines upper d <> [].
Proof. destruct d as [|[t es] d]; [contradiction | discriminate]. Qed.

(** X5.  The rendering of an empty inventory is empty, and the rendering
    of two inventories put end to end is the two renderings joined by a
    newline. *)
Theorem format_elements_data_app (d1 d2 : inventory) :
  _format_elements_data upper [] = ""
  /\ (d1 <> [] -> d2 <> [] ->
      _format_elements_data upper (d1 ++ d2)%list
      = _format_elements_data upper d1 ++ Py.chr Py.newline
        ++ _format_elements_data upper d2).
Proof.
  split; [reflexivity|]. intros H1 H2.
  rewrite !format_elements_data_lines.
  rewrite rendered_lines_app.
  apply join_app; now apply rendered_lines_nonempty.
Qed.

Lemma filter_filter {A : Type} (p : A -> bool) (l : list A) :
  filter p (filter p l) = filter p l.
Proof.
  induction l as [|x l IH]; simpl; [reflexivity|].
  destruct (p x) eqn:E; simpl; [now rewrite E, IH | exact IH].
Qed.

(** X6.  An attribute whose value is [None] or empty leaves no trace in
    the rendering: removing these attributes from every record gives the
    same text. *)
Theorem format_elements_data_erases_falsy (data : inventory) :
  _format_elements_data upper (erase_falsy data)
  = _format_elements_data upper data.
Proof.
  rewrite !format_elements_data_lines. f_equal.
  unfold rendered_lines, erase_falsy.
  induction data as [|[t es] data IH]; simpl; [reflexivity|].
  rewrite IH. do 2 f_equal. rewrite map_map. apply map_ext.
  intros r. unfold rendered_record. now rewrite filter_filter.
Qed.

End FormatterExtras.

(** An inventory of one input followed by an inventory without buttons. *)
Lemma format_elements_data_app_witness :
  _format_elements_data ascii_upper
    ([("input", [[("id", Some "amount"); ("name", None)]])]
     ++ [("button", [])])%list
  = _format_elements_data ascii_upper
      [("input", [[("id", Some "amount"); ("name", None)]])]
    ++ Py.chr Py.newline
    ++ _format_elements_data ascii_upper [("button", [])].
Proof.
  apply (format_elements_data_app ascii_upper
           [("input", [[("id", Some "amount"); ("name", None)]])]
           [("button", [])]);
    discriminate.
Defined.


(** ** More on XPath synthesis *)

Lemma append_empty_r (s : string) : s ++ "" = s.
Proof. induction s as [|c s IH]; simpl; [reflexivity | now rewrite IH]. Qed.

Section XPathExtras.

Variable toLowerCase : string -> string.
Variable doc : document.

Lemma to_uint_nonnil (n : nat) : Nat.to_uint n <> Decimal.Nil.
Proof.
  intros Hnil.
  assert (Hn : n = 0)
    by (rewrite <- (DecimalNat.Unsigned.of_to n), Hnil; reflexivity).
  subst. discriminate Hnil.
Qed.

Lemma str_of_nat_inj (n m : nat) : Py.str_of_nat n = Py.str_of_nat m -> n = m.
Proof.
  unfold Py.str_of_nat. intros Heq.
  apply DecimalNat.Unsigned.to_uint_inj.
  pose proof (DecimalString.NilZero.usu _ (to_uint_nonnil n)) as Hn.
  pose proof (DecimalString.NilZero.usu _ (to_uint_nonnil m)) as Hm.
  congruence.
Qed.

Lemma append_inj_l (p s t : string) : p ++ s = p ++ t -> s = t.
Proof. induction p as [|c p IH]; simpl; [auto | intros [= H]; auto]. Qed.

Lemma append_bracket_inj (s t : string) : s ++ "]" = t ++ "]" -> s = t.
Proof.
  revert t; induction s as [|c s IH]; intros [|d t]; simpl; intros Heq.
  - reflexivity.
  - destruct t; discriminate.
  - destruct s; discriminate.
  - injection Heq as -> Heq. f_equal. now apply IH.
Qed.

Lemma preceding_same_tag_lt (siblings : list node) (tag : string)
  (i j : nat) (id : string) (children : list node) :
  i < j -> nth_error siblings i = Some (Element tag id children) ->
  preceding_same_tag siblings i tag < preceding_same_tag siblings j tag.
Proof.
  unfold preceding_same_tag. revert i j.
  induction siblings as [|sibling rest IH]; intros i j Hlt Hi.
  - now destruct i.
  - destruct j as [|j]; [lia|]. destruct i as [|i]; simpl in *.
    + injection Hi as ->. simpl. rewrite String.eqb_refl. simpl. lia.
    + assert (i < j) by lia.
      specialize (IH i j H Hi).
      destruct sibling as [t ? ?|]; [destruct (t =? tag)|]; simpl; lia.
Qed.

(** The path of an element that has no [id] and is not the body. *)
Lemma getXPath_segment (self : nat) (parent : address) (tag : string)
  (children : list node) :
  node_at doc (self :: parent) = Some (Element tag "" children) ->
  is_body doc (self :: parent) = false ->
  exists p,
    getXPath toLowerCase doc parent = Returns p
    /\ getXPath toLowerCase doc (self :: parent)
       = Returns
           (p ++ "/" ++ toLowerCase tag ++ "["
            ++ Py.str_of_nat
                 (1 + preceding_same_tag (children_at doc parent) self tag)
            ++ "]").
Proof.
  intros Hn Hbody.
  destruct (getXPath_returns toLowerCase doc parent
              (parent_designates doc _ _ _ Hn)) as [p Hpath].
  exists p. split; [exact Hpath|].
  simpl in Hn. simpl getXPath. rewrite Hn. simpl negb. cbv iota.
  rewrite Hbody, count_siblings_reaches; [|lia|].
  - rewrite Hpath, Nat.sub_0_r. cbn [extend Nat.add].
    rewrite (Nat.add_comm _ 1). reflexivity.
  - rewrite Nat.sub_0_r. apply nth_error_Some. congruence.
Qed.

Lemma segment_inj (p t : string) (n m : nat) :
  p ++ "/" ++ t ++ "[" ++ Py.str_of_nat n ++ "]"
  = p ++ "/" ++ t ++ "[" ++ Py.str_of_nat m ++ "]" ->
  n = m.
Proof.
  intros Heq. apply append_inj_l in Heq. simpl in Heq. injection Heq as Heq.
  apply append_inj_l in Heq. injection Heq as Heq.
  apply append_bracket_inj in Heq. now apply str_of_nat_inj.
Qed.

(** X7.  Two different children of one parent that are elements of the
    same tag name, have no [id] and are not the body get different
    paths. *)
Theorem getXPath_distinguishes_siblings (parent : address) (i j : nat)
  (tag : string) (children children' : list node) :
  i <> j ->
  node_at doc (i :: parent) = Some (Element tag "" children) ->
  node_at doc (j :: parent) = Some (Element tag "" children') ->
  is_body doc (i :: parent) = false ->
  is_body doc (j :: parent) = false ->
  getXPath toLowerCase doc (i :: parent)
  <> getXPath toLowerCase doc (j :: parent).
Proof.
  intros Hij Hi Hj Hbi Hbj.
  destruct (getXPath_segment i parent tag children Hi Hbi) as (p & Hp & ->).
  destruct (getXPath_segment j parent tag children' Hj Hbj)
    as (p' & Hp' & ->).
  assert (p' = p) by congruence. subst p'.
  intros [= Heq]. apply segment_inj in Heq.
  simpl in Hi, Hj.
  destruct (Nat.lt_total i j) as [Hlt | [Heq' | Hlt]]; [|contradiction|].
  - pose proof (preceding_same_tag_lt _ tag i j "" children Hlt Hi). lia.
  - pose proof (preceding_same_tag_lt _ tag j i "" children' Hlt Hj). lia.
Qed.

(** X8.  The climb ends at the document when it meets neither an [id]
    nor the body: the path then starts with the predicate on the literal
    id [undefined]. *)
Theorem getXPath_unanchored (a : address) :
  designates doc a -> unanchored doc a ->
  exists rest,
    getXPath toLowerCase doc a
    = Returns
        ("//*[@id=" ++ String "034"%char
                         ("undefined" ++ String "034"%char ("]" ++ rest))).
Proof.
  intros Ha Hun.
  enough (H : exists rest,
            getXPath toLowerCase doc a
            = Returns (id_path "undefined" ++ rest)) by exact H.
  revert Ha Hun.
  induction a as [|self parent IH]; intros Ha Hun.
  - exists "". reflexivity.
  - destruct Ha as [Ha | [n Hn]]; [discriminate|].
    destruct Hun as (Hbody & Hid & Hparent).
    destruct n as [tag id children|].
    + specialize (Hid tag id children Hn). subst id.
      destruct (getXPath_segment self parent tag children Hn Hbody)
        as (p & Hp & ->).
      destruct (IH (parent_designates doc _ _ _ Hn) Hparent) as [rest Hrest].
      rewrite Hrest in Hp. injection Hp as Hp. subst p.
      exists (rest ++ "/" ++ toLowerCase tag ++ "["
              ++ Py.str_of_nat
                   (1 + preceding_same_tag (children_at doc parent) self tag)
              ++ "]").
      reflexivity.
    + exists "". simpl in Hn. simpl. now rewrite Hn.
Qed.

End XPathExtras.

(** The two inputs without [id] of the second [div] of [demo_doc]. *)
Lemma getXPath_distinguishes_siblings_witness :
  getXPath ascii_lower demo_doc [1; 3; 2; 1]
  <> getXPath ascii_lower demo_doc [3; 3; 2; 1].
Proof.
  apply (getXPath_distinguishes_siblings ascii_lower demo_doc [3; 2; 1] 1 3
           "INPUT" [] []);
    [discriminate | reflexivity | reflexivity | reflexivity | reflexivity].
Defined.

(** The [head] of [demo_doc]. *)
Lemma getXPath_unanchored_witness :
  exists rest,
    getXPath ascii_lower demo_doc [0; 1]
    = Returns
        ("//*[@id=" ++ String "034"%char
                         ("undefined" ++ String "034"%char ("]" ++ rest))).
Proof.
  apply (getXPath_unanchored ascii_lower demo_doc [0; 1]).
  - right. eexists. reflexivity.
  - simpl. split; [reflexivity|]. split.
    + intros tag id children H. inversion H. reflexivity.
    + split; [reflexivity|]. split; [|exact I].
      intros tag id children H. inversion H. reflexivity.
Defined.


(** ** More on the executor *)

Section ExecutorExtras.

Local Open Scope list_scope.

Variable describe : exn -> string.
Variable drv : browser.
Variable v : variant.

Lemma emits_ret {A : Type} (P : event -> Prop) (a : A) : emits P (ret a).
Proof. intros h r h' [= <- <-]. exists []. now rewrite app_nil_r. Qed.

Lemma emits_lift {A : Type} (P : event -> Prop) (x : result A) :
  emits P (lift x).
Proof. intros h r h' [= <- <-]. exists []. now rewrite app_nil_r. Qed.

Lemma emits_perform {A : Type} (P : event -> Prop) (c : command A) :
  P (Call c) -> emits P (perform drv c).
Proof. intros Hc h r h' [= <- <-]. exists [Call c]. split; auto. Qed.

Lemma emits_mbind {A B : Type} (P : event -> Prop) (m : M trace A)
  (k : A -> M trace B) :
  emits P m -> (forall a, emits P (k a)) -> emits P (mbind m k).
Proof.
  intros Hm Hk h r h'. unfold mbind.
  destruct (m h) as [[a|e] h1] eqn:E.
  - intros Hr. destruct (Hm _ _ _ E) as (t1 & -> & H1).
    destruct (Hk a _ _ _ Hr) as (t2 & -> & H2).
    exists (t1 ++ t2). split; [now rewrite app_assoc | now apply Forall_app].
  - intros [= <- <-]. exact (Hm _ _ _ E).
Qed.

Lemma emits_run_step (step : json) : emits (step_event v) (run_step drv v step).
Proof.
  unfold run_step.
  repeat first
    [ apply emits_mbind; [|intros ?]
    | apply emits_lift
    | apply emits_ret
    | apply emits_perform; simpl; solve [auto | split; [reflexivity | discriminate]]
    | match goal with
      | |- emits _ (if ?b then _ else _) => destruct b
      | |- emits _ (match ?x with Original => _ | Copy => _ end) =>
          destruct x eqn:?
      end ].
Qed.

Lemma emits_run_steps (steps : list json) :
  emits (step_event v) (run_steps drv v steps).
Proof.
  induction steps as [|step steps IH].
  - apply emits_ret.
  - apply emits_mbind; [apply emits_run_step | intros _; exact IH].
Qed.

(** X9.  Whatever the test case, [execute_test] first sends the
    navigation; what follows is made of lookups by XPath, interactions with
    elements and, in the copy, the scroll scripts; the pause of the copy
    comes last and only when the run succeeded.  Nothing else is ever
    sent. *)
Theorem execute_test_trace_shape (url : string) (test_steps : json)
  (h : trace) :
  exists t,
    snd (execute_test describe drv v url test_steps h)
    = h ++ Call (Get url) :: t
        ++ (if fst (fst (execute_test describe drv v url test_steps h))
            then pause v else [])
    /\ Forall (step_event v) t.
Proof.
  unfold execute_test, mbind, lift. rewrite perform_trace.
  destruct (drv unit h (Get url)) as [[]|e].
  2:{ exists []. simpl. split; [reflexivity | constructor]. }
  destruct (Value.getitem test_steps (Name "steps")) as [steps|e].
  2:{ exists []. simpl. split; [reflexivity | constructor]. }
  destruct (Value.iterate steps) as [items|e].
  2:{ exists []. simpl. split; [reflexivity | constructor]. }
  destruct (run_steps drv v items (h ++ [Call (Get url)])) as [[[]|e] h'] eqn:E;
    destruct (emits_run_steps _ _ _ _ E) as (t & -> & Ht); exists t.
  - split; [|exact Ht]. unfold final_pause, pause, sleep, ret.
    destruct v; simpl; unfold Py.append; rewrite <- ?app_assoc; simpl;
      rewrite ?app_nil_r; reflexivity.
  - split; [|exact Ht]. simpl. now rewrite <- app_assoc, app_nil_r.
Qed.

(** X10.  A failed navigation, a test case without [steps] or whose
    [steps] cannot be iterated, and a first step without [value] all end
    the run with [false] and the message of the exception, the navigation
    being the only command sent. *)
Theorem execute_test_malformed (url : string) (test_steps : json) (h : trace) :
  (forall e, drv unit h (Get url) = Raise e ->
     execute_test describe drv v url test_steps h
     = ((false, failure_message describe e), h ++ [Call (Get url)]))
  /\ (forall e, drv unit h (Get url) = Ok tt ->
        Value.getitem test_steps (Name "steps") = Raise e ->
        execute_test describe drv v url test_steps h
        = ((false, failure_message describe e), h ++ [Call (Get url)]))
  /\ (forall steps e, drv unit h (Get url) = Ok tt ->
        Value.getitem test_steps (Name "steps") = Ok steps ->
        Value.iterate steps = Raise e ->
        execute_test describe drv v url test_steps h
        = ((false, failure_message describe e), h ++ [Call (Get url)]))
  /\ (forall steps step rest e, drv unit h (Get url) = Ok tt ->
        Value.getitem test_steps (Name "steps") = Ok steps ->
        Value.iterate steps = Ok (step :: rest) ->
        Value.getitem step (Name "value") = Raise e ->
        execute_test describe drv v url test_steps h
        = ((false, failure_message describe e), h ++ [Call (Get url)])).
Proof.
  repeat split.
  - intros e Hget. unfold execute_test, mbind. now rewrite perform_trace, Hget.
  - intros e Hget Hsteps. unfold execute_test, mbind, lift.
    now rewrite perform_trace, Hget, Hsteps.
  - intros steps e Hget Hsteps Hitems. unfold execute_test, mbind, lift.
    now rewrite perform_trace, Hget, Hsteps, Hitems.
  - intros steps step rest e Hget Hsteps Hitems Hvalue.
    rewrite (execute_test_unfold describe drv v _ _ _ _ _ Hget Hsteps Hitems).
    rewrite run_steps_cons. unfold run_step, mbind, lift. now rewrite Hvalue.
Qed.

Lemma run_step_same_used_fields (step1 step2 : json) (h : trace) :
  same_used_fields step1 step2 ->
  run_step drv v step1 h = run_step drv v step2 h.
Proof.
  intros Hsame. unfold run_step.
  rewrite (Hsame "value"), (Hsame "step_type"), (Hsame "input_value");
    try reflexivity; unfold used_fields; simpl; auto.
Qed.

Lemma run_steps_same_used_fields (items1 items2 : list json) :
  Forall2 same_used_fields items1 items2 ->
  forall h, run_steps drv v items1 h = run_steps drv v items2 h.
Proof.
  induction 1 as [|step1 step2 items1 items2 Hstep _ IH]; intros h.
  - reflexivity.
  - rewrite !run_steps_cons, (run_step_same_used_fields _ _ h Hstep).
    destruct (run_step drv v step2 h) as [[[]|e] h']; [apply IH | reflexivity].
Qed.

(** X11.  The executor reads [value], [step_type] and [input_value]
    only: two test cases whose steps agree on these three run alike,
    whatever their [action] and [by] say. *)
Theorem execute_test_ignores_action_and_by (url : string)
  (test1 test2 steps1 steps2 : json) (items1 items2 : list json) (h : trace) :
  Value.getitem test1 (Name "steps") = Ok steps1 ->
  Value.iterate steps1 = Ok items1 ->
  Value.getitem test2 (Name "steps") = Ok steps2 ->
  Value.iterate steps2 = Ok items2 ->
  Forall2 same_used_fields items1 items2 ->
  execute_test describe drv v url test1 h
  = execute_test describe drv v url test2 h.
Proof.
  intros H1 Hi1 H2 Hi2 Hsame. unfold execute_test, mbind, lift.
  rewrite perform_trace, H1, H2, Hi1, Hi2.
  destruct (drv unit h (Get url)) as [[]|e]; [|reflexivity].
  now rewrite (run_steps_same_used_fields _ _ Hsame).
Qed.

End ExecutorExtras.

(** A browser that is offline, then a test case without [steps], with
    a number for [steps], and with a step without [value]. *)
Lemma execute_test_malformed_witness :
  execute_test cpython_str offline Original shop_url empty_test_case []
  = ((false, "Test execution failed: net::ERR_INTERNET_DISCONNECTED"),
     [Call (Get shop_url)])
  /\ execute_test cpython_str (serve shop_page) Original shop_url (JDict []) []
     = ((false, "Test execution failed: 'steps'"), [Call (Get shop_url)])
  /\ execute_test cpython_str (serve shop_page) Original shop_url
       (JDict [("steps", JInt 5)]) []
     = ((false, "Test execution failed: 'int' object is not iterable"),
        [Call (Get shop_url)])
  /\ execute_test cpython_str (serve shop_page) Original shop_url
       (test_case_of [JDict [("step_type", JStr "click")]]) []
     = ((false, "Test execution failed: 'value'"), [Call (Get shop_url)]).
Proof.
  split.
  { exact (proj1 (execute_test_malformed cpython_str offline Original
                    shop_url empty_test_case []) _ eq_refl). }
  split.
  { exact (proj1 (proj2 (execute_test_malformed cpython_str
                           (serve shop_page) Original shop_url (JDict []) []))
             _ eq_refl eq_refl). }
  split.
  { exact (proj1 (proj2 (proj2 (execute_test_malformed cpython_str
                                  (serve shop_page) Original shop_url
                                  (JDict [("steps", JInt 5)]) [])))
             _ _ eq_refl eq_refl eq_refl). }
  exact (proj2 (proj2 (proj2 (execute_test_malformed cpython_str
                                (serve shop_page) Original shop_url
                                (test_case_of
                                   [JDict [("step_type", JStr "click")]]) [])))
           _ _ _ _ eq_refl eq_refl eq_refl eq_refl).
Defined.

(** A click on the button, told in two ways. *)
Lemma execute_test_ignores_action_and_by_witness :
  execute_test cpython_str (serve shop_page) Copy shop_url
    (test_case_of [step_of "//button" "click" None]) []
  = execute_test cpython_str (serve shop_page) Copy shop_url
      (test_case_of [relabelled_click]) [].
Proof.
  apply (execute_test_ignores_action_and_by cpython_str (serve shop_page)
           Copy shop_url
           (test_case_of [step_of "//button" "click" None])
           (test_case_of [relabelled_click])
           (JList [step_of "//button" "click" None])
           (JList [relabelled_click])
           [step_of "//button" "click" None] [relabelled_click] []);
    try reflexivity.
  constructor; [|constructor].
  intros k [<-|[<-|[<-|[]]]]; reflexivity.
Defined.


Section Composition.

Variable describe : exn -> string.
Variable loads : string -> result json.
Variable drv : browser.
Variable v : variant.

(** X12.  A test case returned by the generator always gets the executor
    to its steps: [test_case['steps']] is there and can be iterated, and
    once the navigation succeeded the run is the run of the loop over the
    items of that iteration, the ones the generator checked; reading
    [value] and [step_type] from an item that is an object cannot fail. *)
Theorem generated_test_case_reaches_steps (posted : result Response)
  (test_case : json) (url : string) (h : trace) :
  generate_test_case describe loads posted = Ok test_case ->
  drv unit h (Get url) = Ok tt ->
  exists steps items,
    Value.getitem test_case (Name "steps") = Ok steps
    /\ Value.iterate steps = Ok items
    /\ execute_test describe drv v url test_case h
       = match run_steps drv v items (h ++ [Call (Get url)])%list with
         | (Ok _, h') =>
             ((true, "Test executed successfully"), (h' ++ pause v)%list)
         | (Raise e, h') =>
             ((false, "Test execution failed: " ++ str describe e), h')
         end
    /\ Forall
         (fun step =>
            forall fields, step = JDict fields ->
              exists x step_type,
                Value.getitem step (Name "value") = Ok x
                /\ Value.getitem step (Name "step_type") = Ok step_type)
         items.
Proof.
  destruct posted as [response|e]; [|discriminate].
  intros Hgen Hget. apply generate_ok in Hgen
    as [_ (body & content & entries & steps & items
           & _ & _ & _ & -> & Hsteps & Hitems & Hall)].
  assert (Hitem : Value.getitem (JDict entries) (Name "steps") = Ok steps)
    by (simpl; now rewrite Hsteps).
  exists steps, items. split; [exact Hitem|]. split; [exact Hitems|]. split.
  - exact (execute_test_unfold describe drv v url _ steps items h Hget
             Hitem Hitems).
  - eapply Forall_impl; [|exact Hall].
    intros step Hstep fields ->.
    pose proof (Hstep "value") as Hv. pose proof (Hstep "step_type") as Ht.
    unfold required_fields in Hv, Ht. simpl in Hv, Ht.
    assert (Hv' : existsb (fun kv => fst kv =? "value") fields = true)
      by (injection Hv; auto).
    assert (Ht' : existsb (fun kv => fst kv =? "step_type") fields = true)
      by (injection Ht; auto 6).
    apply contains_key_lookup in Hv' as [x Hx].
    apply contains_key_lookup in Ht' as [ty Hty].
    exists x, ty. simpl. now rewrite Hx, Hty.
Qed.

End Composition.

(** The test case of [click_reply] on [shop_page]. *)
Lemma generated_test_case_reaches_steps_witness :
  exists steps items,
    Value.getitem (test_case_of [step_of "//button" "click" None])
      (Name "steps") = Ok steps
    /\ Value.iterate steps = Ok items
    /\ execute_test cpython_str (serve shop_page) Original shop_url
         (test_case_of [step_of "//button" "click" None]) []
       = match run_steps (serve shop_page) Original items
                 ([] ++ [Call (Get shop_url)])%list with
         | (Ok _, h') =>
             ((true, "Test executed successfully"),
              (h' ++ pause Original)%list)
         | (Raise e, h') =>
             ((false, "Test execution failed: " ++ str cpython_str e), h')
         end
    /\ Forall
         (fun step =>
            forall fields, step = JDict fields ->
              exists x step_type,
                Value.getitem step (Name "value") = Ok x
                /\ Value.getitem step (Name "step_type") = Ok step_type)
         items.
Proof.
  apply (generated_test_case_reaches_steps cpython_str json_loads
           (serve shop_page) Original (Ok click_reply)
           (test_case_of [step_of "//button" "click" None]) shop_url []);
    reflexivity.
Defined.


(** ** More on the detector *)

Section DetectorExtras.

Local Open Scope list_scope.

Variable drv : browser.
Variable v : variant.

Lemma wait_for_body_patient :
  alike (wait_for_body (patient drv)) (wait_for_body drv).
Proof.
  intros d. unfold wait_for_body, attempt, mbind, perform, patient, ret, raise.
  destruct (drv elem (history d) (WaitPresence "tag name" (JStr "body")))
    as [e|[]]; reflexivity.
Qed.

(** X13.  A timeout of the wait for the body changes nothing to the
    scan, which goes on as if the body had been found; any other failure
    of that wait ends the scan at once. *)
Theorem body_timeout_is_tolerated (url : string) (d : detector) :
  detect_elements drv v url d = detect_elements (patient drv) v url d
  /\ (forall e,
        drv unit (driver_log d) (Get url) = Ok tt ->
        drv elem (driver_log d ++ [Call (Get url)])
            (WaitPresence "tag name" (JStr "body")) = Raise e ->
        (forall msg, e <> TimeoutException msg) ->
        detect_elements drv v url d
        = (Raise e,
           {| driver_log :=
                driver_log d
                ++ [Call (Get url);
                    Call (WaitPresence "tag name" (JStr "body"))];
              elements_data := elements_data d |})).
Proof.
  split.
  - symmetry. revert d. unfold detect_elements.
    apply alike_mbind; [apply alike_refl | intros _].
    apply alike_mbind; [apply wait_for_body_patient | intros _].
    apply alike_mbind; [apply alike_refl | intros _].
    apply alike_mbind; [destruct v; apply alike_refl | intros path].
    apply alike_mbind; [|intros _; apply alike_refl].
    apply alike_for_each. intros [t q]. unfold scan_type.
    apply alike_mbind; [apply alike_refl | intros elements].
    apply alike_mbind; [apply alike_refl | intros _].
    apply alike_for_each. intros e. apply alike_refl.
  - intros e Hget Hwait Hnot.
    cbv [detect_elements mbind wait_for_body attempt perform ret raise
         history record detector_session Py.append].
    cbn [driver_log elements_data]. rewrite Hget.
    cbn [driver_log elements_data]. rewrite Hwait.
    destruct e; try (now rewrite <- app_assoc).
    exfalso. eapply Hnot. reflexivity.
Qed.

(** *** The detector only observes *)

Lemma logs_ret {A : Type} (P : event -> Prop) (a : A) : logs P (ret a).
Proof. intros d r d' [= <- <-]. exists []. now rewrite app_nil_r. Qed.

Lemma logs_raise {A : Type} (P : event -> Prop) (e : exn) :
  logs P (raise (A:=A) e).
Proof. intros d r d' [= <- <-]. exists []. now rewrite app_nil_r. Qed.

Lemma logs_perform {A : Type} (P : event -> Prop) (c : command A) :
  P (Call c) -> logs P (perform drv c).
Proof. intros Hc d r d' [= <- <-]. exists [Call c]. split; auto. Qed.

Lemma logs_mbind {A B : Type} (P : event -> Prop) (m : M detector A)
  (k : A -> M detector B) :
  logs P m -> (forall a, logs P (k a)) -> logs P (mbind m k).
Proof.
  intros Hm Hk d r d'. unfold mbind.
  destruct (m d) as [[a|e] d1] eqn:E.
  - intros Hr. destruct (Hm _ _ _ E) as (t1 & H1 & P1).
    destruct (Hk a _ _ _ Hr) as (t2 & H2 & P2).
    exists (t1 ++ t2). split; [now rewrite H2, H1, app_assoc|].
    now apply Forall_app.
  - intros [= <- <-]. exact (Hm _ _ _ E).
Qed.

Lemma logs_attempt {A : Type} (P : event -> Prop) (m : M detector A)
  (handler : exn -> M detector A) :
  logs P m -> (forall e, logs P (handler e)) -> logs P (attempt m handler).
Proof.
  intros Hm Hk d r d'. unfold attempt.
  destruct (m d) as [[a|e] d1] eqn:E.
  - intros [= <- <-]. exact (Hm _ _ _ E).
  - intros Hr. destruct (Hm _ _ _ E) as (t1 & H1 & P1).
    destruct (Hk e _ _ _ Hr) as (t2 & H2 & P2).
    exists (t1 ++ t2). split; [now rewrite H2, H1, app_assoc|].
    now apply Forall_app.
Qed.

Lemma logs_for_each {A : Type} (P : event -> Prop)
  (body : A -> M detector unit) (l : list A) :
  (forall a, logs P (body a)) -> logs P (for_each body l).
Proof.
  intros Hbody. induction l as [|a l IH]; [apply logs_ret|].
  apply logs_mbind; [apply Hbody | intros _; exact IH].
Qed.

Lemma logs_reset_group (P : event -> Prop) (t : string) :
  logs P (reset_group t).
Proof. intros d r d' [= <- <-]. exists []. simpl. now rewrite app_nil_r. Qed.

Lemma logs_append_record (P : event -> Prop) (t : string)
  (info : element_record) :
  logs P (append_record t info).
Proof.
  intros d r d'. unfold append_record.
  destruct (appended t info (elements_data d)); intros [= <- <-];
    exists []; simpl; now rewrite app_nil_r.
Qed.

Ltac observe :=
  repeat first
    [ apply logs_mbind; [|intros ?]
    | apply logs_attempt; [|intros ?]
    | apply logs_ret
    | apply logs_raise
    | apply logs_reset_group
    | apply logs_append_record
    | apply logs_perform; simpl; solve [auto]
    | match goal with
      | |- logs _ (if ?b then _ else _) => destruct b
      | |- logs _ (match ?e with TimeoutException _ => _ | _ => _ end) =>
          destruct e
      end ].

Lemma logs_scan_element (t : string) (e : elem) :
  logs (observation v) (scan_element drv t e).
Proof. unfold scan_element, _generate_xpath. observe. Qed.

(** X14.  The detector only observes: whatever the page and however the
    scan ends, it sends the navigation, the wait for the body, queries,
    reads of attributes and text, the XPath script and, in the copy, the
    screenshot, and never clicks, types, clears or selects. *)
Theorem detect_elements_only_observes (url : string) (d : detector) :
  exists t,
    driver_log (snd (detect_elements drv v url d)) = driver_log d ++ t
    /\ Forall (observation v) t.
Proof.
  destruct (detect_elements drv v url d) as [r d'] eqn:E. simpl.
  revert d r d' E. change (logs (observation v) (detect_elements drv v url)).
  unfold detect_elements, wait_for_body, take_screenshot.
  apply logs_mbind; [observe | intros _].
  apply logs_mbind; [observe | intros _].
  apply logs_mbind; [observe | intros _].
  apply logs_mbind; [destruct v eqn:Ev; observe | intros path].
  apply logs_mbind.
  - apply logs_for_each. intros [t q]. unfold scan_type.
    apply logs_mbind; [observe | intros elements].
    apply logs_mbind; [observe | intros _].
    apply logs_for_each. intros e. apply logs_scan_element.
  - intros _ d0 r d' [= <- <-]. exists []. now rewrite app_nil_r.
Qed.

End DetectorExtras.

(** [shop_page] lists no body, so the wait times out; [crashed] fails
    it otherwise. *)
Lemma body_timeout_is_tolerated_witness :
  serve shop_page elem [Call (Get shop_url)]
    (WaitPresence "tag name" (JStr "body"))
  = Raise (TimeoutException "Message: ")
  /\ detect_elements (serve shop_page) Copy shop_url new_detector
     = detect_elements (patient (serve shop_page)) Copy shop_url new_detector
  /\ detect_elements crashed Copy shop_url new_detector
     = (Raise (WebDriverException "chrome not reachable"),
        {| driver_log :=
             [Call (Get shop_url);
              Call (WaitPresence "tag name" (JStr "body"))];
           elements_data := [] |}).
Proof.
  split; [reflexivity|]. split.
  - apply (body_timeout_is_tolerated (serve shop_page) Copy shop_url
             new_detector).
  - apply (body_timeout_is_tolerated crashed Copy shop_url new_detector);
      [reflexivity | reflexivity | discriminate].
Defined.


Section InventoryExtras.

Local Open Scope list_scope.

Variable drv : browser.
Variable v : variant.

Lemma group_of_dict_set (t k : string) (records : list element_record)
  (data : inventory) :
  group_of t (Value.dict_set k records data)
  = if k =? t then Some records else group_of t data.
Proof.
  induction data as [|[k' rs] data IH]; simpl.
  - reflexivity.
  - destruct (String.eqb_spec k' k) as [->|Hk]; simpl.
    + destruct (k =? t); reflexivity.
    + destruct (String.eqb_spec k' t) as [->|Ht].
      * apply not_eq_sym in Hk. apply String.eqb_neq in Hk. now rewrite Hk.
      * exact IH.
Qed.

Lemma group_of_appended (t k : string) (info : element_record)
  (data data' : inventory) :
  appended k info data = Some data' ->
  group_of t data'
  = if k =? t
    then option_map (fun records => Py.append records info) (group_of k data)
    else group_of t data.
Proof.
  revert data'. induction data as [|[k' rs] data IH]; intros data'; simpl.
  - discriminate.
  - destruct (String.eqb_spec k' k) as [->|Hk].
    + intros [= <-]. simpl. destruct (k =? t); reflexivity.
    + destruct (appended k info data) as [rest|]; [|discriminate].
      intros [= <-]. simpl. specialize (IH rest eq_refl).
      destruct (String.eqb_spec k' t) as [->|Ht].
      * apply not_eq_sym in Hk. apply String.eqb_neq in Hk. now rewrite Hk.
      * exact IH.
Qed.

Lemma keys_dict_set (k : string) (records : list element_record)
  (data : inventory) :
  map fst (Value.dict_set k records data) = with_key k (map fst data).
Proof.
  unfold with_key. induction data as [|[k' rs] data IH]; simpl.
  - reflexivity.
  - rewrite (String.eqb_sym k k').
    destruct (k' =? k); simpl; [reflexivity|].
    rewrite IH. now destruct (existsb (String.eqb k) (map fst data)).
Qed.

Lemma keys_appended (k : string) (info : element_record)
  (data data' : inventory) :
  appended k info data = Some data' -> map fst data' = map fst data.
Proof.
  revert data'. induction data as [|[k' rs] data IH]; intros data'; simpl.
  - discriminate.
  - destruct (k' =? k); [now intros [= <-]|].
    destruct (appended k info data) as [rest|]; [|discriminate].
    intros [= <-]. simpl. now rewrite (IH rest eq_refl).
Qed.

(** Rules for [keeps] and [ensures]. *)

Lemma keeps_perform {A : Type} (P : inventory -> Prop) (c : command A) :
  keeps P (perform drv c).
Proof. intros d r d' HP [= <- <-]. exact HP. Qed.

Lemma keeps_ret {A : Type} (P : inventory -> Prop) (a : A) : keeps P (ret a).
Proof. intros d r d' HP [= <- <-]. exact HP. Qed.

Lemma keeps_raise {A : Type} (P : inventory -> Prop) (e : exn) :
  keeps P (raise (A:=A) e).
Proof. intros d r d' HP [= <- <-]. exact HP. Qed.

Lemma keeps_mbind {A B : Type} (P : inventory -> Prop) (m : M detector A)
  (k : A -> M detector B) :
  keeps P m -> (forall a, keeps P (k a)) -> keeps P (mbind m k).
Proof.
  intros Hm Hk d r d' HP. unfold mbind.
  destruct (m d) as [[a|e] d1] eqn:E.
  - intros Hr. exact (Hk a _ _ _ (Hm _ _ _ HP E) Hr).
  - intros [= <- <-]. exact (Hm _ _ _ HP E).
Qed.

Lemma keeps_attempt {A : Type} (P : inventory -> Prop) (m : M detector A)
  (handler : exn -> M detector A) :
  keeps P m -> (forall e, keeps P (handler e)) -> keeps P (attempt m handler).
Proof.
  intros Hm Hk d r d' HP. unfold attempt.
  destruct (m d) as [[a|e] d1] eqn:E.
  - intros [= <- <-]. exact (Hm _ _ _ HP E).
  - intros Hr. exact (Hk e _ _ _ (Hm _ _ _ HP E) Hr).
Qed.

Lemma keeps_for_each {A : Type} (P : inventory -> Prop)
  (body : A -> M detector unit) (l : list A) :
  (forall a, keeps P (body a)) -> keeps P (for_each body l).
Proof.
  intros Hbody. induction l as [|a l IH]; [apply keeps_ret|].
  apply keeps_mbind; [apply Hbody | intros _; exact IH].
Qed.

Lemma keeps_ensures {A : Type} (P : inventory -> Prop) (m : M detector A) :
  keeps P m -> ensures P P m.
Proof. intros Hm d a d' HP E. exact (Hm _ _ _ HP E). Qed.

Lemma ensures_mbind {A B : Type} (P Q R : inventory -> Prop)
  (m : M detector A) (k : A -> M detector B) :
  ensures P Q m -> (forall a, ensures Q R (k a)) -> ensures P R (mbind m k).
Proof.
  intros Hm Hk d b d' HP. unfold mbind.
  destruct (m d) as [[a|e] d1] eqn:E; [|discriminate].
  intros Hr. exact (Hk a _ _ _ (Hm _ _ _ HP E) Hr).
Qed.

Ltac keep :=
  repeat first
    [ apply keeps_mbind; [|intros ?]
    | apply keeps_attempt; [|intros ?]
    | apply keeps_ret
    | apply keeps_raise
    | apply keeps_perform
    | match goal with
      | |- keeps _ (if ?b then _ else _) => destruct b
      | |- keeps _ (match ?e with TimeoutException _ => _ | _ => _ end) =>
          destruct e
      | |- keeps _ (match ?x with Original => _ | Copy => _ end) =>
          destruct x
      end ].

(** Appending a record built for [t] keeps the scanned groups scanned. *)
Lemma keeps_scanned_append_record (types : list string) (t : string)
  (info : element_record) :
  scanned_record t info -> keeps (scanned types) (append_record t info).
Proof.
  intros Hinfo d r d' Hsc. unfold append_record.
  destruct (appended t info (elements_data d)) as [data|] eqn:E;
    intros [= <- <-]; [|exact Hsc].
  simpl. intros t' Hin. rewrite (group_of_appended t' t info _ _ E).
  destruct (Hsc t' Hin) as (records & Hg & Hall).
  destruct (String.eqb_spec t t') as [->|Hne]; [|eauto].
  rewrite Hg. simpl. exists (Py.append records info). split; [reflexivity|].
  unfold Py.append. apply Forall_app. split; [exact Hall | now constructor].
Qed.

Lemma keeps_scanned_scan_element (types : list string) (t : string)
  (e : elem) :
  keeps (scanned types) (scan_element drv t e).
Proof.
  unfold scan_element, _generate_xpath. keep.
  apply keeps_scanned_append_record. unfold scanned_record. eauto 10.
Qed.

Lemma ensures_scanned_reset_group (types : list string) (t : string) :
  ensures (scanned types) (scanned (t :: types)) (reset_group t).
Proof.
  intros d a d' Hsc [= _ <-]. simpl. intros t' Hin.
  rewrite group_of_dict_set.
  destruct (String.eqb_spec t t') as [->|Hne]; [eauto|].
  destruct Hin as [->|Hin]; [contradiction | auto].
Qed.

Lemma ensures_scanned_scan_type (types : list string) (q : string * string) :
  ensures (scanned types) (scanned (fst q :: types)) (scan_type drv q).
Proof.
  destruct q as [t xpath]. unfold scan_type. simpl.
  apply ensures_mbind with (Q := scanned types);
    [apply keeps_ensures, keeps_perform | intros elements].
  apply ensures_mbind with (Q := scanned (t :: types));
    [apply ensures_scanned_reset_group | intros _].
  apply keeps_ensures, keeps_for_each. intros e.
  apply keeps_scanned_scan_element.
Qed.

Lemma ensures_scanned_scan_types (queries : list (string * string)) :
  forall types,
    ensures (scanned types)
            (scanned (rev (map fst queries) ++ types))
            (for_each (scan_type drv) queries).
Proof.
  induction queries as [|q queries IH]; intros types.
  - apply keeps_ensures, keeps_ret.
  - simpl. rewrite <- app_assoc.
    apply ensures_mbind with (Q := scanned (fst q :: types));
      [apply ensures_scanned_scan_type | intros _; apply IH].
Qed.

(** The keys of the inventory. *)

Lemma keeps_keys_append_record (keys : list string) (t : string)
  (info : element_record) :
  keeps (fun data => map fst data = keys) (append_record t info).
Proof.
  intros d r d' Hk. unfold append_record.
  destruct (appended t info (elements_data d)) as [data|] eqn:E;
    intros [= <- <-]; [|exact Hk].
  simpl. now rewrite (keys_appended _ _ _ _ E).
Qed.

Lemma ensures_keys_scan_type (keys : list string) (q : string * string) :
  ensures (fun data => map fst data = keys)
          (fun data => map fst data = with_key (fst q) keys)
          (scan_type drv q).
Proof.
  destruct q as [t xpath]. unfold scan_type. simpl.
  apply ensures_mbind with (Q := fun data => map fst data = keys);
    [apply keeps_ensures, keeps_perform | intros elements].
  apply ensures_mbind
    with (Q := fun data => map fst data = with_key t keys).
  - intros d a d' Hk [= _ <-]. simpl. now rewrite keys_dict_set, Hk.
  - intros _. apply keeps_ensures, keeps_for_each. intros e.
    unfold scan_element, _generate_xpath. keep.
    apply keeps_keys_append_record.
Qed.

Lemma ensures_keys_scan_types (queries : list (string * string)) :
  forall keys,
    ensures (fun data => map fst data = keys)
            (fun data =>
               map fst data
               = fold_left (fun ks q => with_key (fst q) ks) queries keys)
            (for_each (scan_type drv) queries).
Proof.
  induction queries as [|q queries IH]; intros keys.
  - apply keeps_ensures, keeps_ret.
  - simpl.
    apply ensures_mbind
      with (Q := fun data => map fst data = with_key (fst q) keys);
      [apply ensures_keys_scan_type | intros _; apply IH].
Qed.

Lemma mbind_ok {A B : Type} (m : M detector A) (k : A -> M detector B)
  (d d' : detector) (b : B) :
  mbind m k d = (Ok b, d') ->
  exists a d1, m d = (Ok a, d1) /\ k a d1 = (Ok b, d').
Proof.
  unfold mbind. destruct (m d) as [[a|e] d1]; [eauto | discriminate].
Qed.

(** X15.  A scan that completes returns the inventory the detector
    holds, and in the copy the screenshot's path.  Whatever the detector
    held before, the inventory then has a group for each of the four
    types, made only of records built in this scan for that type, with
    their six attributes in order; from a new detector its keys are the
    four types, in the order of the scan. *)
Theorem detect_elements_inventory (url : string) (d d' : detector)
  (data : inventory) (path : option string) :
  detect_elements drv v url d = (Ok (data, path), d') ->
  data = elements_data d'
  /\ path = match v with
            | Copy => Some screenshot_file
            | Original => None
            end
  /\ (forall t, In t (map fst element_types) ->
        exists records,
          group_of t data = Some records
          /\ Forall (scanned_record t) records)
  /\ (elements_data d = [] -> map fst data = map fst element_types).
Proof.
  unfold detect_elements. intros Hrun.
  apply mbind_ok in Hrun as (? & d1 & H1 & Hrun).
  apply mbind_ok in Hrun as (? & d2 & H2 & Hrun).
  apply mbind_ok in Hrun as (? & d3 & H3 & Hrun).
  apply mbind_ok in Hrun as (path' & d4 & H4 & Hrun).
  apply mbind_ok in Hrun as (? & d5 & H5 & Hrun).
  injection Hrun as <- <- <-.
  assert (Hdata : forall P : inventory -> Prop,
             P (elements_data d) -> P (elements_data d4)).
  { intros P HP.
    assert (K1 : keeps P (perform (S:=detector) drv (Get url)))
      by apply keeps_perform.
    assert (K2 : keeps P (wait_for_body drv))
      by (unfold wait_for_body; keep).
    assert (K3 : keeps P (perform (S:=detector) drv CurrentUrl))
      by apply keeps_perform.
    assert (K4 : keeps P (take_screenshot drv v))
      by (unfold take_screenshot; keep).
    exact (K4 _ _ _ (K3 _ _ _ (K2 _ _ _ (K1 _ _ _ HP H1) H2) H3) H4). }
  split; [reflexivity|]. split.
  { unfold take_screenshot in H4. destruct v.
    - now injection H4 as <- _.
    - apply mbind_ok in H4 as (? & ? & _ & H4). now injection H4 as <- _. }
  split.
  - intros t Hin.
    assert (Hsc : scanned [] (elements_data d4)) by (intros ? []).
    pose proof (ensures_scanned_scan_types element_types [] _ _ _ Hsc H5)
      as Hall.
    apply Hall. rewrite app_nil_r. now apply in_rev in Hin.
  - intros Hnew.
    assert (Hk : map fst (elements_data d4) = [])
      by (apply (Hdata (fun data => map fst data = [])); now rewrite Hnew).
    exact (ensures_keys_scan_types element_types [] _ _ _ Hk H5).
Qed.

End InventoryExtras.

(** The scan of [shop_page] by a new detector. *)
Lemma detect_elements_inventory_witness :
  demo_inventory
  = elements_data
      (snd (detect_elements (serve shop_page) Original (target_url Original)
              new_detector))
  /\ None = None :> option string
  /\ (forall t, In t (map fst element_types) ->
        exists records,
          group_of t demo_inventory = Some records
          /\ Forall (scanned_record t) records)
  /\ (elements_data new_detector = [] ->
      map fst demo_inventory = map fst element_types).
Proof.
  apply (detect_elements_inventory (serve shop_page) Original
           (target_url Original) new_detector
           (snd (detect_elements (serve shop_page) Original
                   (target_url Original) new_detector))
           demo_inventory None).
  reflexivity.
Defined.


(** ** The driver routine *)

(** X16.  The constructors take as Chrome binary the first path of the
    list that exists, and none when none exists. *)
Theorem binary_location_first (present : string -> bool)
  (paths : list string) :
  match binary_location_of present paths with
  | Some path =>
      exists earlier later,
        paths = (earlier ++ path :: later)%list
        /\ present path = true
        /\ Forall (fun p => present p = false) earlier
  | None => Forall (fun p => present p = false) paths
  end.
Proof.
  induction paths as [|p rest IH]; simpl; [constructor|].
  destruct (present p) eqn:Ep.
  - exists [], rest. split; [reflexivity|]. split; [exact Ep | constructor].
  - destruct (binary_location_of present rest) as [path|].
    + destruct IH as (earlier & later & -> & Hpath & Hearlier).
      exists (p :: earlier), later.
      split; [reflexivity|]. split; [exact Hpath|].
      constructor; assumption.
    + constructor; assumption.
Qed.

Section MainFacts.

Local Open Scope list_scope.

Variable describe : exn -> string.
Variable loads : string -> result json.
Variable upper : string -> string.
Variable default_api_key : variant -> string.
Variable v : variant.
Variable env : environment.

Local Abbreviation the_main := (main describe loads upper default_api_key v env).
Local Abbreviation the_run :=
  (main_run describe loads upper default_api_key v env).

Lemma main_is_run : the_run the_main.
Proof.
  unfold main, main_body, construct, generation, close_executor, act, mbind,
    ret, Py.append.
  cbn [app].
  destruct (launched v env Detecting) as [[]|e1] eqn:H1;
    [|now apply No_detector].
  destruct (detection v env) as [[found|e2] d] eqn:H2;
    [|now apply No_inventory].
  destruct (quit env Detecting) as [[]|e3] eqn:H3.
  2:{ apply (Detector_not_closed _ _ _ _ _ _ e3 found d); assumption. }
  destruct (typed env) as [user_prompt|e4] eqn:H4.
  2:{ rewrite <- app_assoc.
      apply (No_prompt _ _ _ _ _ _ e4 found d); assumption. }
  destruct (generate_test_case describe loads
              (post env (request_for upper default_api_key v env
                           (fst found) user_prompt (snd found))))
    as [test_case|e5] eqn:H5.
  2:{ rewrite <- !app_assoc.
      apply (No_test_case _ _ _ _ _ _ e5 found d user_prompt); assumption. }
  destruct (launched v env Executing) as [[]|e6] eqn:H6.
  2:{ rewrite <- !app_assoc.
      apply (No_executor _ _ _ _ _ _ e6 found d user_prompt test_case);
        assumption. }
  destruct (execution describe v env test_case) as [outcome h] eqn:H7.
  assert (Ho : outcome = fst (execution describe v env test_case))
    by now rewrite H7.
  assert (Hh : h = snd (execution describe v env test_case))
    by now rewrite H7.
  destruct v eqn:Hv.
  - destruct (quit env Executing) as [[]|e8] eqn:H8.
    + rewrite <- !app_assoc. cbn [app]. rewrite Ho, Hh, <- Hv.
      pose proof (Reported describe loads upper default_api_key v env
                    found d user_prompt test_case) as Hrun.
      rewrite Hv in Hrun |- *. apply Hrun; auto.
    + rewrite <- !app_assoc. cbn [app]. rewrite Hh.
      pose proof (Executor_not_closed describe loads upper default_api_key v
                    env e8 found d user_prompt test_case) as Hrun.
      rewrite Hv in Hrun. apply Hrun; auto.
  - rewrite <- !app_assoc. cbn [app]. rewrite Ho, Hh.
    pose proof (Reported describe loads upper default_api_key v env
                  found d user_prompt test_case) as Hrun.
    rewrite Hv in Hrun. rewrite app_nil_r in Hrun. apply Hrun; auto.
    discriminate.
Qed.

Lemma in_browse (who : role) (h : trace) (a : action) :
  In a (map (Browse who) h) -> exists ev, a = Browse who ev.
Proof. intros Hin. apply in_map_iff in Hin as (ev & <- & _). eauto. Qed.

(** Sorts out the membership of an action in a log. *)
Ltac members :=
  unfold launch_of in *;
  repeat match goal with
         | H : In _ (_ ++ _) |- _ => apply in_app_or in H; destruct H as [H|H]
         | H : In _ (_ :: _) |- _ => destruct H as [H|H]
         | H : In _ [] |- _ => destruct H
         | H : In _ (map (Browse _) _) |- _ =>
             apply in_browse in H; destruct H as [? H]
         | H : In _ (match ?x with Original => _ | Copy => _ end) |- _ =>
             destruct x
         | H : _ = _ :> action |- _ => first [discriminate H | injection H as H]
         end.

(** X17.  [main] sends a request only when detection succeeded and the
    detecting browser was quit, in that order.  The request carries the
    rendering of the detected inventory, the words the user typed, the
    model of the variant, the key, the referer and the title read from the
    environment, each with its fall-back when the variable is unset or
    empty, and, in the copy, the note on the screenshot when its path is
    not empty. *)
Theorem main_posts_after_detection (rq : Request) :
  In (Post rq) (snd the_main) ->
  exists found user_prompt d,
    detection v env = (Ok found, d)
    /\ quit env Detecting = Ok tt
    /\ typed env = Ok user_prompt
    /\ elements_description rq = _format_elements_data upper (fst found)
    /\ user_requirements rq = user_prompt
    /\ model rq = match v with
                  | Original => "deepseek/deepseek-r1-distill-llama-70b"
                  | Copy => "qwen/qwen-turbo"
                  end
    /\ authorization rq
       = ("Bearer " ++ match getenv env "OPENROUTER_API_KEY" with
                       | Some (String c key) => String c key
                       | _ => default_api_key v
                       end)%string
    /\ referer rq = match getenv env "SITE_URL" with
                    | Some (String c site) => String c site
                    | _ => "<YOUR_SITE_URL>"
                    end
    /\ title rq = match getenv env "SITE_NAME" with
                  | Some (String c site) => String c site
                  | _ => "<YOUR_SITE_URL>"
                  end
    /\ screenshot_note rq
       = match v, snd found with
         | Copy, Some (String _ _) =>
             "A screenshot of the page has been captured and is available for reference."
         | _, _ => ""
         end
    /\ before (QuitBrowser Detecting) (Post rq) (snd the_main).
Proof.
  pose proof main_is_run as Hrun.
  inversion Hrun as
      [ e H1 Heq | e d H1 H2 Heq | e found d H1 H2 H3 Heq
      | e found d H1 H2 H3 H4 Heq | e found d p H1 H2 H3 H4 H5 Heq
      | e found d p tc H1 H2 H3 H4 H5 H6 Heq
      | e found d p tc H1 H2 H3 H4 H5 H6 Hv H8 Heq
      | found d p tc H1 H2 H3 H4 H5 H6 H8 Heq ];
    cbn [snd]; intros Hin; try (members; fail).
  all: exists found, p, d; repeat (split; [assumption|]).
  all: assert (Hrq : rq = request_for upper default_api_key v env
                           (fst found) p (snd found))
         by (clear - Hin; members; subst; reflexivity).
  all: rewrite Hrq.
  all: repeat (split; [reflexivity|]).
  all: split; [destruct v; [reflexivity|];
               destruct (snd found) as [[|? ?]|]; reflexivity|].
  all: eexists (launch_of v env Detecting
                :: map (Browse Detecting) (driver_log d)), [Ask], _.
  all: cbn [app]; rewrite <- ?app_assoc; reflexivity.
Qed.

(** X18.  The executing browser is launched only after a request whose
    response gave a test case. *)
Theorem main_launches_executor_after_generation (arguments : list string)
  (binary : option string) :
  In (Launch Executing arguments binary) (snd the_main) ->
  exists rq test_case,
    generate_test_case describe loads (post env rq) = Ok test_case
    /\ before (Post rq) (Launch Executing arguments binary) (snd the_main).
Proof.
  pose proof main_is_run as Hrun.
  inversion Hrun as
      [ e H1 Heq | e d H1 H2 Heq | e found d H1 H2 H3 Heq
      | e found d H1 H2 H3 H4 Heq | e found d p H1 H2 H3 H4 H5 Heq
      | e found d p tc H1 H2 H3 H4 H5 H6 Heq
      | e found d p tc H1 H2 H3 H4 H5 H6 Hv H8 Heq
      | found d p tc H1 H2 H3 H4 H5 H6 H8 Heq ];
    cbn [snd]; intros Hin; try (members; fail).
  all: exists (request_for upper default_api_key v env (fst found) p
                 (snd found)), tc; split; [assumption|].
  all: assert (Hl : Launch Executing arguments binary = launch_of v env Executing)
         by (clear - Hin; members; subst; reflexivity).
  all: rewrite Hl.
  all: eexists (launch_of v env Detecting
                :: map (Browse Detecting) (driver_log d)
                ++ [QuitBrowser Detecting; Ask]), [], _.
  all: cbn [app]; rewrite <- ?app_assoc; reflexivity.
Qed.

(** X19.  When detection raises, the detecting browser is never quit.
    The copy never quits the executing browser; the original quits it last
    whenever it launched it, whether the test passed or not. *)
Theorem main_browser_sessions_end :
  (forall e d, detection v env = (Raise e, d) ->
               ~ In (QuitBrowser Detecting) (snd the_main))
  /\ (v = Copy -> ~ In (QuitBrowser Executing) (snd the_main))
  /\ (v = Original ->
      In (launch_of v env Executing) (snd the_main) ->
      launched v env Executing = Ok tt ->
      exists log, snd the_main = log ++ [QuitBrowser Executing]).
Proof.
  pose proof main_is_run as Hrun.
  inversion Hrun as
      [ e H1 Heq | e d H1 H2 Heq | e found d H1 H2 H3 Heq
      | e found d H1 H2 H3 H4 Heq | e found d p H1 H2 H3 H4 H5 Heq
      | e found d p tc H1 H2 H3 H4 H5 H6 Heq
      | e found d p tc H1 H2 H3 H4 H5 H6 Hv H8 Heq
      | found d p tc H1 H2 H3 H4 H5 H6 H8 Heq ];
    cbn [snd].
  all: split; [intros e' d' Hd Hin; try congruence; members; fail|].
  all: split; [intros Hc Hin; try congruence; members; try discriminate; fail|].
  all: intros Ho Hin Hl; try congruence; try (members; fail).
  - eexists. rewrite !app_comm_cons, !app_assoc. reflexivity.
  - rewrite Ho. eexists. rewrite !app_comm_cons, !app_assoc. reflexivity.
Qed.

(** X20.  Once the executor is launched, the last line [main] prints is
    the result line with the message of [execute_test], also when the
    execution failed: such a failure is reported, not raised. *)
Theorem main_reports_failed_execution (found : inventory * option string)
  (d : detector) (user_prompt : string) (test_case : json) :
  launched v env Detecting = Ok tt ->
  detection v env = (Ok found, d) ->
  quit env Detecting = Ok tt ->
  typed env = Ok user_prompt ->
  generate_test_case describe loads
    (post env (request_for upper default_api_key v env
                 (fst found) user_prompt (snd found))) = Ok test_case ->
  launched v env Executing = Ok tt ->
  (v = Original -> quit env Executing = Ok tt) ->
  fst the_main
  = ("Test execution result: "
     ++ snd (fst (execution describe v env test_case)))%string.
Proof.
  intros G1 G2 G3 G4 G5 G6 G8.
  pose proof main_is_run as Hrun.
  inversion Hrun as
      [ e H1 Heq | e d0 H1 H2 Heq | e found0 d0 H1 H2 H3 Heq
      | e found0 d0 H1 H2 H3 H4 Heq | e found0 d0 p H1 H2 H3 H4 H5 Heq
      | e found0 d0 p tc H1 H2 H3 H4 H5 H6 Heq
      | e found0 d0 p tc H1 H2 H3 H4 H5 H6 Hv H8 Heq
      | found0 d0 p tc H1 H2 H3 H4 H5 H6 H8 Heq ];
    cbn [fst]; try congruence.
  all: rewrite G2 in H2; injection H2 as <- <-.
  all: rewrite G4 in H4; injection H4 as <-.
  - specialize (G8 Hv). congruence.
  - assert (tc = test_case) by congruence. subst tc. reflexivity.
Qed.

End MainFacts.

(** The run in [demo_env]. *)
Lemma main_posts_after_detection_witness :
  exists found user_prompt d,
    detection Original demo_env = (Ok found, d)
    /\ quit demo_env Detecting = Ok tt
    /\ typed demo_env = Ok user_prompt
    /\ elements_description demo_request = _format_elements_data ascii_upper (fst found)
    /\ user_requirements demo_request = user_prompt
    /\ model demo_request = match Original with
                  | Original => "deepseek/deepseek-r1-distill-llama-70b"
                  | Copy => "qwen/qwen-turbo"
                  end
    /\ authorization demo_request
       = ("Bearer " ++ match getenv demo_env "OPENROUTER_API_KEY" with
                       | Some (String c key) => String c key
                       | _ => demo_key Original
                       end)%string
    /\ referer demo_request = match getenv demo_env "SITE_URL" with
                    | Some (String c site) => String c site
                    | _ => "<YOUR_SITE_URL>"
                    end
    /\ title demo_request = match getenv demo_env "SITE_NAME" with
                  | Some (String c site) => String c site
                  | _ => "<YOUR_SITE_URL>"
                  end
    /\ screenshot_note demo_request
       = match Original, snd found with
         | Copy, Some (String _ _) =>
             "A screenshot of the page has been captured and is available for reference."
         | _, _ => ""
         end
    /\ before (QuitBrowser Detecting) (Post demo_request)
         (snd (main cpython_str json_loads ascii_upper demo_key Original
                 demo_env)).
Proof.
  apply (main_posts_after_detection cpython_str json_loads ascii_upper
           demo_key Original demo_env demo_request).
  vm_compute. repeat (first [left; reflexivity | right]).
Defined.

(** The executing browser of the run in [demo_env]. *)
Lemma main_launches_executor_after_generation_witness :
  exists rq test_case,
    generate_test_case cpython_str json_loads (post demo_env rq)
    = Ok test_case
    /\ before (Post rq)
         (Launch Executing ["--start-maximized"] (Some "/usr/bin/chromium"))
         (snd (main cpython_str json_loads ascii_upper demo_key Original
                 demo_env)).
Proof.
  apply (main_launches_executor_after_generation cpython_str json_loads
           ascii_upper demo_key Original demo_env).
  vm_compute. repeat (first [left; reflexivity | right]).
Defined.

(** The run on the stale page, the copy in [demo_env] and the original
    in [demo_env]. *)
Lemma main_browser_sessions_end_witness :
  ~ In (QuitBrowser Detecting)
      (snd (main cpython_str json_loads ascii_upper demo_key Original
              stale_env))
  /\ ~ In (QuitBrowser Executing)
       (snd (main cpython_str json_loads ascii_upper demo_key Copy
               demo_env))
  /\ exists log,
       snd (main cpython_str json_loads ascii_upper demo_key Original
              demo_env)
       = (log ++ [QuitBrowser Executing])%list.
Proof.
  split.
  { eapply (main_browser_sessions_end cpython_str json_loads ascii_upper
              demo_key Original stale_env).
    reflexivity. }
  split.
  { apply (main_browser_sessions_end cpython_str json_loads ascii_upper
             demo_key Copy demo_env).
    reflexivity. }
  apply (main_browser_sessions_end cpython_str json_loads ascii_upper
           demo_key Original demo_env);
    [reflexivity | | reflexivity].
  vm_compute. repeat (first [left; reflexivity | right]).
Defined.

(** The run in [vanished_env], where the button cannot be clicked. *)
Lemma main_reports_failed_execution_witness :
  fst (main cpython_str json_loads ascii_upper demo_key Original
         vanished_env)
  = "Test execution result: Test execution failed: Message: ".
Proof.
  apply (main_reports_failed_execution cpython_str json_loads ascii_upper
           demo_key Original vanished_env (demo_inventory, None)
           (snd (detection Original vanished_env)) "Click the button"
           (test_case_of [step_of "//button" "click" None]));
    reflexivity.
Defined.


